(** * FinDOC_Classification: document ingestion and classification-response
      validation

    A shallow embedding of [document_processor.py] and
    [gemini_classifier.py].  Python values are modelled as follows:

    - [str] is a list of Unicode code points ([N]);
    - [bytes] is a list of [Byte.byte];
    - [float] is an IEEE-754 binary64 value, as [spec_float];
    - exceptions are values of [exn]; a computation that can raise and that
      mutates objects (the uploaded file's position, the Streamlit error
      area, the log, a local variable read by an [except] clause) lives in
      the monad [M]: the state survives a [raise], as it does in Python.

    The third-party libraries the program calls (PyPDF2, PIL, python-docx,
    the [json] module, pydantic, the generative-AI client) are not part of
    the repository; they are interfaces ([Class]es) the definitions are
    parametric in. *)

From Stdlib Require Import String Ascii.
From Stdlib Require Import List NArith ZArith Lia Bool.
From Stdlib.Strings Require Import Byte.
From Stdlib Require Import SpecFloat.
Import ListNotations.

Set Implicit Arguments.

(* ===================================================================== *)
(** * Python built-ins *)
(* ===================================================================== *)

Module Py.

(** ** Strings *)

Abbreviation codepoint := N (only parsing).
Definition str := list codepoint.

(** A string literal of the source. *)
Definition lit (s : string) : str := map N_of_ascii (list_ascii_of_string s).

Definition nl : str := [10%N].
Definition dquote : str := [34%N].

Fixpoint str_eqb (a b : str) : bool :=
  match a, b with
  | [], [] => true
  | x :: a', y :: b' => N.eqb x y && str_eqb a' b'
  | _, _ => false
  end.

(** [x in l] for a list of strings. *)
Definition list_in (x : str) (l : list str) : bool := existsb (str_eqb x) l.

(** [str.isspace] on one character: CPython's [_PyUnicode_IsWhitespace]. *)
Definition isspace (c : codepoint) : bool :=
  ((9 <=? c) && (c <=? 13) || (28 <=? c) && (c <=? 32)
   || (c =? 133) || (c =? 160) || (c =? 5760)
   || (8192 <=? c) && (c <=? 8202)
   || (c =? 8232) || (c =? 8233) || (c =? 8239) || (c =? 8287)
   || (c =? 12288))%N.

Fixpoint dropwhile {A} (p : A -> bool) (l : list A) : list A :=
  match l with
  | [] => []
  | x :: l' => if p x then dropwhile p l' else l
  end.

Definition lstrip (s : str) : str := dropwhile isspace s.
Definition rstrip (s : str) : str := rev (dropwhile isspace (rev s)).

(** [s.strip()] *)
Definition strip (s : str) : str := rstrip (lstrip s).

(** [s.startswith(p)] *)
Fixpoint startswith (p s : str) : bool :=
  match p, s with
  | [], _ => true
  | x :: p', y :: s' => N.eqb x y && startswith p' s'
  | _ :: _, [] => false
  end.

(** [s.endswith(p)] *)
Definition endswith (p s : str) : bool :=
  (length p <=? length s)%nat && str_eqb (skipn (length s - length p) s) p.

(** [s[n:]] *)
Definition slice_from (n : nat) (s : str) : str := skipn n s.

(** [s[:-n]] for [n > 0] *)
Definition slice_to_minus (n : nat) (s : str) : str := firstn (length s - n) s.

(** [sub in s] *)
Fixpoint contains (sub s : str) : bool :=
  startswith sub s ||
  match s with
  | [] => false
  | _ :: s' => contains sub s'
  end.

(** [sep.join(l)] *)
Fixpoint join (sep : str) (l : list str) : str :=
  match l with
  | [] => []
  | [x] => x
  | x :: l' => x ++ sep ++ join sep l'
  end.

(** ** Floats *)

Definition float := spec_float.

Definition float_0_0 : float := S754_zero false.
Definition float_1_0 : float := S754_finite false 4503599627370496 (-52).

(** The two-argument built-ins [min(a, b)] and [max(a, b)]: the first
    argument is kept unless the second compares strictly below (above)
    it. *)
Definition min2 (a b : float) : float := if SFltb b a then b else a.
Definition max2 (a b : float) : float := if SFltb a b then b else a.

(** ** Bytes and codecs *)

Definition bytes := list byte.

Definition byte_N (b : byte) : N := Byte.to_N b.

(** The Latin-1 reading of a byte string: every byte is the code point of
    its value. *)
Definition latin1 (b : bytes) : str := map byte_N b.

Definition is_cont (b : N) : bool := ((128 <=? b) && (b <=? 191))%N.

Definition cont_bits (b : N) : N := N.land b 63.

(** [b.decode('utf-8')] in strict mode, on the byte values: shortest form
    only, no surrogates, nothing above U+10FFFF. [None] is
    [UnicodeDecodeError]. *)
Fixpoint utf8_decode (b : list N) : option str :=
  match b with
  | [] => Some []
  | b0 :: r0 =>
    if (b0 <? 128)%N then option_map (cons b0) (utf8_decode r0)
    else if ((194 <=? b0) && (b0 <=? 223))%N then
      match r0 with
      | b1 :: r1 =>
        if is_cont b1
        then option_map (cons (N.shiftl (N.land b0 31) 6 + cont_bits b1)%N)
                        (utf8_decode r1)
        else None
      | _ => None
      end
    else if ((224 <=? b0) && (b0 <=? 239))%N then
      match r0 with
      | b1 :: b2 :: r2 =>
        if is_cont b1 && is_cont b2
           && (negb (b0 =? 224) || (160 <=? b1))%N
           && (negb (b0 =? 237) || (b1 <=? 159))%N
        then option_map
               (cons (N.shiftl (N.land b0 15) 12
                      + N.shiftl (cont_bits b1) 6 + cont_bits b2)%N)
               (utf8_decode r2)
        else None
      | _ => None
      end
    else if ((240 <=? b0) && (b0 <=? 244))%N then
      match r0 with
      | b1 :: b2 :: b3 :: r3 =>
        if is_cont b1 && is_cont b2 && is_cont b3
           && (negb (b0 =? 240) || (144 <=? b1))%N
           && (negb (b0 =? 244) || (b1 <=? 143))%N
        then option_map
               (cons (N.shiftl (N.land b0 7) 18
                      + N.shiftl (cont_bits b1) 12
                      + N.shiftl (cont_bits b2) 6 + cont_bits b3)%N)
               (utf8_decode r3)
        else None
      | _ => None
      end
    else None
  end.

(** ** Exceptions *)

(** The exception classes the program raises or names in an [except]
    clause; [Exception] stands for the base class itself and for every
    subclass not listed.  The argument is [str(e)]. *)
Inductive exn : Type :=
| ValueError (msg : str)
| TypeError (msg : str)
| UnicodeDecodeError (msg : str)
| JSONDecodeError (msg : str)
| PermissionDenied (msg : str)
| UnboundLocalError (msg : str)
| AttributeError (msg : str)
| ValidationError (msg : str)
| Exception (msg : str).

Definition exn_str (e : exn) : str :=
  match e with
  | ValueError m | TypeError m | UnicodeDecodeError m | JSONDecodeError m
  | PermissionDenied m | UnboundLocalError m | AttributeError m
  | ValidationError m | Exception m => m
  end.

Inductive result (A : Type) : Type :=
| Ok (a : A)
| Raise (e : exn).
Arguments Ok {A} a.
Arguments Raise {A} e.

(** [b.decode('latin-1')] *)
Definition decode_latin1 (b : bytes) : result str := Ok (latin1 b).

(** [b.decode('utf-8')] *)
Definition decode_utf8 (b : bytes) : result str :=
  match utf8_decode (map byte_N b) with
  | Some s => Ok s
  | None => Raise (UnicodeDecodeError (lit "'utf-8' codec can't decode bytes"))
  end.

(** ** Computations with mutable state and exceptions *)

Definition M (S A : Type) : Type := S -> result A * S.

Definition ret {S A} (a : A) : M S A := fun s => (Ok a, s).

Definition bind {S A B} (m : M S A) (k : A -> M S B) : M S B :=
  fun s =>
    match m s with
    | (Ok a, s') => k a s'
    | (Raise e, s') => (Raise e, s')
    end.

Definition raise {S A} (e : exn) : M S A := fun s => (Raise e, s).

(** [try: m  except ... as e: h e] where [h] re-raises what no clause
    catches. *)
Definition try_except {S A} (m : M S A) (h : exn -> M S A) : M S A :=
  fun s =>
    match m s with
    | (Ok a, s') => (Ok a, s')
    | (Raise e, s') => h e s'
    end.

Definition lift {S A} (r : result A) : M S A := fun s => (r, s).

Definition gets {S A} (f : S -> A) : M S A := fun s => (Ok (f s), s).

Definition modify {S} (f : S -> S) : M S unit := fun s => (Ok tt, f s).

End Py.

Import Py.

Declare Scope py_scope.
Delimit Scope py_scope with py.
Notation "x <- m ;; k" := (bind m (fun x => k))
  (at level 61, m at next level, right associativity) : py_scope.
Notation "m ;; k" := (bind m (fun _ => k))
  (at level 61, right associativity) : py_scope.
Open Scope py_scope.
Open Scope list_scope.

(* ===================================================================== *)
(** * Third-party libraries *)
(* ===================================================================== *)

(** [PIL.Image]: [Image.open] on a file object rewinds it and reads from
    its first byte what the format asks for. [Image_open] is the outcome
    for a file of the given bytes and [Image_tell] the position at which
    the file is left. *)
Class PIL : Type := {
  Image : Type;
  Image_open : bytes -> result Image;
  Image_tell : bytes -> nat
}.

(** [PyPDF2]: [PdfReader(io.BytesIO(b)).pages] and [page.extract_text()]. *)
Class PyPDF2 : Type := {
  Page : Type;
  PdfReader_pages : bytes -> result (list Page);
  page_extract_text : Page -> result str
}.

(** [docx]: the [paragraph.text] of [Document(io.BytesIO(b)).paragraphs]. *)
Class Docx : Type := {
  Document_paragraphs : bytes -> result (list str)
}.

(** [json.loads]. *)
Class JsonModule : Type := {
  Json : Type;
  json_loads : str -> result Json
}.

(** ** [document_processor.py] state *)

(** Streamlit's [UploadedFile]: a declared media type and an in-memory
    byte stream with a position. *)
Record UploadedFile : Type := {
  type : str;
  data : bytes;
  pos : nat
}.

(** What the extractor mutates: the file object and the messages shown by
    [st.error]. *)
Record ui_state : Type := {
  uploaded_file : UploadedFile;
  st_errors : list str
}.

(** [uploaded_file.read()] *)
Definition read : M ui_state bytes :=
  fun s =>
    let f := uploaded_file s in
    (Ok (skipn (pos f) (data f)),
     {| uploaded_file :=
          {| type := type f; data := data f;
             pos := Nat.max (pos f) (length (data f)) |};
        st_errors := st_errors s |}).

(** [uploaded_file.seek(n)] *)
Definition seek (n : nat) : M ui_state unit :=
  modify (fun s =>
    let f := uploaded_file s in
    {| uploaded_file := {| type := type f; data := data f; pos := n |};
       st_errors := st_errors s |}).

(** [st.error(msg)] *)
Definition st_error (msg : str) : M ui_state unit :=
  modify (fun s =>
    {| uploaded_file := uploaded_file s;
       st_errors := st_errors s ++ [msg] |}).

(** What [extract_text] hands to the classifier: a [str], a PIL image, or
    (for [classify_document] only) an object of another type. *)
Inductive content `{PIL} : Type :=
| Text (s : str)
| Picture (img : Image)
| OtherObject.

(* ===================================================================== *)
(** * [document_processor.py] *)
(* ===================================================================== *)

Module DocumentProcessor.
Section DocumentProcessor.
Context `{PIL} `{PyPDF2} `{Docx}.

(** The loop [for page in pdf_reader.pages: text += page.extract_text() + "\n"]. *)
Fixpoint pdf_pages_loop (pages : list Page) (text : str) : M ui_state str :=
  match pages with
  | [] => ret text
  | page :: rest =>
    t <- lift (page_extract_text page) ;;
    pdf_pages_loop rest (text ++ (t ++ nl))
  end.

Definition _extract_from_pdf : M ui_state str :=
  try_except
    (b <- read ;;
     pages <- lift (PdfReader_pages b) ;;
     text <- pdf_pages_loop pages [] ;;
     ret (strip text))
    (fun e =>
       raise (Exception (lit "Failed to extract text from PDF: " ++ exn_str e))).

(** The body of the inner [try] of [_extract_from_text]: the retry with
    another encoding. *)
Definition _extract_from_text_retry : M ui_state str :=
  seek 0 ;;
  b <- read ;;
  text <- lift (decode_latin1 b) ;;
  ret (strip text).

Definition _extract_from_text : M ui_state str :=
  try_except
    (b <- read ;;
     text <- lift (decode_utf8 b) ;;
     ret (strip text))
    (fun e =>
       match e with
       | UnicodeDecodeError _ =>
         try_except _extract_from_text_retry
           (fun e' =>
              raise (Exception (lit "Failed to decode text file: " ++ exn_str e')))
       | _ =>
         raise (Exception (lit "Failed to read text file: " ++ exn_str e))
       end).

(** The loop [for paragraph in doc.paragraphs: text += paragraph.text + "\n"]. *)
Fixpoint docx_paragraphs_loop (paragraphs : list str) (text : str) : str :=
  match paragraphs with
  | [] => text
  | paragraph :: rest => docx_paragraphs_loop rest (text ++ (paragraph ++ nl))
  end.

Definition _extract_from_docx : M ui_state str :=
  try_except
    (b <- read ;;
     paragraphs <- lift (Document_paragraphs b) ;;
     ret (strip (docx_paragraphs_loop paragraphs [])))
    (fun e =>
       raise (Exception (lit "Failed to extract text from Word document: "
                         ++ exn_str e))).

(** [Image.open(uploaded_file)]: the file object itself is passed, so
    the image is read from the start of the file whatever the position
    was. *)
Definition Image_open_file : M ui_state Image :=
  seek 0 ;;
  b <- gets (fun s => data (uploaded_file s)) ;;
  seek (Image_tell b) ;;
  lift (Image_open b).

(** The body of the [try] in [extract_text]. *)
Definition extract_text_try : M ui_state (option content) :=
  file_type <- gets (fun s => type (uploaded_file s)) ;;
  if str_eqb file_type (lit "application/pdf") then
    t <- _extract_from_pdf ;; ret (Some (Text t))
  else if startswith (lit "image/") file_type then
    img <- Image_open_file ;;
    ret (Some (Picture img))
  else if str_eqb file_type (lit "text/plain") then
    t <- _extract_from_text ;; ret (Some (Text t))
  else if str_eqb file_type
            (lit "application/vnd.openxmlformats-officedocument.wordprocessingml.document")
  then
    t <- _extract_from_docx ;; ret (Some (Text t))
  else
    raise (ValueError (lit "Unsupported file type: " ++ file_type)).

(** [extract_text]: [None] is Python's [None]. *)
Definition extract_text : M ui_state (option content) :=
  try_except extract_text_try
    (fun e =>
       st_error (lit "Error processing document: " ++ exn_str e) ;;
       ret None).

End DocumentProcessor.
End DocumentProcessor.

(* ===================================================================== *)
(** * [gemini_classifier.py] *)
(* ===================================================================== *)

(** The pydantic model [ClassificationResult]. *)
Record ClassificationResult : Type := {
  category : str;
  confidence : float;
  explanation : str
}.

Definition set_category (r : ClassificationResult) (c : str) : ClassificationResult :=
  {| category := c; confidence := confidence r; explanation := explanation r |}.

(** What building a pydantic model from data gives: the model, or a
    validation error with its message. *)
Inductive validated (A : Type) : Type :=
| Valid (a : A)
| Invalid (msg : str).
Arguments Valid {A} a.
Arguments Invalid {A} msg.

(** pydantic's validation when the model is built from the parsed data
    (the keyword-argument call of the [ClassificationResult] constructor). *)
Class Pydantic `{JsonModule} : Type := {
  ClassificationResult_new : Json -> validated ClassificationResult
}.

(** The constructor call: an invalid argument raises [ValidationError]. *)
Definition construct {A} (v : validated A) : result A :=
  match v with
  | Valid a => Ok a
  | Invalid msg => Raise (ValidationError msg)
  end.

(** A member of the client library's [BlockReason] enum: its integer value
    (0 is [BLOCK_REASON_UNSPECIFIED], the only falsy member) and its
    [.name]. *)
Record BlockReason : Type := {
  number : Z;
  name : str
}.

Definition truthy (b : BlockReason) : bool := negb (Z.eqb (number b) 0).

Record PromptFeedback : Type := {
  block_reason : BlockReason
}.

(** What reading an attribute of an object can do. *)
Inductive attribute (A : Type) : Type :=
| AttrValue (a : A)
| AttrMissing
| AttrRaises (e : exn).
Arguments AttrValue {A} a.
Arguments AttrMissing {A}.
Arguments AttrRaises {A} e.

(** The response object of [generate_content]. *)
Record Response : Type := {
  prompt_feedback : PromptFeedback;
  text : attribute str
}.

(** [hasattr(response, "text")]: only a missing attribute is [False]. *)
Definition hasattr_text (r : Response) : result bool :=
  match text r with
  | AttrValue _ => Ok true
  | AttrMissing => Ok false
  | AttrRaises e => Raise e
  end.

(** [response.text] *)
Definition get_text (r : Response) : result str :=
  match text r with
  | AttrValue s => Ok s
  | AttrMissing => Raise (AttributeError (lit "text"))
  | AttrRaises e => Raise e
  end.

(** The argument of [generate_content]: a prompt, or a list of a prompt
    and an image. *)
Inductive Request `{PIL} : Type :=
| PromptRequest (prompt : str)
| PartsRequest (prompt : str) (image : Image).

(** [self.model]: the remote generative model. *)
Class GenerativeModel `{PIL} : Type := {
  generate_content : Request -> result Response
}.

(** The values of the returned dict, and the dict itself. *)
Inductive pyvalue : Type :=
| VStr (s : str)
| VFloat (f : float).

Definition dict := list (str * pyvalue).

(** [d[k]] *)
Fixpoint getitem (d : dict) (k : str) : option pyvalue :=
  match d with
  | [] => None
  | (k', v) :: d' => if str_eqb k k' then Some v else getitem d' k
  end.

(** The frame of one call ([response] is unbound until assigned) and the
    messages passed to [logging.error]. *)
Record frame : Type := {
  response : option Response;
  log : list str
}.

Definition assign_response (r : Response) : M frame unit :=
  modify (fun s => {| response := Some r; log := log s |}).

(** [logging.error(msg)] *)
Definition logging_error (msg : str) : M frame unit :=
  modify (fun s => {| response := response s; log := log s ++ [msg] |}).

(** [getattr(response, 'text', default)] *)
Definition getattr_response_text (default : str) : M frame str :=
  fun s =>
    match response s with
    | None =>
      (Raise (UnboundLocalError
                (lit "cannot access local variable 'response' where it is not associated with a value")),
       s)
    | Some r =>
      match text r with
      | AttrValue t => (Ok t, s)
      | AttrMissing => (Ok default, s)
      | AttrRaises e => (Raise e, s)
      end
    end.

(** A method call: a fresh frame over the current log. *)
Definition call {A} (body : M frame A) : M (list str) A :=
  fun l =>
    let (r, fr) := body {| response := None; log := l |} in (r, log fr).

Module GeminiClassifier.
Section GeminiClassifier.
Context `{PIL} `{JsonModule} `{!Pydantic} `{!GenerativeModel}.

(** [self.categories] *)
Definition categories : list str :=
  [ lit "Invoice"; lit "Receipt"; lit "Bill"; lit "Check";
    lit "Bank Statement"; lit "Purchase Order"; lit "Delivery Challan";
    lit "Others" ].

Definition _create_classification_prompt : str :=
  lit "You are an expert financial document classifier. Your task is to analyze the provided document text and classify it into one of these categories:

**Categories and Definitions:**

1. **Invoice** - A bill sent to a customer requesting payment for goods or services provided. Usually contains seller details, buyer details, itemized list of goods/services, amounts, tax information, and payment terms.

2. **Receipt** - A document acknowledging that payment has been received for goods or services. Contains proof of purchase, amount paid, date of transaction, and method of payment.

3. **Bill** - A statement requesting payment for goods or services received. Similar to invoice but may be less formal, often from utilities, services, or suppliers.

4. **Check** - A written order directing a bank to pay money from the drawer's account. Contains bank details, account number, payee information, amount, date, and signature.

5. **Bank Statement** - A summary of financial transactions in a bank account over a specific period. Shows opening balance, deposits, withdrawals, fees, and closing balance.

6. **Purchase Order** - A document issued by a buyer to authorize a purchase transaction with a seller. Contains item descriptions, quantities, agreed prices, and delivery terms.

7. **Delivery Challan** - A document that accompanies goods during transport, showing details of goods being delivered. Often used in logistics and supply chain management.

8. **Others** - Any financial document that doesn't fit the above categories, such as contracts, agreements, financial reports, etc.

**Instructions:**
- Analyze the document content carefully
- Look for key indicators like document titles, formatting, specific terminology, and data patterns
- Consider the purpose and context of the document
- Provide your classification with a confidence score between 0.0 and 1.0
- Give a brief explanation of why you classified it this way
- Be conservative with confidence scores - only use high confidence (>0.9) when you're very certain

**Response Format:**
Respond with JSON in this exact format:
{
    "
  ++ dquote
  ++ lit "category"
  ++ dquote
  ++ lit ": "
  ++ dquote
  ++ lit "one of the 8 categories exactly as listed above"
  ++ dquote
  ++ lit ",
    "
  ++ dquote
  ++ lit "confidence"
  ++ dquote
  ++ lit ": "
  ++ dquote
  ++ lit "decimal between 0.0 and 1.0"
  ++ dquote
  ++ lit ",
    "
  ++ dquote
  ++ lit "explanation"
  ++ dquote
  ++ lit ": "
  ++ dquote
  ++ lit "brief explanation of classification reasoning"
  ++ dquote
  ++ lit "
}
".

Definition _classify_text (text : str) : M (list str) dict :=
  call (try_except
    (let system_prompt := _create_classification_prompt in
     let prompt :=
       system_prompt ++ nl ++ nl ++ lit "Document text to classify:"
       ++ nl ++ nl ++ text in
     response <- lift (generate_content (PromptRequest prompt)) ;;
     assign_response response ;;
     if truthy (block_reason (prompt_feedback response)) then
       raise (ValueError
                (lit "Classification failed due to safety settings. Reason: "
                 ++ name (block_reason (prompt_feedback response))))
     else
       has_text <- lift (hasattr_text response) ;;
       if has_text then
         t <- lift (get_text response) ;;
         let response_text := strip t in
         let response_text :=
           if startswith (lit "```json") response_text
           then slice_from 7 response_text else response_text in
         let response_text :=
           if endswith (lit "```") response_text
           then slice_to_minus 3 response_text else response_text in
         result_data <- lift (json_loads response_text) ;;
         classification_result <-
           lift (construct (ClassificationResult_new result_data)) ;;
         let classification_result :=
           if negb (list_in (category classification_result) categories)
           then set_category classification_result (lit "Others")
           else classification_result in
         let confidence' :=
           max2 float_0_0 (min2 float_1_0 (confidence classification_result)) in
         ret [ (lit "category", VStr (category classification_result));
               (lit "confidence", VFloat confidence');
               (lit "explanation", VStr (explanation classification_result)) ]
       else
         raise (ValueError
                  (lit "Classification failed: The AI returned an empty response.")))
    (fun e =>
       match e with
       | JSONDecodeError m =>
         raw_response <- getattr_response_text (lit "N/A") ;;
         logging_error (lit "JSON decode error: " ++ m
                        ++ lit ". AI response was: " ++ raw_response) ;;
         raise (ValueError
                  (lit "Classification failed: The AI returned improperly formatted data. Full AI response: "
                   ++ raw_response))
       | PermissionDenied m =>
         logging_error (lit "Permission Denied error: " ++ m) ;;
         raise (ValueError
                  (lit "Classification failed: Permission denied. Please check if your GEMINI_API_KEY is correct and has the necessary permissions."))
       | _ =>
         logging_error (lit "An unexpected classification error occurred: "
                        ++ exn_str e) ;;
         raise (ValueError
                  (lit "An unexpected error occurred during classification: "
                   ++ exn_str e))
       end)).

Definition _classify_image (image : Image) : M (list str) dict :=
  call (try_except
    (let system_prompt := _create_classification_prompt in
     response <- lift (generate_content (PartsRequest system_prompt image)) ;;
     assign_response response ;;
     if truthy (block_reason (prompt_feedback response)) then
       raise (ValueError
                (lit "Classification failed due to safety settings. Reason: "
                 ++ name (block_reason (prompt_feedback response))))
     else
       has_text <- lift (hasattr_text response) ;;
       if has_text then
         t <- lift (get_text response) ;;
         let response_text := strip t in
         let response_text :=
           if startswith (lit "```json") response_text
           then slice_from 7 response_text else response_text in
         let response_text :=
           if endswith (lit "```") response_text
           then slice_to_minus 3 response_text else response_text in
         result_data <- lift (json_loads response_text) ;;
         classification_result <-
           lift (construct (ClassificationResult_new result_data)) ;;
         let classification_result :=
           if negb (list_in (category classification_result) categories)
           then set_category classification_result (lit "Others")
           else classification_result in
         let confidence' :=
           max2 float_0_0 (min2 float_1_0 (confidence classification_result)) in
         ret [ (lit "category", VStr (category classification_result));
               (lit "confidence", VFloat confidence');
               (lit "explanation", VStr (explanation classification_result)) ]
       else
         raise (ValueError
                  (lit "Classification failed: The AI returned an empty response.")))
    (fun e =>
       match e with
       | JSONDecodeError m =>
         raw_response <- getattr_response_text (lit "N/A") ;;
         logging_error (lit "JSON decode error: " ++ m
                        ++ lit ". AI response was: " ++ raw_response) ;;
         raise (ValueError
                  (lit "Classification failed: The AI returned improperly formatted data. Full AI response: "
                   ++ raw_response))
       | PermissionDenied m =>
         logging_error (lit "Permission Denied error: " ++ m) ;;
         raise (ValueError
                  (lit "Classification failed: Permission denied. Please check if your GEMINI_API_KEY is correct and has the necessary permissions."))
       | _ =>
         logging_error (lit "An unexpected classification error occurred: "
                        ++ exn_str e) ;;
         raise (ValueError
                  (lit "An unexpected error occurred during classification: "
                   ++ exn_str e))
       end)).

Definition classify_document (content : content) : M (list str) dict :=
  match content with
  | Text s => _classify_text s
  | Picture img => _classify_image img
  | OtherObject =>
    raise (TypeError (lit "Unsupported content type. Must be str or PIL Image."))
  end.

End GeminiClassifier.
End GeminiClassifier.

(* ===================================================================== *)
(** * A JSON decoder *)
(* ===================================================================== *)

(** A decoder for the JSON grammar as [json.loads] accepts it (RFC 8259
    plus the constants [NaN], [Infinity] and [-Infinity]), used to run the
    classifier on concrete response texts.  It instantiates [JsonModule].
    Error messages and positions are not modelled: every rejection is the
    same [JSONDecodeError]. *)
Module JsonDecoder.

Set Warnings "-register-all".

Inductive json : Type :=
| JNull
| JBool (b : bool)
| JInt (z : Z)
| JFloat (f : float)
| JString (s : str)
| JArray (items : list json)
| JObject (members : list (str * json)).

Inductive token : Type :=
| TLBrace | TRBrace | TLBracket | TRBracket | TColon | TComma
| TString (s : str)
| TAtom (s : str).

(** ** Lexer: one character at a time *)

Definition is_json_ws (c : codepoint) : bool :=
  ((c =? 32) || (c =? 9) || (c =? 10) || (c =? 13))%N.

Definition is_digit (c : codepoint) : bool := ((48 <=? c) && (c <=? 57))%N.

(** The characters of numbers and of the literal names. *)
Definition is_atom_char (c : codepoint) : bool :=
  (is_digit c || (65 <=? c) && (c <=? 90) || (97 <=? c) && (c <=? 122)
   || (c =? 43) || (c =? 45) || (c =? 46))%N.

Definition punct (c : codepoint) : option token :=
  if (c =? 123)%N then Some TLBrace
  else if (c =? 125)%N then Some TRBrace
  else if (c =? 91)%N then Some TLBracket
  else if (c =? 93)%N then Some TRBracket
  else if (c =? 58)%N then Some TColon
  else if (c =? 44)%N then Some TComma
  else None.

(** The character after a backslash, [u] apart. *)
Definition escape_char (c : codepoint) : option codepoint :=
  if ((c =? 34) || (c =? 92) || (c =? 47))%N then Some c
  else if (c =? 98)%N then Some 8%N
  else if (c =? 102)%N then Some 12%N
  else if (c =? 110)%N then Some 10%N
  else if (c =? 114)%N then Some 13%N
  else if (c =? 116)%N then Some 9%N
  else None.

Definition hex_value (c : codepoint) : option N :=
  if is_digit c then Some (c - 48)%N
  else if ((65 <=? c) && (c <=? 70))%N then Some (c - 55)%N
  else if ((97 <=? c) && (c <=? 102))%N then Some (c - 87)%N
  else None.

(** A character of a string under construction, and whether it came from
    a [\uXXXX] escape. *)
Definition schar : Type := codepoint * bool.

(** Two escaped surrogates in a row are one character. *)
Fixpoint join_surrogates (l : list schar) : str :=
  match l with
  | [] => []
  | (c, esc) :: l' =>
    match l' with
    | (c', esc') :: l'' =>
      if (esc && esc' && (55296 <=? c) && (c <=? 56319)
          && (56320 <=? c') && (c' <=? 57343))%N
      then (65536 + N.lor (N.shiftl (c - 55296) 10) (c' - 56320))%N
           :: join_surrogates l''
      else c :: join_surrogates l'
    | [] => [c]
    end
  end.

Inductive mode : Type :=
| Default
| InAtom (acc : str)
| InString (acc : list schar)
| InEscape (acc : list schar)
| InUnicode (acc : list schar) (n : nat) (v : N)
| Failed.

Definition lex_state : Type := mode * list token.

(** A character met between tokens. *)
Definition start (toks : list token) (c : codepoint) : lex_state :=
  if is_json_ws c then (Default, toks)
  else if (c =? 34)%N then (InString [], toks)
  else match punct c with
       | Some t => (Default, t :: toks)
       | None => if is_atom_char c then (InAtom [c], toks) else (Failed, toks)
       end.

(** Accumulators and the token list are kept in reverse. *)
Definition step (st : lex_state) (c : codepoint) : lex_state :=
  let (m, toks) := st in
  match m with
  | Failed => st
  | Default => start toks c
  | InAtom acc =>
    if is_atom_char c then (InAtom (c :: acc), toks)
    else start (TAtom (rev acc) :: toks) c
  | InString acc =>
    if (c =? 34)%N then (Default, TString (join_surrogates (rev acc)) :: toks)
    else if (c =? 92)%N then (InEscape acc, toks)
    else if (c <? 32)%N then (Failed, toks)
    else (InString ((c, false) :: acc), toks)
  | InEscape acc =>
    match escape_char c with
    | Some d => (InString ((d, false) :: acc), toks)
    | None => if (c =? 117)%N then (InUnicode acc 0 0, toks) else (Failed, toks)
    end
  | InUnicode acc n v =>
    match hex_value c with
    | Some h =>
      let v' := (16 * v + h)%N in
      if Nat.eqb n 3 then (InString ((v', true) :: acc), toks)
      else (InUnicode acc (S n) v', toks)
    | None => (Failed, toks)
    end
  end.

Definition finish (st : lex_state) : option (list token) :=
  match st with
  | (Default, toks) => Some (rev toks)
  | (InAtom acc, toks) => Some (rev (TAtom (rev acc) :: toks))
  | _ => None
  end.

Definition lex (s : str) : option (list token) :=
  finish (fold_left step s (Default, [])).

(** ** Numbers and literal names *)

Fixpoint span {A} (p : A -> bool) (l : list A) : list A * list A :=
  match l with
  | [] => ([], [])
  | x :: l' =>
    if p x then let (a, b) := span p l' in (x :: a, b) else ([], l)
  end.

Definition digits_value (ds : str) : N :=
  fold_left (fun a d => (10 * a + (d - 48))%N) ds 0%N.

(** The binary64 nearest to [(-1)^neg * m * 10^e]. *)
Definition decimal_to_float (neg : bool) (m : N) (e : Z) : float :=
  match m with
  | N0 => S754_zero neg
  | Npos p =>
    match e with
    | Zneg k =>
      SFdiv 53 1024 (S754_finite neg p 0) (S754_finite false (Pos.pow 10 k) 0)
    | _ => binary_round 53 1024 neg (p * Z.to_pos (10 ^ e))%positive 0
    end
  end.

(** [float(z)] for an [int]. *)
Definition int_to_float (z : Z) : float := binary_normalize 53 1024 z 0 false.

Definition signed (neg : bool) (n : N) : Z :=
  if neg then Z.opp (Z.of_N n) else Z.of_N n.

(** The exponent part (the letter e, an optional sign, digits), up to
    the end of the atom. *)
Definition exponent (r : str) : option Z :=
  match r with
  | [] => Some 0%Z
  | c :: r' =>
    if ((c =? 101) || (c =? 69))%N then
      let (eneg, ds) :=
        match r' with
        | s :: r'' =>
          if (s =? 45)%N then (true, r'')
          else if (s =? 43)%N then (false, r'') else (false, r')
        | [] => (false, r')
        end in
      match ds with
      | [] => None
      | _ => if forallb is_digit ds then Some (signed eneg (digits_value ds))
             else None
      end
    else None
  end.

(** A JSON number: an optional minus sign, an integer part without a
    leading zero, an optional fraction and an optional exponent.  It is an
    [int] without fraction and exponent, a [float] otherwise. *)
Definition number (a : str) : option json :=
  let (neg, r) :=
    match a with
    | c :: r' => if (c =? 45)%N then (true, r') else (false, a)
    | [] => (false, a)
    end in
  let (ints, r1) := span is_digit r in
  match ints with
  | [] => None
  | d :: more =>
    if (d =? 48)%N && negb (Nat.eqb (length more) 0) then None
    else
      match r1 with
      | [] => Some (JInt (signed neg (digits_value ints)))
      | c :: r2 =>
        let (fracs, r3) :=
          if (c =? 46)%N then span is_digit r2 else ([], r1) in
        if (c =? 46)%N && Nat.eqb (length fracs) 0 then None
        else
          match exponent r3 with
          | Some e =>
            Some (JFloat (decimal_to_float neg (digits_value (ints ++ fracs))
                            (e - Z.of_nat (length fracs))))
          | None => None
          end
      end
  end.

Definition atom (a : str) : option json :=
  if str_eqb a (lit "true") then Some (JBool true)
  else if str_eqb a (lit "false") then Some (JBool false)
  else if str_eqb a (lit "null") then Some JNull
  else if str_eqb a (lit "NaN") then Some (JFloat S754_nan)
  else if str_eqb a (lit "Infinity") then Some (JFloat (S754_infinity false))
  else if str_eqb a (lit "-Infinity") then Some (JFloat (S754_infinity true))
  else number a.

(** ** Parser *)

Section Containers.
Variable value : list token -> option (json * list token).

(** After an opening bracket that is not followed by the closing one:
    values separated by commas, then the closing bracket. *)
Fixpoint elements (n : nat) (ts : list token) (acc : list json)
  : option (json * list token) :=
  match n with
  | O => None
  | S n' =>
    match value ts with
    | Some (v, TComma :: r) => elements n' r (v :: acc)
    | Some (v, TRBracket :: r) => Some (JArray (rev (v :: acc)), r)
    | _ => None
    end
  end.

(** After an opening brace that is not followed by the closing one:
    members (a string, a colon, a value) separated by commas, then the
    closing brace. *)
Fixpoint members (n : nat) (ts : list token) (acc : list (str * json))
  : option (json * list token) :=
  match n with
  | O => None
  | S n' =>
    match ts with
    | TString k :: TColon :: r =>
      match value r with
      | Some (v, TComma :: r') => members n' r' ((k, v) :: acc)
      | Some (v, TRBrace :: r') => Some (JObject (rev ((k, v) :: acc)), r')
      | _ => None
      end
    | _ => None
    end
  end.

End Containers.

Fixpoint value (fuel : nat) (ts : list token) : option (json * list token) :=
  match fuel with
  | O => None
  | S fuel' =>
    match ts with
    | TString s :: r => Some (JString s, r)
    | TAtom a :: r => option_map (fun v => (v, r)) (atom a)
    | TLBracket :: TRBracket :: r => Some (JArray [], r)
    | TLBracket :: r => elements (value fuel') (length r) r []
    | TLBrace :: TRBrace :: r => Some (JObject [], r)
    | TLBrace :: r => members (value fuel') (length r) r []
    | _ => None
    end
  end.

(** [json.loads(s)] *)
Definition loads (s : str) : result json :=
  match lex s with
  | Some ts =>
    match value (S (length ts)) ts with
    | Some (v, []) => Ok v
    | _ => Raise (JSONDecodeError (lit "Expecting value"))
    end
  | None => Raise (JSONDecodeError (lit "Expecting value"))
  end.

(** [d.get(k)] on the dict an object decodes to: the last member named
    [k]. *)
Fixpoint lookup (k : str) (members : list (str * json)) : option json :=
  match members with
  | [] => None
  | (k', v) :: rest =>
    match lookup k rest with
    | Some v' => Some v'
    | None => if str_eqb k k' then Some v else None
    end
  end.

End JsonDecoder.

(* ===================================================================== *)
(** * Test doubles for the libraries *)
(* ===================================================================== *)

(** Stand-ins that return canned values, and a validator over the JSON
    decoder above, to run the program on concrete inputs. *)
Module Doubles.

(** An image is the bytes it was opened from, read to the end. *)
Definition pil : PIL :=
  {| Image := bytes; Image_open := fun b => Ok b;
     Image_tell := fun b => length b |}.

(** A PDF reader that finds the given pages whatever the bytes. *)
Definition pypdf2 (pages : result (list (result str))) : PyPDF2 :=
  {| Page := result str;
     PdfReader_pages := fun _ => pages;
     page_extract_text := fun p => p |}.

Definition docx (paragraphs : result (list str)) : Docx :=
  {| Document_paragraphs := fun _ => paragraphs |}.

Definition json_module : JsonModule :=
  {| Json := JsonDecoder.json; json_loads := JsonDecoder.loads |}.

Definition as_str (j : option JsonDecoder.json) : option str :=
  match j with
  | Some (JsonDecoder.JString s) => Some s
  | _ => None
  end.

Definition as_float (j : option JsonDecoder.json) : option float :=
  match j with
  | Some (JsonDecoder.JFloat f) => Some f
  | Some (JsonDecoder.JInt z) => Some (JsonDecoder.int_to_float z)
  | _ => None
  end.

(** Validation of the three required fields: strings for [category] and
    [explanation], a number for [confidence]; other members are ignored. *)
Definition validate (j : JsonDecoder.json) : validated ClassificationResult :=
  match j with
  | JsonDecoder.JObject ms =>
    match as_str (JsonDecoder.lookup (lit "category") ms),
          as_float (JsonDecoder.lookup (lit "confidence") ms),
          as_str (JsonDecoder.lookup (lit "explanation") ms) with
    | Some c, Some f, Some e =>
      Valid {| category := c; confidence := f; explanation := e |}
    | _, _, _ =>
      Invalid (lit "validation error for ClassificationResult")
    end
  | _ => Invalid (lit "argument after ** must be a mapping")
  end.

Definition pydantic : @Pydantic json_module :=
  @Build_Pydantic json_module validate.

(** A model that answers every request the same way. *)
Definition model (answer : result Response) : @GenerativeModel pil :=
  {| generate_content := fun _ => answer |}.

(** A response that is not blocked and carries the text [t]. *)
Definition plain_response (t : str) : Response :=
  {| prompt_feedback :=
       {| block_reason :=
            {| number := 0; name := lit "BLOCK_REASON_UNSPECIFIED" |} |};
     text := AttrValue t |}.

(** The model that answers every request with the text [t], unblocked. *)
Definition answering (t : str) : @GenerativeModel pil :=
  model (Ok (plain_response t)).

(** A response blocked for safety, without text. *)
Definition blocked_response : Response :=
  {| prompt_feedback :=
       {| block_reason := {| number := 1; name := lit "SAFETY" |} |};
     text := AttrRaises (ValueError (lit "The response was blocked")) |}.

(** A freshly uploaded file and an empty error area. *)
Definition upload (media_type : str) (payload : bytes) : ui_state :=
  {| uploaded_file := {| type := media_type; data := payload; pos := 0 |};
     st_errors := [] |}.

(** JSON text of an answer with the three required fields; the confidence
    is given as it is to be written. *)
Definition answer_json (cat conf expl : string) : str :=
  lit "{" ++ dquote ++ lit "category" ++ dquote ++ lit ": "
  ++ dquote ++ lit cat ++ dquote ++ lit ", "
  ++ dquote ++ lit "confidence" ++ dquote ++ lit ": " ++ lit conf ++ lit ", "
  ++ dquote ++ lit "explanation" ++ dquote ++ lit ": "
  ++ dquote ++ lit expl ++ dquote ++ lit "}".

(** ** Concrete inputs *)

Definition note : str := lit "Please water the plants.".

Definition note_request : @Request pil :=
  PromptRequest
    (GeminiClassifier._create_classification_prompt ++ nl ++ nl
     ++ lit "Document text to classify:" ++ nl ++ nl ++ note).

(** A scanned page: the start of a PNG file. *)
Definition scan : @Image pil := [x89; x50; x4e; x47; x0d; x0a; x1a; x0a].

Definition memo_answer : str := answer_json "Memo" "0.5" "an internal note".
Definition high_answer : str := answer_json "Invoice" "1.5" "payment terms".
Definition low_answer : str := answer_json "Receipt" "-0.2" "proof of payment".
Definition invoice_answer : str := answer_json "Invoice" "0.93" "payment terms".
Definition chatty_answer : str := lit "I cannot classify this document.".

(** The bytes of "caf" and an e with acute accent in Latin-1: not UTF-8. *)
Definition cafe : bytes := [x63; x61; x66; xe9].

(** The pages of a two-page PDF, and of one whose outer pages carry white
    space. *)
Definition two_pages : list str := [lit "Page one"; lit "Page two"].
Definition padded_pages : list str := [lit " A"; lit "B "].

End Doubles.

(* ===================================================================== *)
(** * Notions used to state the properties *)
(* ===================================================================== *)

Section Notions.
Context `{PIL} `{JsonModule} `{!Pydantic}.

(** The normalization both classification paths apply to the response
    text before parsing it: strip, drop a leading [```json], drop a
    trailing [```]. *)
Definition normalize_response (t : str) : str :=
  let s := strip t in
  let s := if startswith (lit "```json") s then slice_from 7 s else s in
  if endswith (lit "```") s then slice_to_minus 3 s else s.

(** Normalization, JSON parsing and validation of a response text. *)
Definition parse_response (t : str) : result ClassificationResult :=
  match json_loads (normalize_response t) with
  | Ok j => construct (ClassificationResult_new j)
  | Raise e => Raise e
  end.

(** A JSON body between a leading and a trailing fence. *)
Definition fenced (body : str) : str := lit "```json" ++ body ++ lit "```".

(** The request [classify_document] sends for a content. *)
Definition request_for (c : content) : option Request :=
  match c with
  | Text s =>
    Some (PromptRequest
            (GeminiClassifier._create_classification_prompt ++ nl ++ nl
             ++ lit "Document text to classify:" ++ nl ++ nl ++ s))
  | Picture img =>
    Some (PartsRequest GeminiClassifier._create_classification_prompt img)
  | OtherObject => None
  end.

(** The dict built from a validated answer. *)
Definition result_dict (cr : ClassificationResult) : dict :=
  [ (lit "category",
     VStr (if list_in (category cr) GeminiClassifier.categories
           then category cr else lit "Others"));
    (lit "confidence",
     VFloat (max2 float_0_0 (min2 float_1_0 (confidence cr))));
    (lit "explanation", VStr (explanation cr)) ].

(** [classify_document] of a classifier whose [self.model] is [G]. *)
Definition classify_with (G : GenerativeModel) (c : content)
  : M (list str) dict :=
  @GeminiClassifier.classify_document _ _ _ G c.

(** Facts of the JSON grammar that [json.loads] obeys: white space around
    a JSON text is insignificant, and a JSON text neither starts nor ends
    with a backtick. *)
Class JsonGrammar : Prop := {
  loads_strip : forall s v, json_loads s = Ok v -> json_loads (strip s) = Ok v;
  loads_backtick :
    forall s v, json_loads s = Ok v ->
      startswith (lit "`") s = false /\ endswith (lit "`") s = false
}.

End Notions.

(** The file after [read()]: the position is at the end. *)
Definition after_read (s : ui_state) : ui_state :=
  {| uploaded_file :=
       {| type := type (uploaded_file s); data := data (uploaded_file s);
          pos := Nat.max (pos (uploaded_file s))
                         (length (data (uploaded_file s))) |};
     st_errors := st_errors s |}.

(** The file after [seek(0)] and [read()]. *)
Definition after_reread (s : ui_state) : ui_state :=
  {| uploaded_file :=
       {| type := type (uploaded_file s); data := data (uploaded_file s);
          pos := length (data (uploaded_file s)) |};
     st_errors := st_errors s |}.

(** Whether a string begins, or ends, with a white-space character. *)
Definition leading_space (s : str) : bool :=
  match s with
  | [] => false
  | c :: _ => isspace c
  end.

Definition trailing_space (s : str) : bool := leading_space (rev s).

(** Membership of the declared media type in the supported ones. *)
Definition supported_type (t : str) : bool :=
  str_eqb t (lit "application/pdf")
  || startswith (lit "image/") t
  || str_eqb t (lit "text/plain")
  || str_eqb t
       (lit "application/vnd.openxmlformats-officedocument.wordprocessingml.document").

(* ===================================================================== *)
(** * Further notions *)
(* ===================================================================== *)

(** What [uploaded_file.read()] returns in a state. *)
Definition bytes_read (s : ui_state) : bytes :=
  skipn (pos (uploaded_file s)) (data (uploaded_file s)).

(** The state after one more message was passed to [st.error]. *)
Definition with_error (s : ui_state) (msg : str) : ui_state :=
  {| uploaded_file := uploaded_file s; st_errors := st_errors s ++ [msg] |}.

(** The same upload (media type and bytes), whatever the position. *)
Definition same_upload (s s' : ui_state) : Prop :=
  type (uploaded_file s') = type (uploaded_file s)
  /\ data (uploaded_file s') = data (uploaded_file s).

(** The state with the file at another position. *)
Definition at_position (n : nat) (s : ui_state) : ui_state :=
  {| uploaded_file :=
       {| type := type (uploaded_file s); data := data (uploaded_file s);
          pos := n |};
     st_errors := st_errors s |}.

(** The media types of the three text formats. *)
Definition pdf_type : str := lit "application/pdf".
Definition text_type : str := lit "text/plain".
Definition docx_type : str :=
  lit "application/vnd.openxmlformats-officedocument.wordprocessingml.document".

(** What the dispatch can give: a stripped text or an image, never [None]
    and never another object; the upload and the error area are as
    before. *)
Definition dispatched `{PIL} (s : ui_state) (r : result (option content))
    (s1 : ui_state) : Prop :=
  same_upload s s1 /\ st_errors s1 = st_errors s
  /\ match r with
     | Ok (Some (Text t)) => strip t = t
     | Ok (Some (Picture _)) => True
     | Ok (Some OtherObject) => False
     | Ok None => False
     | Raise _ => True
     end.


(** The answer of the client library is no [JSONDecodeError]: neither the
    call nor the read of [response.text] raises one. *)
Definition no_json_error (answer : result Response) : Prop :=
  match answer with
  | Raise (JSONDecodeError _) => False
  | Raise _ => True
  | Ok r =>
    match text r with
    | AttrRaises (JSONDecodeError _) => False
    | _ => True
    end
  end.

(** The numbered headings under which the prompt defines the categories:
    "1. **Invoice**", "2. **Receipt**", and so on. *)
Fixpoint headings_from (k : N) (names : list str) : list str :=
  match names with
  | [] => []
  | c :: rest =>
    ([48 + k]%N ++ lit ". **" ++ c ++ lit "**")
      :: headings_from (k + 1) rest
  end.

Definition category_headings : list str :=
  headings_from 1 GeminiClassifier.categories.

(** The response text with a bare fence, without the language tag. *)
Definition bare_fenced (body : str) : str := lit "```" ++ body ++ lit "```".

(* ===================================================================== *)
(** * [GeminiClassifier.__init__] and [app.py] *)
(* ===================================================================== *)

(** [os.getenv]: the environment, a partial map from names to values. *)
Definition environ : Type := str -> option str.

(** What [__init__] stores: the key given to [genai.configure], the name
    of the model and [self.categories]. *)
Record Classifier : Type := {
  configured_key : str;
  model_name : str;
  self_categories : list str
}.

(** [not s] for an optional string: [None] and the empty string. *)
Definition falsy (v : option str) : bool :=
  match v with
  | None => true
  | Some [] => true
  | Some (_ :: _) => false
  end.

(** [GeminiClassifier.__init__]: [not api_key] holds for a variable that
    is not set and for one that is empty. *)
Definition __init__ (getenv : environ) : result Classifier :=
  match getenv (lit "GEMINI_API_KEY") with
  | Some (c :: key) =>
    Ok {| configured_key := c :: key;
          model_name := lit "gemini-2.5-flash";
          self_categories := GeminiClassifier.categories |}
  | _ =>
    Raise (ValueError (lit "GEMINI_API_KEY environment variable not set."))
  end.

(** ** The page *)

(** What Streamlit is asked to show, [st.error] apart. *)
Inductive widget : Type :=
| Title (text : str)
| Markdown (text : str)
| Spinner (text : str)
| Success (text : str)
| Metric (label : str) (value : pyvalue)
| Progress (value : float) (text : str)
| Subheader (text : str)
| Write (value : pyvalue)
| Checkbox (label : str)
| TextArea (label value : str).

(** The state of one run of the script: the uploaded file (if any), the
    messages shown by [st.error], the other widgets in the order of the
    calls, and the log. *)
Record page : Type := {
  file : option UploadedFile;
  errors : list str;
  shown : list widget;
  logged : list str
}.

(** Whether the handler ended the script with [return]. *)
Inductive flow : Type := Returned | Continued.

(** The emoji of the messages. *)
Definition cross_mark : str := [10060%N].
Definition check_mark : str := [9989%N].
Definition warning_sign : str := [9888%N; 65039%N].
Definition page_facing_up : str := [128196%N].
Definition bar_chart : str := [128202%N].
Definition light_bulb : str := [128161%N].
Definition eye : str := [128065%N; 65039%N].
Definition memo : str := [128221%N].

(** A widget call. *)
Definition show (w : widget) : M page unit :=
  modify (fun p =>
    {| file := file p; errors := errors p; shown := shown p ++ [w];
       logged := logged p |}).

(** [st.error] called by the script. *)
Definition page_error (msg : str) : M page unit :=
  modify (fun p =>
    {| file := file p; errors := errors p ++ [msg]; shown := shown p;
       logged := logged p |}).

(** A computation on the uploaded file and the error area, run on the
    page; without a file, the attribute access fails. *)
Definition in_ui {A} (m : M ui_state A) : M page A :=
  fun p =>
    match file p with
    | Some f =>
      let (r, u) := m {| uploaded_file := f; st_errors := errors p |} in
      (r, {| file := Some (uploaded_file u); errors := st_errors u;
             shown := shown p; logged := logged p |})
    | None =>
      (Raise (AttributeError (lit "'NoneType' object has no attribute")), p)
    end.

(** A computation of the classifier, run on the page's log. *)
Definition in_log {A} (m : M (list str) A) : M page A :=
  fun p =>
    let (r, l) := m (logged p) in
    (r, {| file := file p; errors := errors p; shown := shown p;
           logged := l |}).

(** [d[k]]: a missing key raises [KeyError]. *)
Definition subscript (d : dict) (k : str) : result pyvalue :=
  match getitem d k with
  | Some v => Ok v
  | None => Raise (Exception (lit "'" ++ k ++ lit "'"))
  end.

(** [k in d] *)
Definition has_key (d : dict) (k : str) : bool :=
  match getitem d k with
  | Some _ => true
  | None => false
  end.

(** The truth value of a dict: non-empty. *)
Definition nonempty (d : dict) : bool :=
  match d with
  | [] => false
  | _ :: _ => true
  end.

(** The text shown in the preview: [processed_content[:500]], with "..."
    added when the content is longer. *)
Definition text_preview (processed_content : str) : str :=
  let text_preview := firstn 500 processed_content in
  if (500 <? length processed_content)%nat
  then text_preview ++ lit "..." else text_preview.

(** Python's format of a float with the format specification [.1%]. *)
Class Formatting : Type := {
  format_percent : float -> str
}.

Module App.
Section App.
Context `{PIL} `{PyPDF2} `{Docx} `{JsonModule} `{!Pydantic}
        `{!GenerativeModel} `{Formatting}.

(** The start of [main], up to the check of the API key. *)
Definition main_setup (getenv : environ) : M page Classifier :=
  show (Title (page_facing_up ++ lit " Financial Document Classifier")) ;;
  show (Markdown (lit "Upload your financial documents to classify them using AI-powered analysis. This app can now analyze images directly!")) ;;
  classifier <- lift (__init__ getenv) ;;
  (if falsy (getenv (lit "GEMINI_API_KEY")) then
     page_error (warning_sign ++ lit " Gemini API key not found. Please set the GEMINI_API_KEY environment variable.") ;;
     raise (Exception (lit "StopException"))
   else ret tt) ;;
  ret classifier.

(** [isinstance(processed_content, str) and len(processed_content.strip()) < 10] *)
Definition too_short (processed_content : content) : bool :=
  match processed_content with
  | Text s => (length (strip s) <? 10)%nat
  | _ => false
  end.

(** The preview of the extracted text, for a content that is no image. *)
Definition preview (processed_content : content) (checked : bool)
  : M page unit :=
  match processed_content with
  | Picture _ => ret tt
  | Text s =>
    show (Checkbox (eye ++ lit " Show extracted text preview")) ;;
    if checked then
      show (Subheader (memo ++ lit " Extracted Text Preview")) ;;
      show (TextArea (lit "Document Content") (text_preview s))
    else ret tt
  | OtherObject =>
    show (Checkbox (eye ++ lit " Show extracted text preview")) ;;
    if checked then
      show (Subheader (memo ++ lit " Extracted Text Preview")) ;;
      raise (TypeError (lit "object is not subscriptable"))
    else ret tt
  end.

(** The results shown for a non-empty classification result. *)
Definition show_result (classification_result : dict)
    (processed_content : content) (checked : bool) : M page unit :=
  show (Success (check_mark ++ lit " Classification Complete!")) ;;
  category <- lift (subscript classification_result (lit "category")) ;;
  show (Metric (bar_chart ++ lit " Document Type") category) ;;
  confidence_percentage <-
    lift (subscript classification_result (lit "confidence")) ;;
  match confidence_percentage with
  | VFloat f =>
    show (Progress f (lit "Confidence Level: " ++ format_percent f))
  | VStr _ =>
    raise (ValueError (lit "Unknown format code '%' for object of type 'str'"))
  end ;;
  (if has_key classification_result (lit "explanation") then
     show (Subheader (light_bulb ++ lit " Analysis Details")) ;;
     explanation <- lift (subscript classification_result (lit "explanation")) ;;
     show (Write explanation)
   else ret tt) ;;
  preview processed_content checked.

(** What the script does when "Classify Document" is clicked, with the
    state of the preview checkbox: the [try] of [main] and its handler. *)
Definition classify_clicked (checked : bool) : M page flow :=
  try_except
    (in_ui (seek 0) ;;
     show (Spinner (lit "Processing document...")) ;;
     processed_content <- in_ui DocumentProcessor.extract_text ;;
     match processed_content with
     | None =>
       page_error (cross_mark ++ lit " Could not process the document. It might be corrupted or in an unsupported format.") ;;
       ret Returned
     | Some processed_content =>
       if too_short processed_content then
         page_error (cross_mark ++ lit " Could not extract sufficient text from the document. Please ensure the document contains readable text.") ;;
         ret Returned
       else
         show (Spinner (lit "Analyzing document with AI...")) ;;
         classification_result <-
           in_log (GeminiClassifier.classify_document processed_content) ;;
         (if nonempty classification_result then
            show_result classification_result processed_content checked
          else
            page_error (cross_mark ++ lit " Classification failed. Please try again.")) ;;
         ret Continued
     end)
    (fun e =>
       page_error (cross_mark ++ lit " Error processing document: " ++ exn_str e) ;;
       ret Continued).

End App.
End App.

(** ** Notions for the page *)

(** The uploaded file [f], rewound, with the error area [errs]. *)
Definition rewound (f : UploadedFile) (errs : list str) : ui_state :=
  {| uploaded_file := {| type := type f; data := data f; pos := 0 |};
     st_errors := errs |}.

(** The page after the handler: the file and error area of [u], the
    widgets [ws] added, the log [l]. *)
Definition page_after (p : page) (u : ui_state) (new_errors : list str)
    (ws : list widget) (l : list str) : page :=
  {| file := Some (uploaded_file u);
     errors := st_errors u ++ new_errors;
     shown := shown p ++ ws;
     logged := l |}.

(** The widgets of the preview. *)
Definition preview_widgets `{PIL} (c : content) (checked : bool) : list widget :=
  match c with
  | Text s =>
    Checkbox (eye ++ lit " Show extracted text preview")
    :: (if checked
        then [ Subheader (memo ++ lit " Extracted Text Preview");
               TextArea (lit "Document Content") (text_preview s) ]
        else [])
  | _ => []
  end.

(** The message of the branch for an empty classification result. *)
Definition giving_up : str :=
  cross_mark ++ lit " Classification failed. Please try again.".

(** The page with another uploaded file. *)
Definition with_upload (p : page) (f : UploadedFile) : page :=
  {| file := Some f; errors := errors p; shown := shown p;
     logged := logged p |}.

(** ** More stand-ins and concrete inputs *)

Module Cases.

(** A format of percentages that shows nothing of the value. *)
Definition formatting : Formatting :=
  {| format_percent := fun _ => lit "n/a" |}.

(** A PDF file the parser rejects. *)
Definition broken_pdf : PyPDF2 :=
  Doubles.pypdf2 (Raise (Exception (lit "EOF marker not found"))).

(** A PDF whose second page cannot be read. *)
Definition torn_pdf : PyPDF2 :=
  Doubles.pypdf2
    (Ok [Ok (lit "Page one"); Raise (Exception (lit "bad page"));
         Ok (lit "Page three")]).

(** A letter with empty paragraphs around and between the text. *)
Definition letter : list str :=
  [[]; lit "Dear Sir"; []; lit "Thanks"; []].

Definition broken_docx : Docx :=
  Doubles.docx (Raise (Exception (lit "File is not a zip file"))).

(** The bytes of "  Invoice 42: total due 100 EUR" and a newline. *)
Definition invoice_bytes : bytes :=
  [x20; x20; x49; x6e; x76; x6f; x69; x63; x65; x20; x34; x32; x3a; x20; x74; x6f; x74; x61; x6c; x20; x64; x75; x65; x20; x31; x30; x30; x20; x45; x55; x52; x0a].

(** That file read to its end, and its text. *)
Definition invoice_read : ui_state :=
  {| uploaded_file :=
       {| type := lit "text/plain"; data := invoice_bytes; pos := 32 |};
     st_errors := [] |}.

Definition invoice_text : str := lit "Invoice 42: total due 100 EUR".

(** The bytes of " hi " and a newline. *)
Definition hi_bytes : bytes := [x20; x68; x69; x20; x0a].

(** The bytes of "caf", an e with acute accent in UTF-8, and a newline. *)
Definition cafe_utf8 : bytes := [x63; x61; x66; xc3; xa9; x0a].

(** The Latin-1 file [Doubles.cafe] after its first three bytes were
    read. *)
Definition cafe_partly_read : ui_state :=
  {| uploaded_file :=
       {| type := lit "text/plain"; data := Doubles.cafe; pos := 3 |};
     st_errors := [] |}.

(** The scanned page [Doubles.scan] after its first three bytes were
    read. *)
Definition scan_partly_read : ui_state :=
  {| uploaded_file :=
       {| type := lit "image/png"; data := Doubles.scan; pos := 3 |};
     st_errors := [] |}.

(** Answers of the remote model. *)
Definition denied : @GenerativeModel Doubles.pil :=
  Doubles.model (Raise (PermissionDenied (lit "API key not valid"))).

Definition unreachable : @GenerativeModel Doubles.pil :=
  Doubles.model (Raise (Exception (lit "503 Service Unavailable"))).

Definition garbled : @GenerativeModel Doubles.pil :=
  Doubles.model (Raise (JSONDecodeError (lit "Expecting value"))).

(** A response that is not blocked and has no text. *)
Definition textless_response : Response :=
  {| prompt_feedback :=
       {| block_reason :=
            {| number := 0; name := lit "BLOCK_REASON_UNSPECIFIED" |} |};
     text := AttrMissing |}.

(** JSON without the confidence and the explanation. *)
Definition incomplete_answer : str :=
  lit "{" ++ dquote ++ lit "category" ++ dquote ++ lit ": "
  ++ dquote ++ lit "Invoice" ++ dquote ++ lit "}".

Definition newline_padding : str := nl ++ lit "  ".

(** ** A decoder under the interpreter's recursion limit *)

(** [sys.getrecursionlimit()], by default. *)
Definition recursion_limit : nat := 1000.

(** The [RecursionError] of the decoder of arrays. *)
Definition recursion_error : exn :=
  Exception (lit "maximum recursion depth exceeded while decoding a JSON array from a unicode string").

(** The opening brackets at the start of a text. *)
Fixpoint opening_brackets (s : str) : nat :=
  match s with
  | c :: r => if (c =? 91)%N then S (opening_brackets r) else O
  | [] => O
  end.

(** [json.loads] as the interpreter runs it: the decoder descends one
    level at each opening bracket, so a text that starts with as many of
    them as the limit raises [RecursionError] before the rest is read;
    other texts are decoded by [JsonDecoder.loads]. *)
Definition limited_loads (s : str) : result JsonDecoder.json :=
  if (recursion_limit <=? opening_brackets s)%nat then Raise recursion_error
  else JsonDecoder.loads s.

Definition limited_json : JsonModule :=
  {| Json := JsonDecoder.json; json_loads := limited_loads |}.

Definition limited_pydantic : @Pydantic limited_json :=
  @Build_Pydantic limited_json Doubles.validate.

(** Two thousand opening brackets. *)
Definition deep_brackets : str := repeat 91%N 2000.

(** The page with a fresh upload and nothing shown. *)
Definition fresh_page (media_type : str) (payload : bytes) : page :=
  {| file := Some {| type := media_type; data := payload; pos := 0 |};
     errors := []; shown := []; logged := [] |}.

(** An environment without variables, and one with the key. *)
Definition no_environment : environ := fun _ => None.

End Cases.

(* ===================================================================== *)
(** * Properties of the string built-ins *)
(* ===================================================================== *)

Unset Implicit Arguments.

Section StringFacts.

Lemma str_eqb_refl (a : str) : str_eqb a a = true.
Proof.
  induction a as [|x a IH]; simpl; [reflexivity|].
  now rewrite N.eqb_refl, IH.
Qed.

Lemma str_eqb_eq (a b : str) : str_eqb a b = true <-> a = b.
Proof.
  split.
  - revert b; induction a as [|x a IH]; intros [|y b]; simpl;
      try discriminate; [reflexivity|].
    intros Hab; apply andb_true_iff in Hab as [Hxy Hrest].
    apply N.eqb_eq in Hxy; apply IH in Hrest; congruence.
  - intros ->; apply str_eqb_refl.
Qed.

Lemma str_eqb_neq (a b : str) : a <> b -> str_eqb a b = false.
Proof.
  intros Hne; destruct (str_eqb a b) eqn:E; [|reflexivity].
  apply str_eqb_eq in E; contradiction.
Qed.

Lemma list_in_In (x : str) (l : list str) : list_in x l = true <-> In x l.
Proof.
  unfold list_in; rewrite existsb_exists; split.
  - intros (y & Hy & E); apply str_eqb_eq in E; now subst.
  - intros Hx; exists x; split; [assumption|apply str_eqb_refl].
Qed.

Lemma list_in_not_In (x : str) (l : list str) :
  list_in x l = false <-> ~ In x l.
Proof.
  rewrite <- list_in_In; destruct (list_in x l); split; intros; try discriminate;
    try reflexivity; exfalso; auto.
Qed.

Lemma startswith_app (p s : str) : startswith p (p ++ s) = true.
Proof.
  induction p as [|x p IH]; simpl; [reflexivity|].
  now rewrite N.eqb_refl, IH.
Qed.

Lemma startswith_prefix (p s : str) :
  startswith p s = true -> exists r, s = p ++ r.
Proof.
  revert s; induction p as [|x p IH]; intros s; simpl.
  - intros _; now exists s.
  - destruct s as [|y s]; [discriminate|].
    intros Hs; apply andb_true_iff in Hs as [Hxy Hrest].
    apply N.eqb_eq in Hxy; subst y.
    destruct (IH _ Hrest) as [r ->]; now exists r.
Qed.

(** A string that starts with [c :: p] starts with [c]. *)
Lemma startswith_first (c : codepoint) (p s : str) :
  startswith [c] s = false -> startswith (c :: p) s = false.
Proof.
  destruct s as [|y s]; simpl; [reflexivity|].
  destruct (N.eqb c y); simpl; [discriminate|reflexivity].
Qed.

Lemma endswith_app (p s : str) : endswith p (s ++ p) = true.
Proof.
  unfold endswith; rewrite length_app.
  replace (length s + length p - length p)%nat with (length s + 0)%nat by lia.
  rewrite skipn_app, skipn_all2 by lia.
  replace (length s + 0 - length s)%nat with 0%nat by lia; simpl.
  rewrite str_eqb_refl, andb_true_r; apply Nat.leb_le; lia.
Qed.

Lemma endswith_suffix (p s : str) :
  endswith p s = true -> exists r, s = r ++ p.
Proof.
  unfold endswith; intros Hs; apply andb_true_iff in Hs as [_ Hs].
  apply str_eqb_eq in Hs.
  exists (firstn (length s - length p) s).
  rewrite <- Hs at 2; symmetry; apply firstn_skipn.
Qed.

(** A string that ends with [p ++ [c]] ends with [c]. *)
Lemma endswith_last (c : codepoint) (p s : str) :
  endswith [c] s = false -> endswith (p ++ [c]) s = false.
Proof.
  intros Hc; destruct (endswith (p ++ [c]) s) eqn:E; [|reflexivity].
  apply endswith_suffix in E as [r ->].
  rewrite app_assoc, endswith_app in Hc; discriminate.
Qed.

Lemma slice_from_app (p s : str) : slice_from (length p) (p ++ s) = s.
Proof.
  unfold slice_from; rewrite skipn_app, skipn_all, Nat.sub_diag; reflexivity.
Qed.

Lemma slice_to_minus_app (p s : str) :
  slice_to_minus (length p) (s ++ p) = s.
Proof.
  unfold slice_to_minus; rewrite length_app.
  replace (length s + length p - length p)%nat with (length s) by lia.
  rewrite firstn_app, firstn_all, Nat.sub_diag; simpl; apply app_nil_r.
Qed.

Lemma contains_startswith (sub s : str) :
  startswith sub s = true -> contains sub s = true.
Proof. destruct s; simpl; intros ->; reflexivity. Qed.

Lemma contains_app (sub p q : str) : contains sub (p ++ sub ++ q) = true.
Proof.
  induction p as [|x p IH].
  - rewrite app_nil_l; apply contains_startswith, startswith_app.
  - simpl; rewrite IH; apply orb_true_r.
Qed.

Lemma contains_suffix (sub p : str) : contains sub (p ++ sub) = true.
Proof.
  rewrite <- (app_nil_r sub) at 2; apply contains_app.
Qed.

(** ** [strip] *)

Lemma dropwhile_app_keep {A} (p : A -> bool) (l r : list A) :
  dropwhile p l <> [] -> dropwhile p (l ++ r) = dropwhile p l ++ r.
Proof.
  induction l as [|x l IH]; simpl; [congruence|].
  destruct (p x); [exact IH|reflexivity].
Qed.

Lemma dropwhile_app_all {A} (p : A -> bool) (l r : list A) :
  dropwhile p l = [] -> dropwhile p (l ++ r) = dropwhile p r.
Proof.
  induction l as [|x l IH]; simpl; [reflexivity|].
  destruct (p x); [exact IH|discriminate].
Qed.

Lemma dropwhile_head {A} (p : A -> bool) (l : list A) (x : A) (r : list A) :
  dropwhile p l = x :: r -> p x = false.
Proof.
  induction l as [|y l IH]; simpl; [discriminate|].
  destruct (p y) eqn:E; [exact IH|].
  intros [= -> _]; exact E.
Qed.

(** What [dropwhile] drops is a prefix. *)
Lemma dropwhile_suffix {A} (p : A -> bool) (l : list A) :
  exists w, l = w ++ dropwhile p l /\ forallb p w = true.
Proof.
  induction l as [|x l (w & Hl & Hw)]; simpl.
  - now exists [].
  - destruct (p x) eqn:E.
    + exists (x :: w); simpl; rewrite E, Hw; split; [congruence|reflexivity].
    + now exists [].
Qed.

Lemma leading_space_lstrip (s : str) : leading_space (lstrip s) = false.
Proof.
  unfold lstrip; destruct (dropwhile isspace s) as [|c r] eqn:E; simpl;
    [reflexivity|].
  exact (dropwhile_head _ _ _ _ E).
Qed.

Lemma trailing_space_rstrip (s : str) : trailing_space (rstrip s) = false.
Proof.
  unfold trailing_space, rstrip; rewrite rev_involutive.
  apply (leading_space_lstrip (rev s)).
Qed.

(** [rstrip] keeps a prefix: the first character is unchanged. *)
Lemma rstrip_prefix (s : str) :
  exists w, s = rstrip s ++ w /\ forallb isspace w = true.
Proof.
  unfold rstrip.
  destruct (dropwhile_suffix isspace (rev s)) as (w & Hs & Hw).
  exists (rev w); split.
  - rewrite <- rev_app_distr, <- Hs; symmetry; apply rev_involutive.
  - rewrite forallb_forall in *; intros x Hx; apply Hw; now apply in_rev.
Qed.

Lemma leading_space_rstrip (s : str) :
  leading_space s = false -> leading_space (rstrip s) = false.
Proof.
  destruct (rstrip_prefix s) as (w & Hs & _).
  destruct (rstrip s) as [|c r]; [reflexivity|].
  rewrite Hs; simpl; trivial.
Qed.

(** The result of [strip] has no white space at either end. *)
Lemma strip_no_outer_space (s : str) :
  leading_space (strip s) = false /\ trailing_space (strip s) = false.
Proof.
  unfold strip; split.
  - apply leading_space_rstrip, leading_space_lstrip.
  - apply trailing_space_rstrip.
Qed.

Lemma lstrip_fixed (s : str) : leading_space s = false -> lstrip s = s.
Proof.
  destruct s as [|c r]; simpl; [reflexivity|]; unfold lstrip; simpl.
  now intros ->.
Qed.

Lemma rstrip_fixed (s : str) : trailing_space s = false -> rstrip s = s.
Proof.
  unfold trailing_space, rstrip; intros Hs.
  rewrite (lstrip_fixed (rev s) Hs : dropwhile isspace (rev s) = rev s).
  apply rev_involutive.
Qed.

Lemma leading_space_app (a b : str) :
  a <> [] -> leading_space (a ++ b) = leading_space a.
Proof. intros Ha; destruct a; [contradiction|reflexivity]. Qed.

Lemma trailing_space_app (a b : str) :
  b <> [] -> trailing_space (a ++ b) = trailing_space b.
Proof.
  intros Hb; unfold trailing_space; rewrite rev_app_distr.
  apply leading_space_app.
  intros E; apply Hb; rewrite <- (rev_involutive b), E; reflexivity.
Qed.

(** A string without white space at its ends is its own [strip]. *)
Lemma strip_fixed (s : str) :
  leading_space s = false -> trailing_space s = false -> strip s = s.
Proof.
  intros Hl Hr; unfold strip; rewrite (lstrip_fixed s Hl); now apply rstrip_fixed.
Qed.

Lemma rstrip_app_space (s : str) (c : codepoint) :
  isspace c = true -> rstrip (s ++ [c]) = rstrip s.
Proof.
  intros Hc; unfold rstrip; rewrite rev_app_distr; simpl; now rewrite Hc.
Qed.

(** White space appended to a string does not change its [strip]. *)
Lemma strip_app_space (s : str) (c : codepoint) :
  isspace c = true -> strip (s ++ [c]) = strip s.
Proof.
  intros Hc; unfold strip, lstrip.
  destruct (dropwhile isspace s) as [|x r] eqn:E.
  - rewrite dropwhile_app_all by exact E; simpl; rewrite Hc; reflexivity.
  - rewrite dropwhile_app_keep by (rewrite E; discriminate).
    rewrite E; now apply rstrip_app_space.
Qed.

End StringFacts.

(* ===================================================================== *)
(** * Properties of the content extractor *)
(* ===================================================================== *)

Section ExtractorProperties.
Context `{PIL} `{PyPDF2} `{Docx}.

Lemma supported_type_false (t : str) :
  supported_type t = false ->
  str_eqb t (lit "application/pdf") = false
  /\ startswith (lit "image/") t = false
  /\ str_eqb t (lit "text/plain") = false
  /\ str_eqb t
       (lit "application/vnd.openxmlformats-officedocument.wordprocessingml.document")
     = false.
Proof.
  unfold supported_type; intros Hs.
  repeat (apply orb_false_iff in Hs as [Hs ?]); auto.
Qed.

(** C5. An upload whose declared media type is none of PDF, [image/*],
    plain text and word-processor document makes the dispatch raise a
    [ValueError] whose message is "Unsupported file type: " followed by the
    media type; [extract_text] catches it, shows it with [st.error], and
    returns [None]. *)
Theorem unsupported_type_yields_no_content (s : ui_state) :
  supported_type (type (uploaded_file s)) = false ->
  DocumentProcessor.extract_text_try s
    = (Raise (ValueError (lit "Unsupported file type: "
                          ++ type (uploaded_file s))), s)
  /\ contains (type (uploaded_file s))
       (lit "Unsupported file type: " ++ type (uploaded_file s)) = true
  /\ DocumentProcessor.extract_text s
     = (Ok None,
        {| uploaded_file := uploaded_file s;
           st_errors :=
             st_errors s
             ++ [lit "Error processing document: "
                 ++ lit "Unsupported file type: " ++ type (uploaded_file s)] |}).
Proof.
  intros Hs; apply supported_type_false in Hs as (Hpdf & Himg & Htxt & Hdoc).
  assert (Htry : DocumentProcessor.extract_text_try s
                 = (Raise (ValueError (lit "Unsupported file type: "
                                       ++ type (uploaded_file s))), s)).
  { unfold DocumentProcessor.extract_text_try, bind, gets.
    rewrite Hpdf, Himg, Htxt, Hdoc; reflexivity. }
  split; [exact Htry|split].
  - apply contains_suffix.
  - unfold DocumentProcessor.extract_text, try_except; rewrite Htry.
    reflexivity.
Qed.

(** ** Plain text *)

Lemma retry_returns_latin1 (s : ui_state) :
  DocumentProcessor._extract_from_text_retry s
  = (Ok (strip (latin1 (data (uploaded_file s)))), after_reread s).
Proof. reflexivity. Qed.

(** What [_extract_from_text] does, by whether the bytes from the current
    position are UTF-8. *)
Lemma extract_from_text_cases (s : ui_state) :
  DocumentProcessor._extract_from_text s
  = match utf8_decode
            (map byte_N (skipn (pos (uploaded_file s)) (data (uploaded_file s))))
    with
    | Some t => (Ok (strip t), after_read s)
    | None => (Ok (strip (latin1 (data (uploaded_file s)))), after_reread s)
    end.
Proof.
  unfold DocumentProcessor._extract_from_text, try_except, bind, read, lift,
    decode_utf8.
  destruct (utf8_decode _); reflexivity.
Qed.

(** C7. A plain-text upload, read from its start, whose bytes are not
    valid UTF-8: [_extract_from_text] returns the Latin-1 decoding of all
    the bytes, stripped; [extract_text] returns it as the content and shows
    no error. *)
Theorem latin1_fallback_succeeds (s : ui_state) :
  pos (uploaded_file s) = 0 ->
  utf8_decode (map byte_N (data (uploaded_file s))) = None ->
  DocumentProcessor._extract_from_text s
  = (Ok (strip (latin1 (data (uploaded_file s)))), after_reread s)
  /\ (type (uploaded_file s) = lit "text/plain" ->
      DocumentProcessor.extract_text s
      = (Ok (Some (Text (strip (latin1 (data (uploaded_file s)))))),
         after_reread s)).
Proof.
  intros Hpos Hutf.
  assert (Hx : DocumentProcessor._extract_from_text s
               = (Ok (strip (latin1 (data (uploaded_file s)))), after_reread s)).
  { rewrite extract_from_text_cases, Hpos; simpl skipn; now rewrite Hutf. }
  split; [exact Hx|].
  intros Hty.
  unfold DocumentProcessor.extract_text, DocumentProcessor.extract_text_try,
    try_except, bind, gets.
  rewrite Hty; simpl; rewrite Hx; reflexivity.
Qed.

(** C10. The Latin-1 decode is defined on every byte string, so the retry
    never raises, and [_extract_from_text] returns a string for every
    state of the uploaded file. *)
Theorem text_extraction_never_raises (s : ui_state) :
  (forall b : bytes, decode_latin1 b = Ok (latin1 b)
                     /\ length (latin1 b) = length b)
  /\ (exists t, DocumentProcessor._extract_from_text_retry s
                = (Ok t, after_reread s))
  /\ (exists t s', DocumentProcessor._extract_from_text s = (Ok t, s')).
Proof.
  split; [|split].
  - intros b; split; [reflexivity|apply length_map].
  - eexists; apply retry_returns_latin1.
  - rewrite extract_from_text_cases.
    destruct (utf8_decode _); eexists; eexists; reflexivity.
Qed.

(** ** PDF *)

(** The accumulated text after the page loop. *)
Lemma pdf_pages_loop_ok (pages : list Page) (texts : list str) :
  Forall2 (fun p t => page_extract_text p = Ok t) pages texts ->
  forall acc s,
    DocumentProcessor.pdf_pages_loop pages acc s
    = (Ok (acc ++ concat (map (fun t => t ++ nl) texts)), s).
Proof.
  induction 1 as [|p t pages texts Hp _ IH]; intros acc s; simpl.
  - now rewrite app_nil_r.
  - unfold bind, lift; rewrite Hp, IH, <- !app_assoc; reflexivity.
Qed.

Lemma lines_are_join (texts : list str) :
  texts <> [] -> concat (map (fun t => t ++ nl) texts) = join nl texts ++ nl.
Proof.
  induction texts as [|t [|u texts] IH]; intros Hne; [congruence| |].
  - simpl; now rewrite app_nil_r.
  - change (concat (map (fun t => t ++ nl) (t :: u :: texts)))
      with ((t ++ nl) ++ concat (map (fun t => t ++ nl) (u :: texts))).
    rewrite IH by discriminate.
    change (join nl (t :: u :: texts)) with (t ++ nl ++ join nl (u :: texts)).
    now rewrite <- !app_assoc.
Qed.

Lemma strip_lines (texts : list str) :
  strip (concat (map (fun t => t ++ nl) texts)) = strip (join nl texts).
Proof.
  destruct texts as [|t texts]; [reflexivity|].
  rewrite lines_are_join by discriminate.
  now apply strip_app_space.
Qed.

Lemma leading_space_join (texts : list str) :
  hd [] texts <> [] ->
  leading_space (join nl texts) = leading_space (hd [] texts).
Proof.
  destruct texts as [|t [|u texts]]; simpl hd; intros Ht; try reflexivity.
  change (join nl (t :: u :: texts)) with (t ++ nl ++ join nl (u :: texts)).
  now apply leading_space_app.
Qed.

Lemma trailing_space_join (texts : list str) :
  last texts [] <> [] ->
  trailing_space (join nl texts) = trailing_space (last texts []).
Proof.
  induction texts as [|t [|u texts] IH]; intros Ht; try reflexivity.
  change (join nl (t :: u :: texts)) with (t ++ nl ++ join nl (u :: texts)).
  change (last (t :: u :: texts) []) with (last (u :: texts) []) in *.
  rewrite app_assoc, trailing_space_app.
  - now apply IH.
  - intros E; apply Ht.
    destruct texts as [|v texts]; [exact E|].
    change (join nl (u :: v :: texts)) with (u ++ nl ++ join nl (v :: texts)) in E.
    destruct u; discriminate.
Qed.

(** Every joined string occurs in the join. *)
Lemma join_occurrence (sep t : str) (texts : list str) :
  In t texts -> exists pre post, join sep texts = pre ++ t ++ post.
Proof.
  induction texts as [|u [|w texts] IH]; intros Hin; [destruct Hin| |].
  - destruct Hin as [->|[]]; exists [], []; simpl; now rewrite app_nil_r.
  - change (join sep (u :: w :: texts)) with (u ++ sep ++ join sep (w :: texts)).
    destruct Hin as [->|Hin].
    + now exists [], (sep ++ join sep (w :: texts)).
    + destruct (IH Hin) as (pre & post & ->).
      exists (u ++ sep ++ pre), post; now rewrite <- !app_assoc.
Qed.

Lemma contains_join (t : str) (texts : list str) :
  In t texts -> contains t (join nl texts) = true.
Proof.
  intros Hin; destruct (join_occurrence nl t texts Hin) as (pre & post & ->).
  apply contains_app.
Qed.

Lemma last_nonempty (texts : list str) :
  Forall (fun t => t <> []) texts -> texts <> [] -> last texts [] <> [].
Proof.
  induction 1 as [|t texts Ht _ IH]; [intros Hnil; now elim Hnil|].
  intros _; destruct texts as [|u texts]; [exact Ht|].
  apply IH; discriminate.
Qed.

(** C6, as the code has it. A PDF whose pages all yield text (each page's
    text non-empty): the extraction returns the page texts in page order
    joined by newlines, with the white space at both ends of that string
    stripped, so the result neither starts nor ends with white space.  It
    is the joined page texts themselves, and every page's text occurs in
    it, when the first page's text does not start and the last page's text
    does not end with white space. *)
Theorem pdf_text_is_stripped_join (s : ui_state) (pages : list Page)
    (texts : list str) :
  PdfReader_pages (skipn (pos (uploaded_file s)) (data (uploaded_file s)))
    = Ok pages ->
  Forall2 (fun p t => page_extract_text p = Ok t) pages texts ->
  Forall (fun t => t <> []) texts ->
  DocumentProcessor._extract_from_pdf s
    = (Ok (strip (join nl texts)), after_read s)
  /\ leading_space (strip (join nl texts)) = false
  /\ trailing_space (strip (join nl texts)) = false
  /\ (leading_space (hd [] texts) = false ->
      trailing_space (last texts []) = false ->
      strip (join nl texts) = join nl texts
      /\ forall t, In t texts -> contains t (strip (join nl texts)) = true).
Proof.
  intros Hreader Hpages Hne.
  split; [|split; [|split]].
  - unfold DocumentProcessor._extract_from_pdf, try_except, bind, read, lift.
    rewrite Hreader.
    rewrite (pdf_pages_loop_ok _ _ Hpages); simpl app.
    rewrite strip_lines; reflexivity.
  - apply strip_no_outer_space.
  - apply strip_no_outer_space.
  - intros Hfirst Hlast.
    assert (Hsame : strip (join nl texts) = join nl texts).
    { destruct texts as [|t texts]; [reflexivity|].
      apply strip_fixed.
      - rewrite leading_space_join; [exact Hfirst|].
        now inversion Hne.
      - rewrite trailing_space_join; [exact Hlast|].
        apply last_nonempty; [exact Hne|discriminate]. }
    split; [exact Hsame|].
    intros t Ht; rewrite Hsame; now apply contains_join.
Qed.

End ExtractorProperties.

(* ===================================================================== *)
(** * Properties of [min] and [max] on floats *)
(* ===================================================================== *)

Section FloatFacts.

Lemma SFcompare_antisym (a b : float) :
  SFcompare b a = option_map CompOpp (SFcompare a b).
Proof.
  destruct a as [sa|sa| |sa ma ea], b as [sb|sb| |sb mb eb]; simpl;
    try reflexivity; try (destruct sa; reflexivity);
    try (destruct sb; reflexivity); try (destruct sa, sb; reflexivity).
  pose proof (Pos.compare_cont_antisym ma mb Eq) as Hm; simpl in Hm.
  destruct sa, sb; simpl; try reflexivity;
    rewrite (Z.compare_antisym ea eb); destruct (ea ?= eb)%Z; simpl;
    try reflexivity; rewrite <- Hm; try reflexivity;
    now rewrite CompOpp_involutive.
Qed.

Lemma SFltb_asym (a b : float) : SFltb a b = true -> SFltb b a = false.
Proof.
  unfold SFltb; rewrite (SFcompare_antisym a b).
  destruct (SFcompare a b) as [[]|]; simpl; congruence.
Qed.

(** The upper bound is a positive finite float: its digits play no role. *)
Variables (M : positive) (E : Z).
Let top : float := S754_finite false M E.

(** Below 0.0 is below a positive float. *)
Lemma below_zero_below_top (c : float) :
  SFltb c float_0_0 = true -> SFltb c top = true.
Proof.
  destruct c as [s|[]| |[] m e]; simpl; intros Hc; try discriminate;
    reflexivity.
Qed.

(** A float that compares equal to a positive finite float is that float. *)
Lemma compare_top_eq (c : float) :
  SFcompare c top = Some Eq -> c = top.
Proof.
  destruct c as [s|[]| |[] m e]; simpl; try discriminate.
  destruct (e ?= E)%Z eqn:He; try discriminate.
  intros [= Hm]; apply Z.compare_eq in He; apply Pos.compare_eq in Hm.
  unfold top; congruence.
Qed.

Lemma clamp_above_top (c : float) :
  SFltb top c = true -> max2 float_0_0 (min2 top c) = top.
Proof.
  intros Hc; unfold min2; rewrite (SFltb_asym _ _ Hc); reflexivity.
Qed.

Lemma clamp_below_top (c : float) :
  SFltb c float_0_0 = true -> max2 float_0_0 (min2 top c) = float_0_0.
Proof.
  intros Hc; unfold min2; rewrite (below_zero_below_top _ Hc).
  unfold max2; rewrite (SFltb_asym _ _ Hc); reflexivity.
Qed.

Lemma min_top_inside (c : float) :
  SFleb c top = true -> min2 top c = c.
Proof.
  unfold min2, SFltb, SFleb.
  destruct (SFcompare c top) as [[]|] eqn:Hc; try discriminate; intros _;
    [symmetry; now apply compare_top_eq|reflexivity].
Qed.

Lemma max_zero_inside (c : float) :
  SFleb float_0_0 c = true ->
  SFeqb (max2 float_0_0 c) c = true
  /\ (c <> S754_zero true -> max2 float_0_0 c = c).
Proof.
  unfold max2, SFltb, SFleb, SFeqb.
  destruct c as [[]|[]| |[] m e]; simpl; intros Hlo; try discriminate;
    (split; [|intros Hnz]); try reflexivity; try congruence.
  now rewrite Z.compare_refl, Pos.compare_cont_refl.
Qed.

Lemma clamp_inside_top (c : float) :
  SFleb float_0_0 c = true -> SFleb c top = true ->
  SFeqb (max2 float_0_0 (min2 top c)) c = true
  /\ (c <> S754_zero true -> max2 float_0_0 (min2 top c) = c).
Proof.
  intros Hlo Hhi; rewrite (min_top_inside _ Hhi); now apply max_zero_inside.
Qed.

End FloatFacts.

(** Above 1.0: [min] keeps 1.0 and [max] keeps it. *)
Lemma clamp_above (c : float) :
  SFltb float_1_0 c = true -> max2 float_0_0 (min2 float_1_0 c) = float_1_0.
Proof. exact (clamp_above_top _ _ c). Qed.

(** Below 0.0: [min] lets the value through and [max] replaces it by 0.0. *)
Lemma clamp_below (c : float) :
  SFltb c float_0_0 = true -> max2 float_0_0 (min2 float_1_0 c) = float_0_0.
Proof. exact (clamp_below_top _ _ c). Qed.

(** Between 0.0 and 1.0: the value comes back; a negative zero comes back
    as the zero it is equal to. *)
Lemma clamp_inside (c : float) :
  SFleb float_0_0 c = true -> SFleb c float_1_0 = true ->
  SFeqb (max2 float_0_0 (min2 float_1_0 c)) c = true
  /\ (c <> S754_zero true -> max2 float_0_0 (min2 float_1_0 c) = c).
Proof. exact (clamp_inside_top _ _ c). Qed.

(* ===================================================================== *)
(** * Properties of the classification client *)
(* ===================================================================== *)

(** Unfolds one run of a classification path down to the library calls. *)
Ltac run_path :=
  unfold GeminiClassifier._classify_text, GeminiClassifier._classify_image,
    call, try_except, bind, lift, assign_response, logging_error,
    getattr_response_text, modify, raise, ret;
  cbv zeta.

(** From [request_for c = Some req], for a known kind of content, the
    request itself, without computing the prompt. *)
Ltac pick_request Hreq :=
  unfold request_for in Hreq;
  match type of Hreq with
  | None = Some _ => discriminate Hreq
  | Some ?q = Some ?req =>
    assert (q = req) by
      exact (f_equal (fun o => match o with Some x => x | None => req end) Hreq);
    subst req; clear Hreq
  end.

Section ClassifierProperties.
Context `{PIL} `{JsonModule} `{!Pydantic} `{!GenerativeModel}.

(** Both paths are one function of the model's answer; the dispatch of
    [classify_document] picks the request. *)
Lemma classify_document_paths (c : content) (req : Request) :
  request_for c = Some req ->
  (exists s, c = Text s /\ GeminiClassifier.classify_document c
                           = GeminiClassifier._classify_text s)
  \/ (exists img, c = Picture img /\ GeminiClassifier.classify_document c
                                    = GeminiClassifier._classify_image img).
Proof.
  destruct c as [s|img|]; intros Hreq; [left|right|discriminate];
    eexists; split; reflexivity.
Qed.

(** A response that is not blocked and parses: the dict is returned and
    nothing is logged. *)
Lemma classified (c : content) (req : Request) (r : Response) (t : str)
    (cr : ClassificationResult) (l : list str) :
  request_for c = Some req ->
  generate_content req = Ok r ->
  truthy (block_reason (prompt_feedback r)) = false ->
  text r = AttrValue t ->
  parse_response t = Ok cr ->
  GeminiClassifier.classify_document c l = (Ok (result_dict cr), l).
Proof.
  intros Hreq Hgen Hblock Htext Hparse.
  unfold parse_response, normalize_response in Hparse; cbv zeta in Hparse.
  destruct c as [s|img|]; pick_request Hreq; simpl GeminiClassifier.classify_document;
    run_path; rewrite Hgen, Hblock; unfold hasattr_text, get_text;
    rewrite Htext;
    destruct (json_loads _) as [j|e]; try discriminate;
    simpl in Hparse; rewrite Hparse; unfold result_dict;
    destruct (list_in (category cr) GeminiClassifier.categories);
    reflexivity.
Qed.

(** C1. A response that parses into the three fields: the returned
    category is "Others" when the parsed category is none of the eight
    values of [categories], and is the parsed category when it is one of
    them. *)
Theorem category_is_coerced_to_Others (c : content) (req : Request)
    (r : Response) (t : str) (cr : ClassificationResult) (l : list str) :
  request_for c = Some req ->
  generate_content req = Ok r ->
  truthy (block_reason (prompt_feedback r)) = false ->
  text r = AttrValue t ->
  parse_response t = Ok cr ->
  exists d,
    GeminiClassifier.classify_document c l = (Ok d, l)
    /\ (~ In (category cr) GeminiClassifier.categories ->
        getitem d (lit "category") = Some (VStr (lit "Others")))
    /\ (In (category cr) GeminiClassifier.categories ->
        getitem d (lit "category") = Some (VStr (category cr))).
Proof.
  intros Hreq Hgen Hblock Htext Hparse.
  exists (result_dict cr); split.
  - eapply classified; eassumption.
  - unfold result_dict; cbn [getitem]; rewrite str_eqb_refl.
    split; intros Hin.
    + apply list_in_not_In in Hin; now rewrite Hin.
    + apply list_in_In in Hin; now rewrite Hin.
Qed.

(** C2. A response that parses into the three fields: the returned
    confidence is [max(0.0, min(1.0, reported))]; it is 1.0 when the
    reported value is above 1.0, 0.0 when it is below 0.0, and the
    reported value when that lies between 0.0 and 1.0 (equal as floats, and
    the same float unless the reported value is the negative zero, which
    comes back as 0.0). *)
Theorem confidence_is_clamped (c : content) (req : Request)
    (r : Response) (t : str) (cr : ClassificationResult) (l : list str) :
  request_for c = Some req ->
  generate_content req = Ok r ->
  truthy (block_reason (prompt_feedback r)) = false ->
  text r = AttrValue t ->
  parse_response t = Ok cr ->
  exists d conf,
    GeminiClassifier.classify_document c l = (Ok d, l)
    /\ getitem d (lit "confidence") = Some (VFloat conf)
    /\ conf = max2 float_0_0 (min2 float_1_0 (confidence cr))
    /\ (SFltb float_1_0 (confidence cr) = true -> conf = float_1_0)
    /\ (SFltb (confidence cr) float_0_0 = true -> conf = float_0_0)
    /\ (SFleb float_0_0 (confidence cr) = true ->
        SFleb (confidence cr) float_1_0 = true ->
        SFeqb conf (confidence cr) = true
        /\ (confidence cr <> S754_zero true -> conf = confidence cr)).
Proof.
  intros Hreq Hgen Hblock Htext Hparse.
  exists (result_dict cr), (max2 float_0_0 (min2 float_1_0 (confidence cr))).
  split; [eapply classified; eassumption|].
  split; [reflexivity|split; [reflexivity|]].
  split; [apply clamp_above|split; [apply clamp_below|apply clamp_inside]].
Qed.

(** A response whose normalized text [json.loads] rejects. *)
Lemma malformed (c : content) (req : Request) (r : Response) (t m : str)
    (l : list str) :
  request_for c = Some req ->
  generate_content req = Ok r ->
  truthy (block_reason (prompt_feedback r)) = false ->
  text r = AttrValue t ->
  json_loads (normalize_response t) = Raise (JSONDecodeError m) ->
  GeminiClassifier.classify_document c l
  = (Raise (ValueError
              (lit "Classification failed: The AI returned improperly formatted data. Full AI response: "
               ++ t)),
     l ++ [lit "JSON decode error: " ++ m ++ lit ". AI response was: " ++ t]).
Proof.
  intros Hreq Hgen Hblock Htext Hloads.
  unfold normalize_response in Hloads; cbv zeta in Hloads.
  destruct c as [s|img|]; pick_request Hreq; simpl GeminiClassifier.classify_document;
    run_path; rewrite Hgen, Hblock; unfold hasattr_text, get_text;
    rewrite Htext, Hloads; simpl; rewrite Htext; reflexivity.
Qed.

(** C4. A response whose text, once the fences are stripped, makes
    [json.loads] raise: the classification raises a [ValueError] and
    returns no result, whatever the exception; when the exception is a
    [JSONDecodeError], the message ends with the raw response text. *)
Theorem malformed_json_fails_with_raw_text (c : content) (req : Request)
    (r : Response) (t : str) (e : exn) (l : list str) :
  request_for c = Some req ->
  generate_content req = Ok r ->
  truthy (block_reason (prompt_feedback r)) = false ->
  text r = AttrValue t ->
  json_loads (normalize_response t) = Raise e ->
  exists msg l',
    GeminiClassifier.classify_document c l = (Raise (ValueError msg), l')
    /\ (forall m, e = JSONDecodeError m ->
        msg = lit "Classification failed: The AI returned improperly formatted data. Full AI response: "
              ++ t
        /\ contains t msg = true).
Proof.
  intros Hreq Hgen Hblock Htext Hloads.
  assert (Hjson : forall m, e = JSONDecodeError m ->
            GeminiClassifier.classify_document c l
            = (Raise (ValueError
                        (lit "Classification failed: The AI returned improperly formatted data. Full AI response: "
                         ++ t)),
               l ++ [lit "JSON decode error: " ++ m
                     ++ lit ". AI response was: " ++ t])).
  { intros m ->; eapply malformed; eassumption. }
  unfold normalize_response in Hloads; cbv zeta in Hloads.
  destruct e as [m|m|m|m|m|m|m|m|m].
  4: { eexists; eexists; split; [apply (Hjson m eq_refl)|].
       intros m' _; split; [reflexivity|apply contains_suffix]. }
  all: eexists; eexists; split; [|intros m' Hm; discriminate Hm].
  all: destruct c as [s|img|]; pick_request Hreq;
    simpl GeminiClassifier.classify_document; run_path;
    rewrite Hgen, Hblock; unfold hasattr_text, get_text;
    rewrite Htext, Hloads; reflexivity.
Qed.

(** C8. A response with a truthy block reason: the classification raises
    a [ValueError], the one kind of failure the caller sees, and the
    message ends with the name of the block reason. *)
Theorem safety_block_fails_naming_reason (c : content) (req : Request)
    (r : Response) (l : list str) :
  request_for c = Some req ->
  generate_content req = Ok r ->
  truthy (block_reason (prompt_feedback r)) = true ->
  exists msg l',
    GeminiClassifier.classify_document c l = (Raise (ValueError msg), l')
    /\ msg = lit "An unexpected error occurred during classification: "
             ++ lit "Classification failed due to safety settings. Reason: "
             ++ name (block_reason (prompt_feedback r))
    /\ contains (name (block_reason (prompt_feedback r))) msg = true.
Proof.
  intros Hreq Hgen Hblock.
  eexists; eexists; split; [|split; [reflexivity|]].
  - destruct c as [s|img|]; pick_request Hreq; simpl GeminiClassifier.classify_document;
      run_path; rewrite Hgen, Hblock; reflexivity.
  - rewrite app_assoc; apply contains_suffix.
Qed.

(** C9. The text path and the image path, given the same answer of the
    model (the same response or the same exception), return the same
    result or raise the same exception, and log the same messages. *)
Theorem text_and_image_paths_agree (document : str) (image : Image)
    (l : list str) :
  generate_content
    (PromptRequest
       (GeminiClassifier._create_classification_prompt ++ nl ++ nl
        ++ lit "Document text to classify:" ++ nl ++ nl ++ document))
  = generate_content
      (PartsRequest GeminiClassifier._create_classification_prompt image) ->
  GeminiClassifier._classify_text document l
  = GeminiClassifier._classify_image image l.
Proof.
  intros Hsame.
  unfold GeminiClassifier._classify_text, GeminiClassifier._classify_image.
  unfold call, try_except, bind at 1 3; cbv zeta.
  unfold lift at 1 3; rewrite Hsame.
  reflexivity.
Qed.

End ClassifierProperties.

(* ===================================================================== *)
(** * Fenced responses *)
(* ===================================================================== *)

Section FencedResponses.
Context `{PIL} `{JsonModule} `{!Pydantic}.

(** The normalization of a fenced body is the body, whatever it is. *)
Lemma normalize_fenced (body : str) : normalize_response (fenced body) = body.
Proof.
  unfold normalize_response, fenced; cbv zeta.
  rewrite strip_fixed.
  - rewrite startswith_app.
    change 7%nat with (length (lit "```json")); rewrite slice_from_app.
    rewrite endswith_app.
    change 3%nat with (length (lit "```")); apply slice_to_minus_app.
  - reflexivity.
  - rewrite app_assoc, trailing_space_app by discriminate; reflexivity.
Qed.

(** The normalization of a JSON text only strips it. *)
Lemma normalize_json `{!JsonGrammar} (body : str) (v : Json) :
  json_loads body = Ok v ->
  normalize_response body = strip body /\ json_loads (strip body) = Ok v.
Proof.
  intros Hbody; apply loads_strip in Hbody; split; [|exact Hbody].
  destruct (loads_backtick _ Hbody) as [Hfirst Hlast].
  unfold normalize_response; cbv zeta.
  change (lit "```json") with (96%N :: lit "``json").
  rewrite (startswith_first 96%N (lit "``json") _ Hfirst).
  change (lit "```") with (lit "``" ++ [96%N]).
  now rewrite (endswith_last 96%N (lit "``") _ Hlast).
Qed.

(** Parsing a fenced JSON body and parsing the body give the same data. *)
Lemma fenced_parses_alike `{!JsonGrammar} (body : str) (v : Json) :
  json_loads body = Ok v ->
  json_loads (normalize_response (fenced body)) = Ok v
  /\ json_loads (normalize_response body) = Ok v.
Proof.
  intros Hbody; rewrite normalize_fenced; split; [exact Hbody|].
  apply normalize_json in Hbody as [-> Hstrip]; exact Hstrip.
Qed.

(** Two responses with the same feedback whose texts parse to the same
    data have the same outcome. *)
Lemma same_data_same_outcome (G1 G2 : GenerativeModel) (c : content)
    (req : Request) (r1 r2 : Response) (t1 t2 : str) (v : Json)
    (l : list str) :
  request_for c = Some req ->
  @generate_content _ G1 req = Ok r1 ->
  @generate_content _ G2 req = Ok r2 ->
  prompt_feedback r1 = prompt_feedback r2 ->
  text r1 = AttrValue t1 ->
  text r2 = AttrValue t2 ->
  json_loads (normalize_response t1) = Ok v ->
  json_loads (normalize_response t2) = Ok v ->
  classify_with G1 c l = classify_with G2 c l.
Proof.
  intros Hreq Hgen1 Hgen2 Hfb Ht1 Ht2 Hv1 Hv2.
  unfold normalize_response in Hv1, Hv2; cbv zeta in Hv1, Hv2.
  unfold classify_with.
  destruct c as [s|img|]; pick_request Hreq;
    simpl GeminiClassifier.classify_document; run_path;
    rewrite Hgen1, Hgen2, Hfb;
    (destruct (truthy (block_reason (prompt_feedback r2))); [reflexivity|]);
    unfold hasattr_text, get_text; rewrite Ht1, Ht2, Hv1, Hv2;
    destruct (ClassificationResult_new v); reflexivity.
Qed.

(** C3. A JSON body between a leading [```json] fence and a trailing
    [```] fence in the response text gives the same outcome (the same dict
    or the same exception, and the same log) as the body alone, the rest
    of the response being the same. *)
Theorem fenced_response_same_outcome `{!JsonGrammar} (G1 G2 : GenerativeModel)
    (c : content) (req : Request) (r1 r2 : Response) (body : str) (v : Json)
    (l : list str) :
  json_loads body = Ok v ->
  request_for c = Some req ->
  @generate_content _ G1 req = Ok r1 ->
  @generate_content _ G2 req = Ok r2 ->
  prompt_feedback r1 = prompt_feedback r2 ->
  text r1 = AttrValue (fenced body) ->
  text r2 = AttrValue body ->
  classify_with G1 c l = classify_with G2 c l.
Proof.
  intros Hbody Hreq Hgen1 Hgen2 Hfb Ht1 Ht2.
  apply fenced_parses_alike in Hbody as [Hv1 Hv2].
  eapply same_data_same_outcome; eassumption.
Qed.

End FencedResponses.

(* ===================================================================== *)
(** * The JSON decoder obeys the grammar facts *)
(* ===================================================================== *)

Module JsonDecoderFacts.
Import JsonDecoder.

(** Boolean tests on characters as arithmetic. *)
Ltac char_arith :=
  unfold isspace, is_json_ws, is_atom_char, is_digit in *;
  repeat rewrite ?orb_true_iff, ?andb_true_iff, ?orb_false_iff,
    ?andb_false_iff, ?N.eqb_eq, ?N.eqb_neq, ?N.leb_le, ?N.leb_gt in *;
  lia.

Lemma space_not_quote (c : N) : isspace c = true -> (c =? 34)%N = false.
Proof. intros Hc; apply N.eqb_neq; intros ->; discriminate Hc. Qed.

Lemma space_not_backslash (c : N) : isspace c = true -> (c =? 92)%N = false.
Proof. intros Hc; apply N.eqb_neq; intros ->; discriminate Hc. Qed.

Lemma space_not_punct (c : N) : isspace c = true -> punct c = None.
Proof.
  intros Hc; unfold punct.
  repeat match goal with
         | |- context [N.eqb c ?k] =>
           destruct (N.eqb_spec c k) as [ -> | _ ]; [discriminate Hc|]
         end.
  reflexivity.
Qed.

Lemma space_not_atom (c : N) : isspace c = true -> is_atom_char c = false.
Proof.
  intros Hc; apply not_true_is_false; intros Ha; char_arith.
Qed.

Lemma json_ws_space (c : N) : is_json_ws c = true -> isspace c = true.
Proof.
  intros Hc.
  assert (Hcases : c = 32%N \/ c = 9%N \/ c = 10%N \/ c = 13%N) by char_arith.
  destruct Hcases as [ -> | [ -> | [ -> | -> ] ] ]; reflexivity.
Qed.

(** Between tokens, white space is skipped when JSON allows it and is an
    error otherwise. *)
Lemma start_space (toks : list token) (c : N) :
  isspace c = true ->
  start toks c = if is_json_ws c then (Default, toks) else (Failed, toks).
Proof.
  intros Hc; unfold start.
  rewrite (space_not_quote _ Hc), (space_not_punct _ Hc), (space_not_atom _ Hc).
  reflexivity.
Qed.

Lemma fold_failed (s : str) (toks : list token) :
  fold_left step s (Failed, toks) = (Failed, toks).
Proof. induction s as [|c s IH]; simpl; [reflexivity|exact IH]. Qed.

Lemma lex_failed (s : str) (toks : list token) :
  finish (fold_left step s (Failed, toks)) = None.
Proof. now rewrite fold_failed. Qed.

(** White space before the text. *)
Lemma lex_lstrip (s : str) (ts : list token) :
  lex s = Some ts -> lex (lstrip s) = Some ts.
Proof.
  unfold lex, lstrip; induction s as [|c s IH]; simpl; [trivial|].
  destruct (isspace c) eqn:Hc; [|trivial].
  rewrite (start_space _ _ Hc); destruct (is_json_ws c); [exact IH|].
  now rewrite lex_failed.
Qed.

(** White space after the text: the state before it was final already. *)
Lemma finish_step_space (st : lex_state) (c : N) (ts : list token) :
  isspace c = true -> finish (step st c) = Some ts -> finish st = Some ts.
Proof.
  intros Hc; destruct st as [[ |acc|acc|acc|acc n v| ] toks]; simpl.
  - rewrite (start_space _ _ Hc); destruct (is_json_ws c); [trivial|discriminate].
  - rewrite (space_not_atom _ Hc), (start_space _ _ Hc).
    destruct (is_json_ws c); [trivial|discriminate].
  - rewrite (space_not_quote _ Hc), (space_not_backslash _ Hc).
    destruct (c <? 32)%N; discriminate.
  - destruct (escape_char c); [discriminate|].
    destruct (c =? 117)%N; discriminate.
  - destruct (hex_value c); [|discriminate].
    destruct (Nat.eqb n 3); discriminate.
  - discriminate.
Qed.

Lemma lex_snoc (s : str) (c : N) :
  lex (s ++ [c]) = finish (step (fold_left step s (Default, [])) c).
Proof. unfold lex; now rewrite fold_left_app. Qed.

Lemma lex_rstrip (s : str) (ts : list token) :
  lex s = Some ts -> lex (rstrip s) = Some ts.
Proof.
  unfold rstrip; rewrite <- (rev_involutive s) at 1.
  induction (rev s) as [|c r IH]; simpl; [trivial|].
  destruct (isspace c) eqn:Hc; [|trivial].
  rewrite lex_snoc; intros Hlex; apply IH.
  exact (finish_step_space _ _ _ Hc Hlex).
Qed.

Lemma lex_strip (s : str) (ts : list token) :
  lex s = Some ts -> lex (strip s) = Some ts.
Proof. intros Hs; unfold strip; now apply lex_rstrip, lex_lstrip. Qed.

(** The decoder reads its argument through the lexer only. *)
Lemma loads_lex (s s' : str) : lex s = lex s' -> loads s = loads s'.
Proof. unfold loads; now intros ->. Qed.

Lemma loads_lexes (s : str) (v : json) :
  loads s = Ok v -> exists ts, lex s = Some ts.
Proof.
  unfold loads; destruct (lex s) as [ts|]; [|discriminate]; now exists ts.
Qed.

Lemma decoder_strip (s : str) (v : json) :
  loads s = Ok v -> loads (strip s) = Ok v.
Proof.
  intros Hs; destruct (loads_lexes _ _ Hs) as [ts Hts].
  rewrite <- Hs; apply loads_lex.
  now rewrite Hts, (lex_strip _ _ Hts).
Qed.

(** A backtick is no JSON character outside a string, and a string that
    holds one is not closed by it. *)
Lemma step_backtick (st : lex_state) : finish (step st 96%N) = None.
Proof. destruct st as [[ |acc|acc|acc|acc n v| ] toks]; reflexivity. Qed.

Lemma decoder_backtick (s : str) (v : json) :
  loads s = Ok v ->
  startswith (lit "`") s = false /\ endswith (lit "`") s = false.
Proof.
  intros Hs; destruct (loads_lexes _ _ Hs) as [ts Hts]; split.
  - destruct (startswith (lit "`") s) eqn:E; [|reflexivity].
    apply startswith_prefix in E as [r ->].
    change (lit "`" ++ r) with (96%N :: r) in Hts.
    unfold lex in Hts; cbn [fold_left] in Hts.
    change (step (Default, []) 96%N) with (Failed, @nil token) in Hts.
    rewrite lex_failed in Hts; discriminate.
  - destruct (endswith (lit "`") s) eqn:E; [|reflexivity].
    apply endswith_suffix in E as [r ->].
    change (lit "`") with [96%N] in Hts.
    rewrite lex_snoc, step_backtick in Hts; discriminate.
Qed.

(** The decoder is an instance of the grammar facts. *)
Lemma decoder_grammar : @JsonGrammar Doubles.json_module.
Proof.
  split.
  - exact decoder_strip.
  - exact decoder_backtick.
Qed.

End JsonDecoderFacts.

(* ===================================================================== *)
(** * The properties on concrete inputs *)
(* ===================================================================== *)

Section ConcreteRuns.

#[local] Existing Instance Doubles.pil.
#[local] Existing Instance Doubles.json_module.
#[local] Existing Instance Doubles.pydantic.

(** An answer with a category outside the list comes back as "Others". *)
Lemma category_is_coerced_to_Others_witness :
  exists d,
    classify_with (Doubles.answering Doubles.memo_answer) (Text Doubles.note) []
    = (Ok d, [])
    /\ getitem d (lit "category") = Some (VStr (lit "Others")).
Proof.
  destruct
    (@category_is_coerced_to_Others
       Doubles.pil Doubles.json_module Doubles.pydantic
       (Doubles.answering Doubles.memo_answer)
       (Text Doubles.note) Doubles.note_request
       (Doubles.plain_response Doubles.memo_answer) Doubles.memo_answer
       {| category := lit "Memo";
          confidence := S754_finite false 4503599627370496 (-53);
          explanation := lit "an internal note" |}
       []
       eq_refl eq_refl eq_refl eq_refl)
    as (d & Hrun & Hout & _); [vm_compute; reflexivity|].
  exists d; split; [exact Hrun|].
  apply Hout; intros Hin; apply list_in_In in Hin; vm_compute in Hin.
  discriminate Hin.
Defined.

(** A reported 1.5 comes back as 1.0 and a reported -0.2 as 0.0. *)
Lemma confidence_is_clamped_witness :
  (exists d,
     classify_with (Doubles.answering Doubles.high_answer) (Text Doubles.note) []
     = (Ok d, [])
     /\ getitem d (lit "confidence") = Some (VFloat float_1_0))
  /\ (exists d,
        classify_with (Doubles.answering Doubles.low_answer) (Text Doubles.note) []
        = (Ok d, [])
        /\ getitem d (lit "confidence") = Some (VFloat float_0_0)).
Proof.
  split.
  - destruct
      (@confidence_is_clamped
         Doubles.pil Doubles.json_module Doubles.pydantic
         (Doubles.answering Doubles.high_answer)
         (Text Doubles.note) Doubles.note_request
         (Doubles.plain_response Doubles.high_answer) Doubles.high_answer
         {| category := lit "Invoice";
            confidence := S754_finite false 6755399441055744 (-52);
            explanation := lit "payment terms" |}
         []
         eq_refl eq_refl eq_refl eq_refl)
      as (d & conf & Hrun & Hget & _ & Habove & _); [vm_compute; reflexivity|].
    exists d; split; [exact Hrun|].
    rewrite Hget, Habove; reflexivity.
  - destruct
      (@confidence_is_clamped
         Doubles.pil Doubles.json_module Doubles.pydantic
         (Doubles.answering Doubles.low_answer)
         (Text Doubles.note) Doubles.note_request
         (Doubles.plain_response Doubles.low_answer) Doubles.low_answer
         {| category := lit "Receipt";
            confidence := S754_finite true 7205759403792794 (-55);
            explanation := lit "proof of payment" |}
         []
         eq_refl eq_refl eq_refl eq_refl)
      as (d & conf & Hrun & Hget & _ & _ & Hbelow & _);
      [vm_compute; reflexivity|].
    exists d; split; [exact Hrun|].
    rewrite Hget, Hbelow; reflexivity.
Defined.

(** The negative zero lies between 0.0 and 1.0 and comes back as 0.0. *)
Lemma negative_zero_is_clamped_to_zero :
  SFleb float_0_0 (S754_zero true) = true
  /\ SFleb (S754_zero true) float_1_0 = true
  /\ max2 float_0_0 (min2 float_1_0 (S754_zero true)) = S754_zero false
  /\ SFeqb (S754_zero false) (S754_zero true) = true.
Proof. repeat split. Qed.

(** A not-a-number passes neither comparison and comes back as 1.0. *)
Lemma nan_is_clamped_to_one :
  max2 float_0_0 (min2 float_1_0 S754_nan) = float_1_0.
Proof. reflexivity. Qed.

(** A fenced and a bare invoice answer give the same outcome. *)
Lemma fenced_response_same_outcome_witness :
  classify_with (Doubles.answering (fenced Doubles.invoice_answer))
    (Picture Doubles.scan) []
  = classify_with (Doubles.answering Doubles.invoice_answer) (Picture Doubles.scan) [].
Proof.
  apply (@fenced_response_same_outcome
           Doubles.pil Doubles.json_module Doubles.pydantic
           JsonDecoderFacts.decoder_grammar
           (Doubles.answering (fenced Doubles.invoice_answer))
           (Doubles.answering Doubles.invoice_answer)
           (Picture Doubles.scan)
           (PartsRequest GeminiClassifier._create_classification_prompt
                         Doubles.scan)
           (Doubles.plain_response (fenced Doubles.invoice_answer))
           (Doubles.plain_response Doubles.invoice_answer)
           Doubles.invoice_answer
           (JsonDecoder.JObject
              [(lit "category", JsonDecoder.JString (lit "Invoice"));
               (lit "confidence",
                JsonDecoder.JFloat
                  (S754_finite false 8376695306909123 (-53)));
               (lit "explanation", JsonDecoder.JString (lit "payment terms"))])
           []);
    try reflexivity.
Defined.

(** An answer in prose is no JSON body: fenced or bare it is rejected,
    and each message carries the text as it was received. *)
Lemma fenced_prose_is_reported_with_its_fences :
  fst (classify_with (Doubles.answering (fenced Doubles.chatty_answer))
         (Text Doubles.note) [])
  = Raise (ValueError
             (lit "Classification failed: The AI returned improperly formatted data. Full AI response: "
              ++ fenced Doubles.chatty_answer))
  /\ fst (classify_with (Doubles.answering Doubles.chatty_answer)
            (Text Doubles.note) [])
     = Raise (ValueError
                (lit "Classification failed: The AI returned improperly formatted data. Full AI response: "
                 ++ Doubles.chatty_answer)).
Proof. split; vm_compute; reflexivity. Qed.

(** An answer in prose is reported back in the error message. *)
Lemma malformed_json_fails_with_raw_text_witness :
  exists msg l',
    classify_with (Doubles.answering Doubles.chatty_answer) (Text Doubles.note) []
    = (Raise (ValueError msg), l')
    /\ msg = lit "Classification failed: The AI returned improperly formatted data. Full AI response: "
             ++ Doubles.chatty_answer
    /\ contains Doubles.chatty_answer msg = true.
Proof.
  destruct
    (@malformed_json_fails_with_raw_text
       Doubles.pil Doubles.json_module Doubles.pydantic
       (Doubles.answering Doubles.chatty_answer)
       (Text Doubles.note) Doubles.note_request
       (Doubles.plain_response Doubles.chatty_answer)
       Doubles.chatty_answer (JSONDecodeError (lit "Expecting value")) []
       eq_refl eq_refl eq_refl eq_refl eq_refl)
    as (msg & l' & Hrun & Hmsg).
  destruct (Hmsg _ eq_refl) as [Hraw Hin].
  exists msg, l'; split; [exact Hrun|split; [exact Hraw|exact Hin]].
Defined.

(** C4, as stated, fails: a text of 2000 opening brackets is not valid
    JSON, but the decoder gives up on it with a [RecursionError] before it
    finds the error; the generic handler reports it, and the message does
    not hold the raw text. *)
Lemma deep_nesting_is_reported_without_raw_text :
  JsonDecoder.loads Cases.deep_brackets
  = Raise (JSONDecodeError (lit "Expecting value"))
  /\ @json_loads Cases.limited_json (normalize_response Cases.deep_brackets)
     = Raise Cases.recursion_error
  /\ @classify_with Doubles.pil Cases.limited_json Cases.limited_pydantic
       (Doubles.answering Cases.deep_brackets) (Text Doubles.note) []
     = (Raise (ValueError
                 (lit "An unexpected error occurred during classification: maximum recursion depth exceeded while decoding a JSON array from a unicode string")),
        [lit "An unexpected classification error occurred: maximum recursion depth exceeded while decoding a JSON array from a unicode string"])
  /\ contains Cases.deep_brackets
       (lit "An unexpected error occurred during classification: maximum recursion depth exceeded while decoding a JSON array from a unicode string")
     = false.
Proof.
  split; [vm_compute; reflexivity|].
  split; [vm_compute; reflexivity|].
  split; vm_compute; reflexivity.
Qed.

(** A response blocked for safety. *)
Lemma safety_block_fails_naming_reason_witness :
  exists msg l',
    classify_with (Doubles.model (Ok Doubles.blocked_response))
      (Text Doubles.note) []
    = (Raise (ValueError msg), l')
    /\ msg = lit "An unexpected error occurred during classification: "
             ++ lit "Classification failed due to safety settings. Reason: "
             ++ lit "SAFETY"
    /\ contains (lit "SAFETY") msg = true.
Proof.
  apply (@safety_block_fails_naming_reason
           Doubles.pil Doubles.json_module Doubles.pydantic
           (Doubles.model (Ok Doubles.blocked_response))
           (Text Doubles.note) Doubles.note_request
           Doubles.blocked_response []);
    reflexivity.
Defined.

(** A model that answers every request alike: both paths agree. *)
Lemma text_and_image_paths_agree_witness :
  @GeminiClassifier._classify_text
     Doubles.pil Doubles.json_module Doubles.pydantic
     (Doubles.answering (fenced Doubles.invoice_answer)) Doubles.note []
  = @GeminiClassifier._classify_image
      Doubles.pil Doubles.json_module Doubles.pydantic
      (Doubles.answering (fenced Doubles.invoice_answer)) Doubles.scan [].
Proof.
  apply (@text_and_image_paths_agree
           Doubles.pil Doubles.json_module Doubles.pydantic
           (Doubles.answering (fenced Doubles.invoice_answer))
           Doubles.note Doubles.scan []).
  reflexivity.
Defined.

(** ** The extractor *)

(** An archive is not a supported type. *)
Lemma unsupported_type_yields_no_content_witness :
  @DocumentProcessor.extract_text
     Doubles.pil (Doubles.pypdf2 (Ok [])) (Doubles.docx (Ok []))
     (Doubles.upload (lit "application/zip") Doubles.cafe)
  = (Ok None,
     {| uploaded_file :=
          {| type := lit "application/zip"; data := Doubles.cafe; pos := 0 |};
        st_errors :=
          [lit "Error processing document: Unsupported file type: application/zip"] |}).
Proof.
  destruct
    (@unsupported_type_yields_no_content
       Doubles.pil (Doubles.pypdf2 (Ok [])) (Doubles.docx (Ok []))
       (Doubles.upload (lit "application/zip") Doubles.cafe) eq_refl)
    as (_ & _ & Hrun).
  exact Hrun.
Defined.

(** Bytes that are Latin-1 and not UTF-8 are read as Latin-1. *)
Lemma latin1_fallback_succeeds_witness :
  utf8_decode (map byte_N Doubles.cafe) = None
  /\ @DocumentProcessor.extract_text
       Doubles.pil (Doubles.pypdf2 (Ok [])) (Doubles.docx (Ok []))
       (Doubles.upload (lit "text/plain") Doubles.cafe)
     = (Ok (Some (Text [99; 97; 102; 233]%N)),
        {| uploaded_file :=
             {| type := lit "text/plain"; data := Doubles.cafe; pos := 4 |};
           st_errors := [] |}).
Proof.
  split; [reflexivity|].
  destruct
    (@latin1_fallback_succeeds
       Doubles.pil (Doubles.pypdf2 (Ok [])) (Doubles.docx (Ok []))
       (Doubles.upload (lit "text/plain") Doubles.cafe) eq_refl eq_refl)
    as (_ & Hrun).
  exact (Hrun eq_refl).
Defined.

(** Two pages without outer white space come back joined by a newline. *)
Lemma pdf_text_is_stripped_join_witness :
  @DocumentProcessor._extract_from_pdf
     (Doubles.pypdf2 (Ok (map Ok Doubles.two_pages)))
     (Doubles.upload (lit "application/pdf") Doubles.cafe)
  = (Ok (lit "Page one" ++ nl ++ lit "Page two"),
     after_read (Doubles.upload (lit "application/pdf") Doubles.cafe)).
Proof.
  destruct
    (@pdf_text_is_stripped_join
       (Doubles.pypdf2 (Ok (map Ok Doubles.two_pages)))
       (Doubles.upload (lit "application/pdf") Doubles.cafe)
       (map Ok Doubles.two_pages) Doubles.two_pages eq_refl)
    as (Hrun & _ & _ & Hsame).
  - repeat constructor.
  - repeat constructor; discriminate.
  - destruct (Hsame eq_refl eq_refl) as [Hjoin _].
    rewrite Hrun, Hjoin; reflexivity.
Defined.

(** C6, as stated, fails: both pages yield non-empty text, and the result
    holds neither the first page's text nor the joined page texts. *)
Lemma pdf_text_loses_outer_white_space :
  Forall (fun t : str => t <> []) Doubles.padded_pages
  /\ @DocumentProcessor._extract_from_pdf
       (Doubles.pypdf2 (Ok (map Ok Doubles.padded_pages)))
       (Doubles.upload (lit "application/pdf") Doubles.cafe)
     = (Ok (lit "A" ++ nl ++ lit "B"),
        after_read (Doubles.upload (lit "application/pdf") Doubles.cafe))
  /\ contains (lit " A") (lit "A" ++ nl ++ lit "B") = false
  /\ contains (join nl Doubles.padded_pages) (lit "A" ++ nl ++ lit "B") = false.
Proof.
  split; [repeat constructor; discriminate|].
  split; [reflexivity|split; reflexivity].
Qed.

End ConcreteRuns.

(* ===================================================================== *)
(** * The extractor: failures, the file position, the other formats *)
(* ===================================================================== *)

(** ** Strings of white space *)

Lemma lstrip_blank (s : str) : forallb isspace s = true -> lstrip s = [].
Proof.
  unfold lstrip; induction s as [|c s IH]; simpl; [reflexivity|].
  intros Hs; apply andb_true_iff in Hs as [Hc Hs]; rewrite Hc; now apply IH.
Qed.

(** A string of white space strips to the empty string. *)
Lemma strip_blank (s : str) : forallb isspace s = true -> strip s = [].
Proof. intros Hs; unfold strip; rewrite (lstrip_blank s Hs); reflexivity. Qed.

Lemma blank_join (texts : list str) :
  Forall (fun t => forallb isspace t = true) texts ->
  forallb isspace (join nl texts) = true.
Proof.
  induction 1 as [|t texts Ht _ IH]; [reflexivity|].
  destruct texts as [|u texts]; [exact Ht|].
  change (join nl (t :: u :: texts)) with (t ++ nl ++ join nl (u :: texts)).
  rewrite !forallb_app, Ht, IH; reflexivity.
Qed.

(** [strip] applied twice is [strip]. *)
Lemma strip_idempotent (s : str) : strip (strip s) = strip s.
Proof. apply strip_fixed; apply strip_no_outer_space. Qed.

Section ExtractorCoverage.
Context `{PIL} `{PyPDF2} `{Docx}.

(** ** The page loop *)

Lemma pdf_pages_loop_state (pages : list Page) :
  forall acc s, snd (DocumentProcessor.pdf_pages_loop pages acc s) = s.
Proof.
  induction pages as [|p pages IH]; intros acc s; simpl; [reflexivity|].
  unfold bind, lift; destruct (page_extract_text p); [apply IH|reflexivity].
Qed.

(** The loop stops at the first page whose extraction raises. *)
Lemma pdf_pages_loop_stops (good : list Page) (texts : list str) (bad : Page)
    (rest : list Page) (e : exn) :
  Forall2 (fun p t => page_extract_text p = Ok t) good texts ->
  page_extract_text bad = Raise e ->
  forall acc s,
    DocumentProcessor.pdf_pages_loop (good ++ bad :: rest) acc s = (Raise e, s).
Proof.
  intros Hgood Hbad; induction Hgood as [|p t good texts Hp _ IH];
    intros acc s; simpl; unfold bind, lift.
  - now rewrite Hbad.
  - rewrite Hp; apply IH.
Qed.

(** One run of [_extract_from_pdf]: the file is read to its end, and every
    exception is wrapped. *)
Lemma extract_from_pdf_run (s : ui_state) :
  DocumentProcessor._extract_from_pdf s
  = (match PdfReader_pages (bytes_read s) with
     | Raise e =>
       Raise (Exception (lit "Failed to extract text from PDF: " ++ exn_str e))
     | Ok pages =>
       match fst (DocumentProcessor.pdf_pages_loop pages [] (after_read s)) with
       | Ok t => Ok (strip t)
       | Raise e =>
         Raise (Exception (lit "Failed to extract text from PDF: "
                           ++ exn_str e))
       end
     end, after_read s).
Proof.
  unfold DocumentProcessor._extract_from_pdf, try_except, bind, read, lift,
    bytes_read, raise, ret.
  fold (after_read s).
  destruct (PdfReader_pages _) as [pages|e]; [|reflexivity].
  pose proof (pdf_pages_loop_state pages [] (after_read s)) as Hst.
  destruct (DocumentProcessor.pdf_pages_loop pages [] (after_read s))
    as [[t|e] s1]; simpl in Hst; subst s1; reflexivity.
Qed.

(** X1 (PDF). The PDF parser raises when the file is opened: the exception
    is wrapped as "Failed to extract text from PDF: ...", and for a PDF
    upload [extract_text] shows it and returns [None]. *)
Theorem pdf_reader_failure_is_reported (s : ui_state) (e : exn) :
  PdfReader_pages (bytes_read s) = Raise e ->
  DocumentProcessor._extract_from_pdf s
  = (Raise (Exception (lit "Failed to extract text from PDF: " ++ exn_str e)),
     after_read s)
  /\ (type (uploaded_file s) = pdf_type ->
      DocumentProcessor.extract_text s
      = (Ok None,
         with_error (after_read s)
           (lit "Error processing document: "
            ++ lit "Failed to extract text from PDF: " ++ exn_str e))).
Proof.
  intros Hopen.
  assert (Hrun : DocumentProcessor._extract_from_pdf s
                 = (Raise (Exception (lit "Failed to extract text from PDF: "
                                      ++ exn_str e)), after_read s)).
  { rewrite extract_from_pdf_run, Hopen; reflexivity. }
  split; [exact Hrun|].
  intros Hty.
  unfold DocumentProcessor.extract_text, DocumentProcessor.extract_text_try,
    try_except, bind, gets.
  rewrite Hty; unfold pdf_type; rewrite str_eqb_refl, Hrun; reflexivity.
Qed.

(** X2 (PDF). A page whose text extraction raises, after pages that gave
    their text: the text of the earlier pages is dropped and the page's
    exception is wrapped as "Failed to extract text from PDF: ...". *)
Theorem pdf_page_failure_discards_text (s : ui_state) (good : list Page)
    (texts : list str) (bad : Page) (rest : list Page) (e : exn) :
  PdfReader_pages (bytes_read s) = Ok (good ++ bad :: rest) ->
  Forall2 (fun p t => page_extract_text p = Ok t) good texts ->
  page_extract_text bad = Raise e ->
  DocumentProcessor._extract_from_pdf s
  = (Raise (Exception (lit "Failed to extract text from PDF: " ++ exn_str e)),
     after_read s)
  /\ (type (uploaded_file s) = pdf_type ->
      fst (DocumentProcessor.extract_text s) = Ok None).
Proof.
  intros Hopen Hgood Hbad.
  assert (Hrun : DocumentProcessor._extract_from_pdf s
                 = (Raise (Exception (lit "Failed to extract text from PDF: "
                                      ++ exn_str e)), after_read s)).
  { rewrite extract_from_pdf_run, Hopen.
    rewrite (pdf_pages_loop_stops good texts bad rest e Hgood Hbad).
    reflexivity. }
  split; [exact Hrun|].
  intros Hty.
  unfold DocumentProcessor.extract_text, DocumentProcessor.extract_text_try,
    try_except, bind, gets.
  rewrite Hty; unfold pdf_type; rewrite str_eqb_refl, Hrun; reflexivity.
Qed.

(** ** Word documents *)

Lemma docx_paragraphs_loop_lines (paragraphs : list str) :
  forall acc,
    DocumentProcessor.docx_paragraphs_loop paragraphs acc
    = acc ++ concat (map (fun t => t ++ nl) paragraphs).
Proof.
  induction paragraphs as [|p ps IH]; intros acc; simpl.
  - now rewrite app_nil_r.
  - rewrite IH, <- !app_assoc; reflexivity.
Qed.

Lemma extract_from_docx_run (s : ui_state) :
  DocumentProcessor._extract_from_docx s
  = (match Document_paragraphs (bytes_read s) with
     | Raise e =>
       Raise (Exception (lit "Failed to extract text from Word document: "
                         ++ exn_str e))
     | Ok paragraphs => Ok (strip (join nl paragraphs))
     end, after_read s).
Proof.
  unfold DocumentProcessor._extract_from_docx, try_except, bind, read, lift,
    bytes_read, raise, ret.
  fold (after_read s).
  destruct (Document_paragraphs _) as [ps|e]; [|reflexivity].
  rewrite docx_paragraphs_loop_lines, app_nil_l, strip_lines; reflexivity.
Qed.

(** X3 (Word). A word-processor document: the text is the paragraphs'
    texts joined by newlines and stripped, so empty paragraphs at either
    end leave no trace and a document without text gives the empty string;
    for a word-processor upload [extract_text] returns it and shows no
    error. *)
Theorem docx_text_is_stripped_join (s : ui_state) (paragraphs : list str) :
  Document_paragraphs (bytes_read s) = Ok paragraphs ->
  DocumentProcessor._extract_from_docx s
  = (Ok (strip (join nl paragraphs)), after_read s)
  /\ leading_space (strip (join nl paragraphs)) = false
  /\ trailing_space (strip (join nl paragraphs)) = false
  /\ (Forall (fun p => forallb isspace p = true) paragraphs ->
      strip (join nl paragraphs) = [])
  /\ (type (uploaded_file s) = docx_type ->
      DocumentProcessor.extract_text s
      = (Ok (Some (Text (strip (join nl paragraphs)))), after_read s)).
Proof.
  intros Hopen.
  assert (Hrun : DocumentProcessor._extract_from_docx s
                 = (Ok (strip (join nl paragraphs)), after_read s)).
  { rewrite extract_from_docx_run, Hopen; reflexivity. }
  split; [exact Hrun|].
  split; [apply strip_no_outer_space|].
  split; [apply strip_no_outer_space|].
  split.
  - intros Hblank; apply strip_blank, blank_join; exact Hblank.
  - intros Hty.
    unfold DocumentProcessor.extract_text, DocumentProcessor.extract_text_try,
      try_except, bind, gets.
    rewrite Hty; unfold docx_type; rewrite str_eqb_refl.
    change (str_eqb _ (lit "application/pdf")) with false.
    change (startswith (lit "image/") _) with false.
    change (str_eqb _ (lit "text/plain")) with false.
    cbv beta iota; rewrite Hrun; reflexivity.
Qed.

(** X4 (Word). The document parser raises: the exception is wrapped as
    "Failed to extract text from Word document: ...", and for a
    word-processor upload [extract_text] shows it and returns [None]. *)
Theorem docx_failure_is_reported (s : ui_state) (e : exn) :
  Document_paragraphs (bytes_read s) = Raise e ->
  DocumentProcessor._extract_from_docx s
  = (Raise (Exception (lit "Failed to extract text from Word document: "
                       ++ exn_str e)), after_read s)
  /\ (type (uploaded_file s) = docx_type ->
      DocumentProcessor.extract_text s
      = (Ok None,
         with_error (after_read s)
           (lit "Error processing document: "
            ++ lit "Failed to extract text from Word document: "
            ++ exn_str e))).
Proof.
  intros Hopen.
  assert (Hrun : DocumentProcessor._extract_from_docx s
                 = (Raise (Exception
                             (lit "Failed to extract text from Word document: "
                              ++ exn_str e)), after_read s)).
  { rewrite extract_from_docx_run, Hopen; reflexivity. }
  split; [exact Hrun|].
  intros Hty.
  unfold DocumentProcessor.extract_text, DocumentProcessor.extract_text_try,
    try_except, bind, gets.
  rewrite Hty; unfold docx_type; rewrite str_eqb_refl.
  change (str_eqb _ (lit "application/pdf")) with false.
  change (startswith (lit "image/") _) with false.
  change (str_eqb _ (lit "text/plain")) with false.
  cbv beta iota; rewrite Hrun; reflexivity.
Qed.

(** ** Plain text and the file position *)

(** X5 (text). Bytes that are UTF-8 from the current position: the text is
    their decoding, stripped, and the retry is not run. *)
Theorem utf8_text_is_returned_stripped (s : ui_state) (t : str) :
  utf8_decode (map byte_N (bytes_read s)) = Some t ->
  DocumentProcessor._extract_from_text s = (Ok (strip t), after_read s)
  /\ (type (uploaded_file s) = text_type ->
      DocumentProcessor.extract_text s
      = (Ok (Some (Text (strip t))), after_read s)).
Proof.
  intros Hutf.
  assert (Hrun : DocumentProcessor._extract_from_text s
                 = (Ok (strip t), after_read s)).
  { rewrite extract_from_text_cases; unfold bytes_read in Hutf.
    now rewrite Hutf. }
  split; [exact Hrun|].
  intros Hty.
  unfold DocumentProcessor.extract_text, DocumentProcessor.extract_text_try,
    try_except, bind, gets.
  rewrite Hty; unfold text_type; rewrite str_eqb_refl.
  change (str_eqb _ (lit "application/pdf")) with false.
  change (startswith (lit "image/") _) with false.
  cbv beta iota; rewrite Hrun; reflexivity.
Qed.

(** X6 (text). A file that was partly read, whose remaining bytes are not
    UTF-8: the retry rewinds, so the text is the Latin-1 decoding of the
    whole file, the bytes before the position included. *)
Theorem latin1_retry_rereads_whole_file (s : ui_state) :
  utf8_decode (map byte_N (bytes_read s)) = None ->
  DocumentProcessor._extract_from_text s
  = (Ok (strip (latin1 (data (uploaded_file s)))), after_reread s).
Proof.
  intros Hutf.
  rewrite extract_from_text_cases; unfold bytes_read in Hutf.
  now rewrite Hutf.
Qed.

Lemma bytes_read_after_read (s : ui_state) : bytes_read (after_read s) = [].
Proof. unfold bytes_read, after_read; simpl; apply skipn_all2; lia. Qed.

Lemma bytes_read_after_reread (s : ui_state) : bytes_read (after_reread s) = [].
Proof. unfold bytes_read, after_reread; simpl; apply skipn_all2; lia. Qed.

Lemma bytes_read_with_error (s : ui_state) (m : str) :
  bytes_read (with_error s m) = bytes_read s.
Proof. reflexivity. Qed.

(** The state after the dispatch of [extract_text], for the three text
    formats: the file was read to its end. *)
Lemma text_formats_read_the_file (s : ui_state) :
  type (uploaded_file s) = pdf_type \/ type (uploaded_file s) = text_type
  \/ type (uploaded_file s) = docx_type ->
  bytes_read (snd (DocumentProcessor.extract_text_try s)) = [].
Proof.
  unfold DocumentProcessor.extract_text_try, bind, gets.
  intros [Hty|[Hty|Hty]]; rewrite Hty.
  - unfold pdf_type; rewrite str_eqb_refl; cbv beta iota.
    rewrite extract_from_pdf_run.
    destruct (match PdfReader_pages _ with Ok _ => _ | Raise _ => _ end);
      apply bytes_read_after_read.
  - change (str_eqb text_type (lit "application/pdf")) with false.
    change (startswith (lit "image/") text_type) with false.
    unfold text_type; rewrite str_eqb_refl; cbv beta iota.
    rewrite extract_from_text_cases.
    destruct (utf8_decode _);
      [apply bytes_read_after_read|apply bytes_read_after_reread].
  - change (str_eqb docx_type (lit "application/pdf")) with false.
    change (startswith (lit "image/") docx_type) with false.
    change (str_eqb docx_type (lit "text/plain")) with false.
    unfold docx_type; rewrite str_eqb_refl; cbv beta iota.
    rewrite extract_from_docx_run.
    destruct (Document_paragraphs _); apply bytes_read_after_read.
Qed.

(** The handler of [extract_text] leaves the file where the dispatch left
    it. *)
Lemma extract_text_file (s : ui_state) :
  uploaded_file (snd (DocumentProcessor.extract_text s))
  = uploaded_file (snd (DocumentProcessor.extract_text_try s)).
Proof.
  unfold DocumentProcessor.extract_text, try_except.
  destruct (DocumentProcessor.extract_text_try s) as [[r|e] s1]; reflexivity.
Qed.

(** X7 (position). [extract_text] on a PDF, plain-text or word-processor
    upload leaves the file at its end: read again without [seek(0)], the
    file has no bytes left, and a second plain-text extraction returns the
    empty string. *)
Theorem extraction_consumes_the_file (s : ui_state) :
  type (uploaded_file s) = pdf_type \/ type (uploaded_file s) = text_type
  \/ type (uploaded_file s) = docx_type ->
  bytes_read (snd (DocumentProcessor.extract_text s)) = []
  /\ (type (uploaded_file s) = text_type ->
      fst (DocumentProcessor.extract_text
             (snd (DocumentProcessor.extract_text s)))
      = Ok (Some (Text []))).
Proof.
  intros Hty.
  assert (Hread : bytes_read (snd (DocumentProcessor.extract_text s)) = []).
  { unfold bytes_read; rewrite extract_text_file.
    exact (text_formats_read_the_file s Hty). }
  split; [exact Hread|].
  intros Htxt.
  set (s1 := snd (DocumentProcessor.extract_text s)) in *.
  assert (Hty1 : type (uploaded_file s1) = text_type).
  { unfold s1; rewrite extract_text_file.
    unfold DocumentProcessor.extract_text_try, bind, gets; rewrite Htxt.
    change (str_eqb text_type (lit "application/pdf")) with false.
    change (startswith (lit "image/") text_type) with false.
    unfold text_type; rewrite str_eqb_refl; cbv beta iota.
    rewrite extract_from_text_cases; destruct (utf8_decode _); exact Htxt. }
  unfold DocumentProcessor.extract_text, DocumentProcessor.extract_text_try,
    try_except, bind, gets.
  rewrite Hty1.
  change (str_eqb text_type (lit "application/pdf")) with false.
  change (startswith (lit "image/") text_type) with false.
  unfold text_type; rewrite str_eqb_refl; cbv beta iota.
  rewrite extract_from_text_cases; fold (bytes_read s1); rewrite Hread.
  reflexivity.
Qed.

(** ** The boundary of [extract_text] *)

Lemma same_upload_after_read (s : ui_state) : same_upload s (after_read s).
Proof. split; reflexivity. Qed.

Lemma same_upload_after_reread (s : ui_state) : same_upload s (after_reread s).
Proof. split; reflexivity. Qed.

Lemma same_upload_refl (s : ui_state) : same_upload s s.
Proof. split; reflexivity. Qed.

(** [Image.open] on the file: the image of the whole file, and the file
    left where the library stopped reading. *)
Lemma Image_open_file_run (s : ui_state) :
  DocumentProcessor.Image_open_file s
  = (Image_open (data (uploaded_file s)),
     at_position (Image_tell (data (uploaded_file s))) s).
Proof. reflexivity. Qed.

Lemma same_upload_at_position (n : nat) (s : ui_state) :
  same_upload s (at_position n s).
Proof. split; reflexivity. Qed.

Lemma dispatch_invariant (s : ui_state) :
  dispatched s (fst (DocumentProcessor.extract_text_try s))
    (snd (DocumentProcessor.extract_text_try s)).
Proof.
  unfold DocumentProcessor.extract_text_try, bind, gets, dispatched.
  destruct (str_eqb _ (lit "application/pdf")).
  { rewrite extract_from_pdf_run.
    destruct (match PdfReader_pages _ with Ok _ => _ | Raise _ => _ end)
      as [t|e] eqn:E; simpl;
      (split; [apply same_upload_after_read|split; [reflexivity|]]); [|exact I].
    destruct (PdfReader_pages _); [|discriminate].
    destruct (fst _); [|discriminate].
    injection E as <-; apply strip_idempotent. }
  destruct (startswith (lit "image/") _).
  { rewrite Image_open_file_run; destruct (Image_open _); simpl;
      (split; [apply same_upload_at_position|split; [reflexivity|exact I]]). }
  destruct (str_eqb _ (lit "text/plain")).
  { rewrite extract_from_text_cases; destruct (utf8_decode _); simpl.
    - split; [apply same_upload_after_read|split; [reflexivity|]].
      apply strip_idempotent.
    - split; [apply same_upload_after_reread|split; [reflexivity|]].
      apply strip_idempotent. }
  destruct (str_eqb _ _).
  { rewrite extract_from_docx_run; destruct (Document_paragraphs _); simpl;
      (split; [apply same_upload_after_read|split; [reflexivity|]]);
      [apply strip_idempotent|exact I]. }
  simpl; split; [apply same_upload_refl|split; [reflexivity|exact I]].
Qed.

(** A content returned by [extract_text] is a stripped text or an image,
    and nothing was shown. *)
Lemma returned_content_invariant (s s' : ui_state) (c : content) :
  DocumentProcessor.extract_text s = (Ok (Some c), s') ->
  same_upload s s' /\ st_errors s' = st_errors s
  /\ match c with
     | Text t => strip t = t
     | Picture _ => True
     | OtherObject => False
     end.
Proof.
  intros Hrun; pose proof (dispatch_invariant s) as Hd.
  unfold DocumentProcessor.extract_text, try_except in Hrun.
  destruct (DocumentProcessor.extract_text_try s) as [[[c1|]|e] s1];
    destruct Hd as (Hup & Herr & Hres); simpl in *; try discriminate.
  injection Hrun as -> ->; auto.
Qed.

(** A failed extraction shows one message. *)
Lemma no_content_invariant (s s' : ui_state) :
  DocumentProcessor.extract_text s = (Ok None, s') ->
  exists m,
    st_errors s' = st_errors s ++ [lit "Error processing document: " ++ m].
Proof.
  intros Hrun; pose proof (dispatch_invariant s) as Hd.
  unfold DocumentProcessor.extract_text, try_except in Hrun.
  destruct (DocumentProcessor.extract_text_try s) as [[[c1|]|e] s1];
    destruct Hd as (Hup & Herr & Hres); simpl in *; try discriminate.
  - destruct Hres.
  - injection Hrun as <-; exists (exn_str e); simpl; now rewrite Herr.
Qed.

Lemma extract_text_is_total (s : ui_state) :
  exists r s', DocumentProcessor.extract_text s = (Ok r, s').
Proof.
  unfold DocumentProcessor.extract_text, try_except.
  destruct (DocumentProcessor.extract_text_try s) as [[r|e] s1];
    eexists; eexists; reflexivity.
Qed.

(** X8 (boundary). [extract_text] never raises, whatever the libraries do.
    It returns a content and shows nothing, or returns [None] and shows
    exactly one message, which starts with "Error processing document: ";
    the upload's media type and bytes are as before. *)
Theorem extract_text_reports_every_failure (s : ui_state) :
  exists r s',
    DocumentProcessor.extract_text s = (Ok r, s')
    /\ same_upload s s'
    /\ match r with
       | Some _ => st_errors s' = st_errors s
       | None =>
         exists m,
           st_errors s'
           = st_errors s ++ [lit "Error processing document: " ++ m]
       end.
Proof.
  pose proof (dispatch_invariant s) as Hd.
  unfold DocumentProcessor.extract_text, try_except.
  destruct (DocumentProcessor.extract_text_try s) as [[[c|]|e] s1];
    destruct Hd as (Hup & Herr & Hres); simpl in *.
  - exists (Some c), s1; auto.
  - destruct Hres.
  - exists None, (with_error s1 (lit "Error processing document: " ++ exn_str e)).
    split; [reflexivity|split; [exact Hup|]].
    exists (exn_str e); simpl; now rewrite Herr.
Qed.

(** X9 (boundary). A text returned by [extract_text] is stripped already:
    stripping it again, as the caller does before it counts the
    characters, changes nothing. *)
Theorem extracted_text_is_stripped (s s' : ui_state) (t : str) :
  DocumentProcessor.extract_text s = (Ok (Some (Text t)), s') ->
  strip t = t /\ leading_space t = false /\ trailing_space t = false
  /\ length (strip t) = length t.
Proof.
  intros Hrun.
  assert (Hstrip : strip t = t).
  { apply returned_content_invariant in Hrun as (_ & _ & Hres); exact Hres. }
  split; [exact Hstrip|split; [|split]].
  - rewrite <- Hstrip; apply strip_no_outer_space.
  - rewrite <- Hstrip; apply strip_no_outer_space.
  - now rewrite Hstrip.
Qed.

Lemma image_type_is_not_pdf (t : str) :
  startswith (lit "image/") t = true ->
  str_eqb t (lit "application/pdf") = false.
Proof.
  destruct t as [|c t]; [discriminate|].
  change (lit "image/") with (105%N :: lit "mage/"); cbn [startswith].
  intros Hc; apply andb_true_iff in Hc as [Hc _]; apply N.eqb_eq in Hc.
  subst c; reflexivity.
Qed.

(** X10 (images). An upload whose media type starts with "image/": the
    file object itself goes to [Image.open], so the content is the image
    PIL opens from the whole file, wherever the position was, and nothing
    is shown; a file PIL cannot open gives [None] and one message with
    PIL's text. *)
Theorem image_upload_is_opened (s : ui_state) :
  startswith (lit "image/") (type (uploaded_file s)) = true ->
  match Image_open (data (uploaded_file s)) with
  | Ok img =>
    fst (DocumentProcessor.extract_text s) = Ok (Some (Picture img))
    /\ st_errors (snd (DocumentProcessor.extract_text s)) = st_errors s
  | Raise e =>
    fst (DocumentProcessor.extract_text s) = Ok None
    /\ st_errors (snd (DocumentProcessor.extract_text s))
       = st_errors s ++ [lit "Error processing document: " ++ exn_str e]
  end.
Proof.
  intros Himg.
  unfold DocumentProcessor.extract_text, DocumentProcessor.extract_text_try,
    try_except, bind, gets.
  rewrite (image_type_is_not_pdf _ Himg), Himg; cbv beta iota.
  rewrite Image_open_file_run.
  destruct (Image_open (data (uploaded_file s))); split; reflexivity.
Qed.

End ExtractorCoverage.

(* ===================================================================== *)
(** * The classification client: the other failures and the result *)
(* ===================================================================== *)

Section FloatRange.

Lemma SFltb_leb (a b : float) : SFltb a b = true -> SFleb a b = true.
Proof.
  unfold SFltb, SFleb; destruct (SFcompare a b) as [[]|]; congruence.
Qed.

Variables (M : positive) (E : Z).
Let top : float := S754_finite false M E.

Lemma top_leb_top : SFleb top top = true.
Proof.
  unfold SFleb, top; simpl.
  now rewrite Z.compare_refl, Pos.compare_cont_refl.
Qed.

(** [max(0.0, min(top, c))] lies between 0.0 and [top], for every float
    [c], a not-a-number included. *)
Lemma clamp_range_top (c : float) :
  SFleb float_0_0 (max2 float_0_0 (min2 top c)) = true
  /\ SFleb (max2 float_0_0 (min2 top c)) top = true.
Proof.
  unfold min2; destruct (SFltb c top) eqn:Hhi.
  - unfold max2; destruct (SFltb float_0_0 c) eqn:Hlo.
    + split; now apply SFltb_leb.
    + split; reflexivity.
  - split; [reflexivity|apply top_leb_top].
Qed.

End FloatRange.

Lemma clamp_range (c : float) :
  SFleb float_0_0 (max2 float_0_0 (min2 float_1_0 c)) = true
  /\ SFleb (max2 float_0_0 (min2 float_1_0 c)) float_1_0 = true.
Proof. exact (clamp_range_top _ _ c). Qed.

(** Unfolds one run of a classification path in a hypothesis, and
    reduces it without computing the literals. *)
Ltac run_in Hrun :=
  unfold GeminiClassifier._classify_text, GeminiClassifier._classify_image,
    call, try_except, bind, lift, assign_response, logging_error,
    getattr_response_text, modify, raise, ret in Hrun;
  cbv zeta in Hrun.

Ltac step_in Hrun := cbv beta iota delta [response log fst snd] in Hrun.

Ltac step_run := cbv beta iota delta [response log fst snd].

Section ClassifierCoverage.
Context `{PIL} `{JsonModule} `{!Pydantic} `{!GenerativeModel}.

(** A dict is returned only for an unblocked response that parses. *)
Lemma returned_dict_inversion (c : content) (l l' : list str) (d : dict) :
  GeminiClassifier.classify_document c l = (Ok d, l') ->
  exists req r t cr,
    request_for c = Some req
    /\ generate_content req = Ok r
    /\ truthy (block_reason (prompt_feedback r)) = false
    /\ text r = AttrValue t
    /\ parse_response t = Ok cr
    /\ d = result_dict cr /\ l' = l.
Proof.
  intros Hrun.
  destruct c as [s|img|]; unfold GeminiClassifier.classify_document in Hrun;
    [| |discriminate Hrun]; run_in Hrun; unfold request_for.
  all: match type of Hrun with
       | context [generate_content ?q] =>
         exists q; destruct (generate_content q) as [r|e] eqn:Hgen
       end.
  all: step_in Hrun.
  all: try (destruct e; step_in Hrun; discriminate Hrun).
  all: exists r; destruct (truthy (block_reason (prompt_feedback r))) eqn:Hb;
    step_in Hrun; [discriminate Hrun|].
  all: unfold hasattr_text, get_text in Hrun;
    destruct (text r) as [t| |e] eqn:Ht; step_in Hrun.
  all: try discriminate Hrun.
  all: try (destruct e; step_in Hrun; rewrite ?Ht in Hrun; step_in Hrun;
            discriminate Hrun).
  all: exists t; unfold parse_response, normalize_response; cbv zeta;
    destruct (json_loads _) as [j|e] eqn:Hj; step_in Hrun.
  all: try (destruct e; step_in Hrun; rewrite ?Ht in Hrun; step_in Hrun;
            discriminate Hrun).
  all: unfold construct in *;
    destruct (ClassificationResult_new j) as [cr|msg] eqn:Hcr; step_in Hrun;
    [|discriminate Hrun].
  all: exists cr; unfold result_dict;
    destruct (list_in (category cr) GeminiClassifier.categories);
    cbn [negb] in Hrun; injection Hrun as <- <-; repeat split; reflexivity.
Qed.

Lemma Others_is_a_category : In (lit "Others") GeminiClassifier.categories.
Proof. apply list_in_In; reflexivity. Qed.

(** X11 (result). Whatever the model, the JSON decoder and the validation
    do, a dict that [classify_document] returns has the three keys, a
    category among the eight of [self.categories], and a confidence
    between 0.0 and 1.0; nothing was logged. *)
Theorem returned_dict_is_valid (c : content) (l l' : list str) (d : dict) :
  GeminiClassifier.classify_document c l = (Ok d, l') ->
  l' = l
  /\ exists cat conf expl,
      d = [ (lit "category", VStr cat); (lit "confidence", VFloat conf);
            (lit "explanation", VStr expl) ]
      /\ In cat GeminiClassifier.categories
      /\ SFleb float_0_0 conf = true /\ SFleb conf float_1_0 = true.
Proof.
  intros Hrun.
  apply returned_dict_inversion in Hrun
    as (req & r & t & cr & _ & _ & _ & _ & _ & -> & ->).
  split; [reflexivity|].
  unfold result_dict; do 3 eexists; split; [reflexivity|split].
  - destruct (list_in _ _) eqn:Hin;
      [now apply list_in_In|apply Others_is_a_category].
  - apply clamp_range.
Qed.

(** X12 (result). A dict is returned only when the model's response is not
    blocked, has a text, and the text, normalized, parses and validates;
    the explanation of the dict is the parsed one. *)
Theorem dict_needs_a_parsed_response (c : content) (l l' : list str)
    (d : dict) :
  GeminiClassifier.classify_document c l = (Ok d, l') ->
  exists req r t cr,
    request_for c = Some req
    /\ generate_content req = Ok r
    /\ truthy (block_reason (prompt_feedback r)) = false
    /\ text r = AttrValue t
    /\ parse_response t = Ok cr
    /\ getitem d (lit "explanation") = Some (VStr (explanation cr)).
Proof.
  intros Hrun.
  apply returned_dict_inversion in Hrun
    as (req & r & t & cr & Hreq & Hgen & Hb & Ht & Hp & -> & _).
  exists req, r, t, cr; repeat (split; [assumption|]).
  reflexivity.
Qed.

(** ** The failures the claims leave out *)

(** X13 (failures). The remote call raises [PermissionDenied]: the caller
    gets a [ValueError] with the fixed hint to check the API key, which
    does not repeat the service's message; that message is logged. *)
Theorem permission_denied_gives_key_hint (c : content) (req : Request)
    (m : str) (l : list str) :
  request_for c = Some req ->
  generate_content req = Raise (PermissionDenied m) ->
  GeminiClassifier.classify_document c l
  = (Raise (ValueError
              (lit "Classification failed: Permission denied. Please check if your GEMINI_API_KEY is correct and has the necessary permissions.")),
     l ++ [lit "Permission Denied error: " ++ m]).
Proof.
  intros Hreq Hgen.
  destruct c as [s|img|]; pick_request Hreq;
    simpl GeminiClassifier.classify_document; run_path; rewrite Hgen;
    reflexivity.
Qed.

(** X14 (failures). Another exception of the remote call (neither
    [PermissionDenied] nor a JSON error): the caller gets a [ValueError]
    that wraps the exception's message. *)
Theorem remote_error_is_wrapped (c : content) (req : Request) (e : exn)
    (l : list str) :
  request_for c = Some req ->
  generate_content req = Raise e ->
  (forall m, e <> JSONDecodeError m) ->
  (forall m, e <> PermissionDenied m) ->
  GeminiClassifier.classify_document c l
  = (Raise (ValueError
              (lit "An unexpected error occurred during classification: "
               ++ exn_str e)),
     l ++ [lit "An unexpected classification error occurred: " ++ exn_str e]).
Proof.
  intros Hreq Hgen Hjson Hperm.
  destruct c as [s|img|]; pick_request Hreq;
    simpl GeminiClassifier.classify_document; run_path; rewrite Hgen;
    destruct e; try reflexivity;
    solve [exfalso; eapply Hjson; reflexivity
          |exfalso; eapply Hperm; reflexivity].
Qed.

(** X15 (failures). The remote call itself raises [JSONDecodeError]: the
    handler reads [response], which was never assigned, so the caller
    gets an [UnboundLocalError], not a [ValueError], and nothing is
    logged. *)
Theorem client_json_error_escapes (c : content) (req : Request) (m : str)
    (l : list str) :
  request_for c = Some req ->
  generate_content req = Raise (JSONDecodeError m) ->
  exists msg,
    GeminiClassifier.classify_document c l
    = (Raise (UnboundLocalError msg), l).
Proof.
  intros Hreq Hgen.
  destruct c as [s|img|]; pick_request Hreq;
    simpl GeminiClassifier.classify_document; run_path; rewrite Hgen;
    eexists; reflexivity.
Qed.

(** X16 (failures). A response that is not blocked and has no [text]
    attribute: the "empty response" [ValueError] is raised and, like every
    exception raised in the [try], wrapped by the last handler. *)
Theorem empty_response_fails (c : content) (req : Request) (r : Response)
    (l : list str) :
  request_for c = Some req ->
  generate_content req = Ok r ->
  truthy (block_reason (prompt_feedback r)) = false ->
  text r = AttrMissing ->
  GeminiClassifier.classify_document c l
  = (Raise (ValueError
              (lit "An unexpected error occurred during classification: "
               ++ lit "Classification failed: The AI returned an empty response.")),
     l ++ [lit "An unexpected classification error occurred: "
           ++ lit "Classification failed: The AI returned an empty response."]).
Proof.
  intros Hreq Hgen Hblock Htext.
  destruct c as [s|img|]; pick_request Hreq;
    simpl GeminiClassifier.classify_document; run_path;
    rewrite Hgen, Hblock; unfold hasattr_text; rewrite Htext; reflexivity.
Qed.

(** X17 (failures). A response whose text is JSON that the validation
    rejects (a field is missing or has the wrong type): the caller gets a
    [ValueError] that wraps the validation message; the raw response text
    is not part of it. *)
Theorem invalid_fields_fail (c : content) (req : Request) (r : Response)
    (t msg : str) (j : Json) (l : list str) :
  request_for c = Some req ->
  generate_content req = Ok r ->
  truthy (block_reason (prompt_feedback r)) = false ->
  text r = AttrValue t ->
  json_loads (normalize_response t) = Ok j ->
  ClassificationResult_new j = Invalid msg ->
  GeminiClassifier.classify_document c l
  = (Raise (ValueError
              (lit "An unexpected error occurred during classification: "
               ++ msg)),
     l ++ [lit "An unexpected classification error occurred: " ++ msg]).
Proof.
  intros Hreq Hgen Hblock Htext Hloads Hnew.
  unfold normalize_response in Hloads; cbv zeta in Hloads.
  destruct c as [s|img|]; pick_request Hreq;
    simpl GeminiClassifier.classify_document; run_path;
    rewrite Hgen, Hblock; unfold hasattr_text, get_text;
    rewrite Htext, Hloads, Hnew; reflexivity.
Qed.

(** X18 (failures). Unless the client library raises a [JSONDecodeError]
    of its own, a str or image content is classified, with nothing
    logged, or fails with a [ValueError] and exactly one logged
    message. *)
Theorem every_failure_is_one_ValueError (c : content) (req : Request)
    (l : list str) :
  request_for c = Some req ->
  no_json_error (generate_content req) ->
  (exists d, GeminiClassifier.classify_document c l = (Ok d, l))
  \/ (exists msg entry,
        GeminiClassifier.classify_document c l
        = (Raise (ValueError msg), l ++ [entry])).
Proof.
  intros Hreq Hno.
  destruct c as [s|img|]; pick_request Hreq;
    simpl GeminiClassifier.classify_document; run_path.
  all: unfold no_json_error in Hno;
    destruct (generate_content _) as [r|e]; step_run.
  all: try (destruct e; try destruct Hno; right; eexists; eexists;
            reflexivity).
  all: destruct (truthy (block_reason (prompt_feedback r)));
    [right; eexists; eexists; reflexivity|].
  all: unfold hasattr_text, get_text;
    destruct (text r) as [t| |e] eqn:Ht; step_run.
  all: try (right; eexists; eexists; reflexivity).
  all: try (destruct e; try destruct Hno; right; eexists; eexists;
            reflexivity).
  all: destruct (json_loads _) as [j|e]; step_run.
  all: try (destruct e; step_run; rewrite ?Ht; right; eexists; eexists;
            reflexivity).
  all: destruct (ClassificationResult_new j) as [cr|msg];
    [left|right]; eexists; try eexists; reflexivity.
Qed.

End ClassifierCoverage.

(** ** More on fences *)

Lemma rstrip_app_blank (s w : str) :
  forallb isspace w = true -> rstrip (s ++ w) = rstrip s.
Proof.
  intros Hw; unfold rstrip; rewrite rev_app_distr.
  rewrite dropwhile_app_all; [reflexivity|].
  apply (lstrip_blank (rev w)).
  rewrite forallb_forall in *; intros x Hx; apply Hw; now apply in_rev.
Qed.

Lemma lstrip_app_blank (w s : str) :
  forallb isspace w = true -> lstrip (w ++ s) = lstrip s.
Proof.
  intros Hw; unfold lstrip; apply dropwhile_app_all; now apply lstrip_blank.
Qed.

(** White space around a string that has none at its ends is what
    [strip] removes. *)
Lemma strip_padded (pre s post : str) :
  forallb isspace pre = true -> forallb isspace post = true ->
  leading_space s = false -> trailing_space s = false ->
  strip (pre ++ s ++ post) = s.
Proof.
  intros Hpre Hpost Hl Hr; unfold strip.
  rewrite (lstrip_app_blank pre _ Hpre).
  destruct s as [|c s]; [simpl; now rewrite (lstrip_blank post Hpost)|].
  rewrite lstrip_fixed by exact Hl.
  rewrite (rstrip_app_blank _ post Hpost); now apply rstrip_fixed.
Qed.

Lemma startswith_app_cancel (p q s : str) :
  startswith (p ++ q) (p ++ s) = startswith q s.
Proof.
  induction p as [|x p IH]; simpl; [reflexivity|].
  now rewrite N.eqb_refl, IH.
Qed.

Lemma fenced_no_outer_space (body : str) :
  leading_space (fenced body) = false /\ trailing_space (fenced body) = false.
Proof.
  unfold fenced; split; [reflexivity|].
  rewrite app_assoc, trailing_space_app by discriminate; reflexivity.
Qed.

Section MoreFences.
Context `{PIL} `{JsonModule} `{!Pydantic} `{!JsonGrammar}.

(** The normalization of a fenced body with white space around the
    fences is the body. *)
Lemma normalize_padded_fenced (pre body post : str) :
  forallb isspace pre = true -> forallb isspace post = true ->
  normalize_response (pre ++ fenced body ++ post) = body.
Proof.
  intros Hpre Hpost.
  rewrite <- (normalize_fenced body) at 2.
  unfold normalize_response.
  destruct (fenced_no_outer_space body) as [Hl Hr].
  rewrite (strip_padded pre (fenced body) post Hpre Hpost Hl Hr).
  now rewrite (strip_fixed (fenced body) Hl Hr).
Qed.

(** X19 (fences). White space (blank lines, indentation) before the opening
    fence and after the closing fence does not matter: such a response
    with a JSON body gives the same outcome as the body alone. *)
Theorem space_around_fences_is_ignored (G1 G2 : GenerativeModel)
    (c : content) (req : Request) (r1 r2 : Response) (pre body post : str)
    (v : Json) (l : list str) :
  json_loads body = Ok v ->
  forallb isspace pre = true -> forallb isspace post = true ->
  request_for c = Some req ->
  @generate_content _ G1 req = Ok r1 ->
  @generate_content _ G2 req = Ok r2 ->
  prompt_feedback r1 = prompt_feedback r2 ->
  text r1 = AttrValue (pre ++ fenced body ++ post) ->
  text r2 = AttrValue body ->
  classify_with G1 c l = classify_with G2 c l.
Proof.
  intros Hbody Hpre Hpost Hreq Hgen1 Hgen2 Hfb Ht1 Ht2.
  assert (Hv1 : json_loads (normalize_response (pre ++ fenced body ++ post))
                = Ok v)
    by (now rewrite normalize_padded_fenced).
  apply normalize_json in Hbody as [Hn Hv2]; rewrite <- Hn in Hv2.
  eapply same_data_same_outcome; eassumption.
Qed.

(** A body that does not start with the tag does not start with it once
    the closing fence is appended. *)
Lemma tag_not_completed_by_fence (body : str) :
  startswith (lit "json") body = false ->
  startswith (lit "json") (body ++ lit "```") = false.
Proof.
  intros Htag.
  change (lit "json") with [106; 115; 111; 110]%N in *.
  destruct body as [|a [|b [|c [|d rest]]]]; cbn [startswith app] in *;
    try exact Htag;
    repeat match goal with
           | |- context [N.eqb ?x ?y] => is_var y; destruct (N.eqb x y)
           end;
    reflexivity.
Qed.

(** A fence without the language tag: only the closing fence is
    removed. *)
Lemma normalize_bare_fenced (body : str) :
  startswith (lit "json") body = false ->
  normalize_response (bare_fenced body) = lit "```" ++ body.
Proof.
  intros Htag; unfold normalize_response, bare_fenced; cbv zeta.
  rewrite strip_fixed.
  - change (lit "```json") with (lit "```" ++ lit "json").
    rewrite startswith_app_cancel, (tag_not_completed_by_fence body Htag).
    rewrite app_assoc, endswith_app.
    change 3%nat with (length (lit "```")); apply slice_to_minus_app.
  - reflexivity.
  - rewrite app_assoc, trailing_space_app by discriminate; reflexivity.
Qed.

(** X20 (fences). A response fenced with bare [```], without the [json]
    tag: the opening fence stays, the text is no JSON, and the
    classification fails with a [ValueError]. *)
Theorem bare_fence_is_rejected (G : GenerativeModel) (c : content)
    (req : Request) (r : Response) (body : str) (l : list str) :
  request_for c = Some req ->
  @generate_content _ G req = Ok r ->
  truthy (block_reason (prompt_feedback r)) = false ->
  text r = AttrValue (bare_fenced body) ->
  startswith (lit "json") body = false ->
  exists msg entry,
    classify_with G c l = (Raise (ValueError msg), l ++ [entry]).
Proof.
  intros Hreq Hgen Hblock Htext Htag.
  assert (Hbad : forall v, json_loads (normalize_response (bare_fenced body))
                           <> Ok v).
  { intros v Hv; apply loads_backtick in Hv as [Hfirst _].
    rewrite (normalize_bare_fenced body Htag) in Hfirst.
    change (lit "```" ++ body) with (lit "`" ++ (lit "``" ++ body)) in Hfirst.
    rewrite startswith_app in Hfirst; discriminate. }
  unfold normalize_response in Hbad; cbv zeta in Hbad.
  unfold classify_with.
  destruct c as [s|img|]; pick_request Hreq;
    simpl GeminiClassifier.classify_document; run_path;
    rewrite Hgen, Hblock; unfold hasattr_text, get_text; rewrite Htext;
    step_run;
    (destruct (json_loads _) as [j|e]; [now elim (Hbad j)|]);
    destruct e; step_run; rewrite ?Htext; eexists; eexists; reflexivity.
Qed.

End MoreFences.

(** ** The categories and the prompt *)

(** X21 (categories). The eight categories are distinct, "Others" (the
    fallback) is one of them, and the prompt defines every one of them
    under a numbered heading, in the order of the list. *)
Theorem prompt_defines_every_category :
  length GeminiClassifier.categories = 8
  /\ NoDup GeminiClassifier.categories
  /\ In (lit "Others") GeminiClassifier.categories
  /\ Forall
       (fun h => contains h GeminiClassifier._create_classification_prompt
                 = true)
       category_headings.
Proof.
  split; [reflexivity|split; [|split]].
  - unfold GeminiClassifier.categories.
    repeat (constructor;
            [intros Hin; apply list_in_In in Hin; discriminate Hin|]).
    constructor.
  - apply Others_is_a_category.
  - unfold category_headings, GeminiClassifier.categories; simpl headings_from.
    repeat (constructor; [vm_compute; reflexivity|]).
    constructor.
Qed.

(* ===================================================================== *)
(** * The script: the start of [main] and the click handler *)
(* ===================================================================== *)

(** Unfolds the page operations and reduces the record projections. *)
Ltac step_page :=
  cbn [file errors shown logged uploaded_file st_errors fst snd].

Ltac run_page :=
  unfold App.classify_clicked, try_except, bind, in_ui, in_log, show,
    page_error, seek, modify, ret, raise;
  step_page.

Section AppProperties.
Context `{PIL} `{PyPDF2} `{Docx} `{JsonModule} `{!Pydantic}
        `{!GenerativeModel} `{Formatting}.

(** X22 (start). [main] builds the classifier before it checks the API
    key: when the key is not set or empty the constructor's [ValueError]
    ends the run, and when it is set the check passes, so the warning
    "Gemini API key not found" is never shown in either case. *)
Theorem api_key_warning_is_never_shown (getenv : environ) (p : page) :
  exists r p',
    App.main_setup getenv p = (r, p')
    /\ errors p' = errors p
    /\ (falsy (getenv (lit "GEMINI_API_KEY")) = true ->
        r = Raise (ValueError
                     (lit "GEMINI_API_KEY environment variable not set.")))
    /\ (falsy (getenv (lit "GEMINI_API_KEY")) = false ->
        exists c, r = Ok c
                  /\ getenv (lit "GEMINI_API_KEY") = Some (configured_key c)
                  /\ self_categories c = GeminiClassifier.categories).
Proof.
  unfold App.main_setup, bind, show, page_error, modify, lift, ret, raise,
    __init__.
  destruct (getenv (lit "GEMINI_API_KEY")) as [[|c key]|]; simpl falsy;
    step_page; eexists; eexists; (split; [reflexivity|]);
    (split; [reflexivity|]); split; intros Hk; try discriminate Hk;
    try reflexivity.
  eexists; repeat split.
Qed.

(** ** The click on "Classify Document" *)

(** X23 (click). A document that cannot be read: after the extractor's
    message the script shows "Could not process the document" and
    returns; the classifier is not called, whatever the model is. *)
Theorem unreadable_document_is_not_classified (checked : bool) (p : page)
    (f : UploadedFile) (u : ui_state) :
  file p = Some f ->
  DocumentProcessor.extract_text (rewound f (errors p)) = (Ok None, u) ->
  App.classify_clicked checked p
  = (Ok Returned,
     page_after p u
       [cross_mark ++ lit " Could not process the document. It might be corrupted or in an unsupported format."]
       [Spinner (lit "Processing document...")] (logged p)).
Proof.
  destruct p as [pf errs ws l]; cbn [file errors]; intros -> Hext.
  unfold rewound in Hext.
  run_page; rewrite Hext; step_page.
  reflexivity.
Qed.

(** X24 (click). An extracted text of fewer than ten characters: the script
    shows "Could not extract sufficient text" and returns; the classifier
    is not called, whatever the model is. *)
Theorem short_text_is_not_classified (checked : bool) (p : page)
    (f : UploadedFile) (u : ui_state) (t : str) :
  file p = Some f ->
  DocumentProcessor.extract_text (rewound f (errors p))
  = (Ok (Some (Text t)), u) ->
  (length t < 10)%nat ->
  App.classify_clicked checked p
  = (Ok Returned,
     page_after p u
       [cross_mark ++ lit " Could not extract sufficient text from the document. Please ensure the document contains readable text."]
       [Spinner (lit "Processing document...")] (logged p)).
Proof.
  destruct p as [pf errs ws l]; cbn [file errors]; intros -> Hext Hshort.
  pose proof (returned_content_invariant _ _ _ Hext) as (_ & _ & Hstrip).
  unfold rewound in Hext.
  run_page; rewrite Hext; step_page.
  unfold App.too_short; rewrite Hstrip.
  apply Nat.ltb_lt in Hshort; rewrite Hshort.
  reflexivity.
Qed.

(** X25 (click). The classification raises: the script shows "Error
    processing document: " followed by the exception's message, and goes
    on; no result is shown. *)
Theorem classification_error_is_shown (checked : bool) (p : page)
    (f : UploadedFile) (u : ui_state) (c : content) (e : exn)
    (l' : list str) :
  file p = Some f ->
  DocumentProcessor.extract_text (rewound f (errors p)) = (Ok (Some c), u) ->
  App.too_short c = false ->
  GeminiClassifier.classify_document c (logged p) = (Raise e, l') ->
  App.classify_clicked checked p
  = (Ok Continued,
     page_after p u
       [cross_mark ++ lit " Error processing document: " ++ exn_str e]
       [Spinner (lit "Processing document...");
        Spinner (lit "Analyzing document with AI...")] l').
Proof.
  destruct p as [pf errs ws l]; cbn [file errors logged];
    intros -> Hext Hlong Hrun.
  unfold rewound in Hext.
  run_page; rewrite Hext; step_page.
  rewrite Hlong; step_page; rewrite Hrun; step_page.
  unfold page_after; cbn [shown]; rewrite <- app_assoc; reflexivity.
Qed.

(** The page after a shown result has the error area of the extraction. *)
Lemma classified_document_is_shown_run (checked : bool) (p : page)
    (f : UploadedFile) (u : ui_state) (c : content) (d : dict)
    (l' : list str) :
  file p = Some f ->
  DocumentProcessor.extract_text (rewound f (errors p)) = (Ok (Some c), u) ->
  App.too_short c = false ->
  GeminiClassifier.classify_document c (logged p) = (Ok d, l') ->
  exists p',
    App.classify_clicked checked p = (Ok Continued, p')
    /\ errors p' = st_errors u.
Proof.
  destruct p as [pf errs ws l]; cbn [file errors logged shown];
    intros -> Hext Hlong Hrun.
  pose proof (returned_dict_inversion _ _ _ _ Hrun)
    as (req & r & t & cr & Hreq & _ & _ & _ & _ & -> & ->).
  unfold rewound in Hext.
  run_page; rewrite Hext; step_page.
  rewrite Hlong; step_page; rewrite Hrun; step_page.
  unfold result_dict, nonempty; step_page.
  unfold App.show_result, bind, lift, show, modify, ret, subscript, has_key.
  cbn [getitem]; rewrite !str_eqb_refl.
  change (str_eqb (lit "confidence") (lit "category")) with false.
  change (str_eqb (lit "explanation") (lit "category")) with false.
  change (str_eqb (lit "explanation") (lit "confidence")) with false.
  step_page.
  destruct c as [s|img|]; [| |discriminate Hreq];
    unfold App.preview, bind, show, modify, ret;
    step_page; try destruct checked; step_page;
    eexists; split; reflexivity.
Qed.

(** X26 (click). The classification returns a dict: the script shows the
    success message, the category (one of the eight), the confidence (a
    value between 0.0 and 1.0, as the progress bar needs), the
    explanation and, for a text, the preview; no error is shown. *)
Theorem classified_document_is_shown (checked : bool) (p : page)
    (f : UploadedFile) (u : ui_state) (c : content) (d : dict)
    (l' : list str) :
  file p = Some f ->
  DocumentProcessor.extract_text (rewound f (errors p)) = (Ok (Some c), u) ->
  App.too_short c = false ->
  GeminiClassifier.classify_document c (logged p) = (Ok d, l') ->
  exists cat conf expl,
    In cat GeminiClassifier.categories
    /\ SFleb float_0_0 conf = true /\ SFleb conf float_1_0 = true
    /\ App.classify_clicked checked p
       = (Ok Continued,
          {| file := Some (uploaded_file u);
             errors := st_errors u;
             shown :=
               shown p
               ++ [ Spinner (lit "Processing document...");
                    Spinner (lit "Analyzing document with AI...");
                    Success (check_mark ++ lit " Classification Complete!");
                    Metric (bar_chart ++ lit " Document Type") (VStr cat);
                    Progress conf
                      (lit "Confidence Level: " ++ format_percent conf);
                    Subheader (light_bulb ++ lit " Analysis Details");
                    Write (VStr expl) ]
               ++ preview_widgets c checked;
             logged := logged p |}).
Proof.
  destruct p as [pf errs ws l]; cbn [file errors logged shown];
    intros -> Hext Hlong Hrun.
  pose proof (returned_dict_inversion _ _ _ _ Hrun)
    as (req & r & t & cr & Hreq & _ & _ & _ & _ & -> & ->).
  exists (if list_in (category cr) GeminiClassifier.categories
          then category cr else lit "Others"),
         (max2 float_0_0 (min2 float_1_0 (confidence cr))),
         (explanation cr).
  split; [destruct (list_in _ _) eqn:Hin;
          [now apply list_in_In|apply Others_is_a_category]|].
  split; [apply clamp_range|split; [apply clamp_range|]].
  unfold rewound in Hext.
  run_page; rewrite Hext; step_page.
  rewrite Hlong; step_page; rewrite Hrun; step_page.
  unfold result_dict, nonempty; step_page.
  unfold App.show_result, bind, lift, show, modify, ret, subscript, has_key.
  cbn [getitem]; rewrite !str_eqb_refl.
  change (str_eqb (lit "confidence") (lit "category")) with false.
  change (str_eqb (lit "explanation") (lit "category")) with false.
  change (str_eqb (lit "explanation") (lit "confidence")) with false.
  step_page.
  destruct c as [s|img|]; [| |discriminate Hreq];
    unfold App.preview, preview_widgets, bind, show, modify, ret;
    step_page; try destruct checked; step_page;
    rewrite <- ?app_assoc; reflexivity.
Qed.

(** The messages the handler can show differ from the message of the
    branch for an empty result. *)
Lemma extractor_message_differs (m : str) :
  lit "Error processing document: " ++ m <> giving_up.
Proof. intros E; apply (f_equal (hd 0%N)) in E; discriminate E. Qed.

Lemma handler_message_differs (m : str) :
  cross_mark ++ lit " Error processing document: " ++ m <> giving_up.
Proof.
  intros E; apply (f_equal (fun s => nth 2 s 0%N)) in E; discriminate E.
Qed.

(** X27 (click). The click never raises, whatever the libraries and the
    model do, and the message "Classification failed. Please try again."
    of the branch for an empty result is never shown: a returned dict is
    not empty. *)
Theorem click_never_raises_nor_gives_up (checked : bool) (p : page)
    (f : UploadedFile) :
  file p = Some f ->
  exists fl p' new,
    App.classify_clicked checked p = (Ok fl, p')
    /\ errors p' = errors p ++ new
    /\ ~ In giving_up new.
Proof.
  destruct p as [pf errs ws l]; cbn [file errors]; intros ->.
  destruct (extract_text_is_total (rewound f errs)) as (r & u & Hext).
  destruct r as [c|].
  - pose proof (returned_content_invariant _ _ _ Hext) as (_ & Herr & Hc).
    cbn [rewound st_errors] in Herr.
    destruct (App.too_short c) eqn:Hshort.
    + unfold rewound in Hext.
      run_page; rewrite Hext; step_page; rewrite Hshort; step_page.
      eexists; eexists; eexists; split; [reflexivity|].
      cbn [errors]; rewrite Herr; split; [reflexivity|].
      intros [E|[]]; apply (f_equal (fun s => nth 3 s 0%N)) in E.
      discriminate E.
    + destruct (GeminiClassifier.classify_document c l) as [[d|e] l'] eqn:Hrun.
      * destruct (classified_document_is_shown_run checked
                    {| file := Some f; errors := errs; shown := ws;
                       logged := l |} f u c d l' eq_refl Hext Hshort Hrun)
          as (p' & Hclick & Herrs).
        exists Continued, p', []; split; [exact Hclick|].
        rewrite Herrs, Herr, app_nil_r; split; [reflexivity|intros []].
      * unfold rewound in Hext.
        run_page; rewrite Hext; step_page; rewrite Hshort; step_page.
        rewrite Hrun; step_page.
        eexists; eexists; eexists; split; [reflexivity|].
        cbn [errors]; rewrite Herr; split; [reflexivity|].
        intros [E|[]]; exact (handler_message_differs _ E).
  - destruct (no_content_invariant _ _ Hext) as (m & Herr).
    cbn [rewound st_errors] in Herr.
    unfold rewound in Hext.
    run_page; rewrite Hext; step_page.
    eexists; eexists; eexists; split; [reflexivity|].
    cbn [errors]; rewrite Herr, <- app_assoc; split; [reflexivity|].
    intros [E|[E|[]]]; [exact (extractor_message_differs _ E)|].
    apply (f_equal (fun s => nth 3 s 0%N)) in E; discriminate E.
Qed.

(** X28 (preview). The preview is the text when it has at most 500
    characters, and its first 500 characters followed by "..." otherwise:
    never more than 503 characters. *)
Theorem preview_is_a_bounded_prefix (s : str) :
  (length (text_preview s) <= 503)%nat
  /\ firstn 500 (text_preview s) = firstn 500 s
  /\ ((length s <= 500)%nat -> text_preview s = s)
  /\ ((500 < length s)%nat -> text_preview s = firstn 500 s ++ lit "...").
Proof.
  unfold text_preview.
  destruct (Nat.ltb_spec 500 (length s)) as [Hlong|Hshort].
  - split; [|split; [|split]].
    + rewrite length_app, length_firstn.
      change (length (lit "...")) with 3%nat; lia.
    + rewrite firstn_app, length_firstn, firstn_firstn.
      replace (500 - Nat.min 500 (length s))%nat with 0%nat by lia.
      now rewrite app_nil_r.
    + lia.
    + reflexivity.
  - split; [|split; [|split]].
    + rewrite length_firstn; lia.
    + apply firstn_firstn.
    + intros _; now apply firstn_all2.
    + lia.
Qed.

(** X29 (click). The handler rewinds the file first: what it does is the
    same wherever the file's position was (the preview of an image may
    have read it). *)
Theorem click_rewinds_the_file (checked : bool) (p : page)
    (f : UploadedFile) (n : nat) :
  App.classify_clicked checked
    (with_upload p {| type := type f; data := data f; pos := n |})
  = App.classify_clicked checked (with_upload p f).
Proof.
  unfold with_upload; run_page.
  cbn [type data].
  reflexivity.
Qed.

End AppProperties.

(* ===================================================================== *)
(** * The further properties on concrete inputs *)
(* ===================================================================== *)

Section MoreConcreteRuns.

(** ** The extractor *)

Lemma pdf_reader_failure_is_reported_witness :
  @DocumentProcessor.extract_text Doubles.pil Cases.broken_pdf
     (Doubles.docx (Ok [])) (Doubles.upload pdf_type Doubles.cafe)
  = (Ok None,
     with_error (after_read (Doubles.upload pdf_type Doubles.cafe))
       (lit "Error processing document: Failed to extract text from PDF: EOF marker not found")).
Proof.
  destruct (@pdf_reader_failure_is_reported
              Doubles.pil Cases.broken_pdf (Doubles.docx (Ok []))
              (Doubles.upload pdf_type Doubles.cafe)
              (Exception (lit "EOF marker not found")) eq_refl)
    as [_ Hrun].
  exact (Hrun eq_refl).
Defined.

Lemma pdf_page_failure_discards_text_witness :
  @DocumentProcessor._extract_from_pdf Cases.torn_pdf
     (Doubles.upload pdf_type Doubles.cafe)
  = (Raise (Exception (lit "Failed to extract text from PDF: bad page")),
     after_read (Doubles.upload pdf_type Doubles.cafe)).
Proof.
  destruct (@pdf_page_failure_discards_text
              Doubles.pil Cases.torn_pdf (Doubles.docx (Ok []))
              (Doubles.upload pdf_type Doubles.cafe)
              [Ok (lit "Page one")] [lit "Page one"]
              (Raise (Exception (lit "bad page"))) [Ok (lit "Page three")]
              (Exception (lit "bad page")) eq_refl
              (Forall2_cons _ _ eq_refl (Forall2_nil _)) eq_refl)
    as [Hrun _].
  exact Hrun.
Defined.

Lemma docx_text_is_stripped_join_witness :
  @DocumentProcessor.extract_text Doubles.pil (Doubles.pypdf2 (Ok []))
     (Doubles.docx (Ok Cases.letter)) (Doubles.upload docx_type Doubles.cafe)
  = (Ok (Some (Text (lit "Dear Sir" ++ nl ++ nl ++ lit "Thanks"))),
     after_read (Doubles.upload docx_type Doubles.cafe)).
Proof.
  destruct (@docx_text_is_stripped_join
              Doubles.pil (Doubles.pypdf2 (Ok []))
              (Doubles.docx (Ok Cases.letter))
              (Doubles.upload docx_type Doubles.cafe) Cases.letter eq_refl)
    as (_ & _ & _ & _ & Hrun).
  exact (Hrun eq_refl).
Defined.

Lemma docx_failure_is_reported_witness :
  @DocumentProcessor.extract_text Doubles.pil (Doubles.pypdf2 (Ok []))
     Cases.broken_docx (Doubles.upload docx_type Doubles.cafe)
  = (Ok None,
     with_error (after_read (Doubles.upload docx_type Doubles.cafe))
       (lit "Error processing document: Failed to extract text from Word document: File is not a zip file")).
Proof.
  destruct (@docx_failure_is_reported
              Doubles.pil (Doubles.pypdf2 (Ok [])) Cases.broken_docx
              (Doubles.upload docx_type Doubles.cafe)
              (Exception (lit "File is not a zip file")) eq_refl)
    as [_ Hrun].
  exact (Hrun eq_refl).
Defined.

Lemma utf8_text_is_returned_stripped_witness :
  @DocumentProcessor.extract_text Doubles.pil (Doubles.pypdf2 (Ok []))
     (Doubles.docx (Ok [])) (Doubles.upload text_type Cases.cafe_utf8)
  = (Ok (Some (Text [99; 97; 102; 233]%N)),
     after_read (Doubles.upload text_type Cases.cafe_utf8)).
Proof.
  destruct (@utf8_text_is_returned_stripped
              Doubles.pil (Doubles.pypdf2 (Ok [])) (Doubles.docx (Ok []))
              (Doubles.upload text_type Cases.cafe_utf8)
              [99; 97; 102; 233; 10]%N eq_refl)
    as [_ Hrun].
  exact (Hrun eq_refl).
Defined.

(** The position is after "caf": the text still starts with it. *)
Lemma latin1_retry_rereads_whole_file_witness :
  bytes_read Cases.cafe_partly_read = [xe9]
  /\ DocumentProcessor._extract_from_text Cases.cafe_partly_read
     = (Ok [99; 97; 102; 233]%N, after_reread Cases.cafe_partly_read).
Proof.
  split; [reflexivity|].
  exact (latin1_retry_rereads_whole_file Cases.cafe_partly_read eq_refl).
Defined.

Lemma extraction_consumes_the_file_witness :
  bytes_read
    (snd (@DocumentProcessor.extract_text Doubles.pil
            (Doubles.pypdf2 (Ok [])) (Doubles.docx (Ok []))
            (Doubles.upload text_type Cases.invoice_bytes))) = []
  /\ fst (@DocumentProcessor.extract_text Doubles.pil
            (Doubles.pypdf2 (Ok [])) (Doubles.docx (Ok []))
            (snd (@DocumentProcessor.extract_text Doubles.pil
                    (Doubles.pypdf2 (Ok [])) (Doubles.docx (Ok []))
                    (Doubles.upload text_type Cases.invoice_bytes))))
     = Ok (Some (Text [])).
Proof.
  destruct (@extraction_consumes_the_file
              Doubles.pil (Doubles.pypdf2 (Ok [])) (Doubles.docx (Ok []))
              (Doubles.upload text_type Cases.invoice_bytes)
              (or_intror (or_introl eq_refl)))
    as [Hread Hagain].
  split; [exact Hread|exact (Hagain eq_refl)].
Defined.

Lemma extracted_text_is_stripped_witness :
  @DocumentProcessor.extract_text Doubles.pil (Doubles.pypdf2 (Ok []))
     (Doubles.docx (Ok [])) (Doubles.upload text_type Cases.hi_bytes)
  = (Ok (Some (Text (lit "hi"))),
     after_read (Doubles.upload text_type Cases.hi_bytes))
  /\ strip (lit "hi") = lit "hi".
Proof.
  split; [reflexivity|].
  destruct (@extracted_text_is_stripped
              Doubles.pil (Doubles.pypdf2 (Ok [])) (Doubles.docx (Ok []))
              (Doubles.upload text_type Cases.hi_bytes)
              (after_read (Doubles.upload text_type Cases.hi_bytes))
              (lit "hi") eq_refl)
    as [Hstrip _].
  exact Hstrip.
Defined.

(** A partly read image is opened from its first byte. *)
Lemma image_upload_is_opened_witness :
  bytes_read Cases.scan_partly_read = [x47; x0d; x0a; x1a; x0a]
  /\ fst (@DocumentProcessor.extract_text Doubles.pil (Doubles.pypdf2 (Ok []))
            (Doubles.docx (Ok [])) Cases.scan_partly_read)
     = Ok (Some (Picture Doubles.scan))
  /\ st_errors
       (snd (@DocumentProcessor.extract_text Doubles.pil
               (Doubles.pypdf2 (Ok [])) (Doubles.docx (Ok []))
               Cases.scan_partly_read))
     = [].
Proof.
  split; [reflexivity|].
  exact (@image_upload_is_opened
           Doubles.pil (Doubles.pypdf2 (Ok [])) (Doubles.docx (Ok []))
           Cases.scan_partly_read eq_refl).
Defined.

End MoreConcreteRuns.

Section MoreClassifierRuns.

#[local] Existing Instance Doubles.pil.
#[local] Existing Instance Doubles.json_module.
#[local] Existing Instance Doubles.pydantic.

(** ** The classifier *)

(** The answer "Memo" with confidence 0.5 gives a dict of the three keys
    with a listed category and a confidence in the range. *)
Lemma returned_dict_is_valid_witness :
  exists cat conf expl,
    classify_with (Doubles.answering Doubles.memo_answer) (Text Doubles.note) []
    = (Ok [ (lit "category", VStr cat); (lit "confidence", VFloat conf);
            (lit "explanation", VStr expl) ], [])
    /\ In cat GeminiClassifier.categories
    /\ SFleb float_0_0 conf = true /\ SFleb conf float_1_0 = true.
Proof.
  destruct
    (@returned_dict_is_valid
       Doubles.pil Doubles.json_module Doubles.pydantic
       (Doubles.answering Doubles.memo_answer)
       (Text Doubles.note) [] []
       [ (lit "category", VStr (lit "Others"));
         (lit "confidence",
          VFloat (S754_finite false 4503599627370496 (-53)));
         (lit "explanation", VStr (lit "an internal note")) ])
    as (_ & cat & conf & expl & Hd & Hcat & Hlow & Hhigh);
    [vm_compute; reflexivity|].
  exists cat, conf, expl; rewrite <- Hd.
  split; [vm_compute; reflexivity|].
  split; [exact Hcat|]. split; [exact Hlow|exact Hhigh].
Defined.

Lemma dict_needs_a_parsed_response_witness :
  exists req r t cr,
    request_for (Text Doubles.note) = Some req
    /\ @generate_content _ (Doubles.answering Doubles.memo_answer) req = Ok r
    /\ truthy (block_reason (prompt_feedback r)) = false
    /\ text r = AttrValue t
    /\ parse_response t = Ok cr
    /\ explanation cr = lit "an internal note".
Proof.
  destruct
    (@dict_needs_a_parsed_response
       Doubles.pil Doubles.json_module Doubles.pydantic
       (Doubles.answering Doubles.memo_answer)
       (Text Doubles.note) [] []
       [ (lit "category", VStr (lit "Others"));
         (lit "confidence",
          VFloat (S754_finite false 4503599627370496 (-53)));
         (lit "explanation", VStr (lit "an internal note")) ])
    as (req & r & t & cr & Hreq & Hgen & Hb & Ht & Hp & Hget);
    [vm_compute; reflexivity|].
  exists req, r, t, cr.
  repeat (split; [assumption|]).
  vm_compute in Hget. injection Hget as Hget. symmetry; exact Hget.
Defined.

Lemma permission_denied_gives_key_hint_witness :
  classify_with Cases.denied (Text Doubles.note) []
  = (Raise (ValueError
              (lit "Classification failed: Permission denied. Please check if your GEMINI_API_KEY is correct and has the necessary permissions.")),
     [lit "Permission Denied error: API key not valid"]).
Proof.
  exact (@permission_denied_gives_key_hint
           Doubles.pil Doubles.json_module Doubles.pydantic Cases.denied
           (Text Doubles.note) Doubles.note_request
           (lit "API key not valid") [] eq_refl eq_refl).
Defined.

Lemma remote_error_is_wrapped_witness :
  classify_with Cases.unreachable (Picture Doubles.scan) []
  = (Raise (ValueError
              (lit "An unexpected error occurred during classification: 503 Service Unavailable")),
     [lit "An unexpected classification error occurred: 503 Service Unavailable"]).
Proof.
  apply (@remote_error_is_wrapped
           Doubles.pil Doubles.json_module Doubles.pydantic Cases.unreachable
           (Picture Doubles.scan)
           (PartsRequest GeminiClassifier._create_classification_prompt
                         Doubles.scan)
           (Exception (lit "503 Service Unavailable")) []);
    [reflexivity|reflexivity|discriminate|discriminate].
Defined.

Lemma client_json_error_escapes_witness :
  exists msg,
    classify_with Cases.garbled (Text Doubles.note) [lit "earlier entry"]
    = (Raise (UnboundLocalError msg), [lit "earlier entry"]).
Proof.
  exact (@client_json_error_escapes
           Doubles.pil Doubles.json_module Doubles.pydantic Cases.garbled
           (Text Doubles.note) Doubles.note_request
           (lit "Expecting value") [lit "earlier entry"] eq_refl eq_refl).
Defined.

Lemma empty_response_fails_witness :
  classify_with (Doubles.model (Ok Cases.textless_response))
    (Text Doubles.note) []
  = (Raise (ValueError
              (lit "An unexpected error occurred during classification: Classification failed: The AI returned an empty response.")),
     [lit "An unexpected classification error occurred: Classification failed: The AI returned an empty response."]).
Proof.
  exact (@empty_response_fails
           Doubles.pil Doubles.json_module Doubles.pydantic
           (Doubles.model (Ok Cases.textless_response))
           (Text Doubles.note) Doubles.note_request
           Cases.textless_response [] eq_refl eq_refl eq_refl eq_refl).
Defined.

(** An answer with the category alone is valid JSON and no valid
    result. *)
Lemma invalid_fields_fail_witness :
  classify_with (Doubles.answering Cases.incomplete_answer)
    (Text Doubles.note) []
  = (Raise (ValueError
              (lit "An unexpected error occurred during classification: validation error for ClassificationResult")),
     [lit "An unexpected classification error occurred: validation error for ClassificationResult"]).
Proof.
  apply (@invalid_fields_fail
           Doubles.pil Doubles.json_module Doubles.pydantic
           (Doubles.answering Cases.incomplete_answer)
           (Text Doubles.note) Doubles.note_request
           (Doubles.plain_response Cases.incomplete_answer)
           Cases.incomplete_answer
           (lit "validation error for ClassificationResult")
           (JsonDecoder.JObject
              [(lit "category", JsonDecoder.JString (lit "Invoice"))])
           []);
    try reflexivity; vm_compute; reflexivity.
Defined.

Lemma every_failure_is_one_ValueError_witness :
  (exists d,
     classify_with Cases.unreachable (Text Doubles.note) [] = (Ok d, []))
  \/ (exists msg entry,
        classify_with Cases.unreachable (Text Doubles.note) []
        = (Raise (ValueError msg), [] ++ [entry])).
Proof.
  exact (@every_failure_is_one_ValueError
           Doubles.pil Doubles.json_module Doubles.pydantic Cases.unreachable
           (Text Doubles.note) Doubles.note_request [] eq_refl I).
Defined.

(** ** Fences *)

(** A fenced answer between a newline with two blanks on each side gives
    what the bare answer gives. *)
Lemma space_around_fences_is_ignored_witness :
  classify_with
    (Doubles.answering
       (Cases.newline_padding ++ fenced Doubles.invoice_answer
        ++ Cases.newline_padding))
    (Text Doubles.note) []
  = classify_with (Doubles.answering Doubles.invoice_answer)
      (Text Doubles.note) [].
Proof.
  apply (@space_around_fences_is_ignored
           Doubles.pil Doubles.json_module Doubles.pydantic
           JsonDecoderFacts.decoder_grammar
           (Doubles.answering
              (Cases.newline_padding ++ fenced Doubles.invoice_answer
               ++ Cases.newline_padding))
           (Doubles.answering Doubles.invoice_answer)
           (Text Doubles.note) Doubles.note_request
           (Doubles.plain_response
              (Cases.newline_padding ++ fenced Doubles.invoice_answer
               ++ Cases.newline_padding))
           (Doubles.plain_response Doubles.invoice_answer)
           Cases.newline_padding Doubles.invoice_answer Cases.newline_padding
           (JsonDecoder.JObject
              [(lit "category", JsonDecoder.JString (lit "Invoice"));
               (lit "confidence",
                JsonDecoder.JFloat
                  (S754_finite false 8376695306909123 (-53)));
               (lit "explanation", JsonDecoder.JString (lit "payment terms"))])
           []);
    try reflexivity.
Defined.

(** The invoice answer between bare fences is not classified. *)
Lemma bare_fence_is_rejected_witness :
  exists msg entry,
    classify_with (Doubles.answering (bare_fenced Doubles.invoice_answer))
      (Text Doubles.note) []
    = (Raise (ValueError msg), [] ++ [entry]).
Proof.
  exact (@bare_fence_is_rejected
           Doubles.pil Doubles.json_module Doubles.pydantic
           JsonDecoderFacts.decoder_grammar
           (Doubles.answering (bare_fenced Doubles.invoice_answer))
           (Text Doubles.note) Doubles.note_request
           (Doubles.plain_response (bare_fenced Doubles.invoice_answer))
           Doubles.invoice_answer [] eq_refl eq_refl eq_refl eq_refl eq_refl).
Defined.

End MoreClassifierRuns.

Section MoreAppRuns.

(** ** The page *)

Lemma unreadable_document_is_not_classified_witness :
  @App.classify_clicked Doubles.pil Cases.broken_pdf (Doubles.docx (Ok []))
     Doubles.json_module Doubles.pydantic
     (Doubles.answering Doubles.invoice_answer) Cases.formatting
     true (Cases.fresh_page pdf_type Doubles.cafe)
  = (Ok Returned,
     {| file := Some {| type := pdf_type; data := Doubles.cafe; pos := 4 |};
        errors :=
          [ lit "Error processing document: Failed to extract text from PDF: EOF marker not found";
            cross_mark ++ lit " Could not process the document. It might be corrupted or in an unsupported format." ];
        shown := [Spinner (lit "Processing document...")];
        logged := [] |}).
Proof.
  exact (@unreadable_document_is_not_classified
           Doubles.pil Cases.broken_pdf (Doubles.docx (Ok []))
           Doubles.json_module Doubles.pydantic
           (Doubles.answering Doubles.invoice_answer) Cases.formatting
           true (Cases.fresh_page pdf_type Doubles.cafe)
           {| type := pdf_type; data := Doubles.cafe; pos := 0 |}
           (with_error (after_read (Doubles.upload pdf_type Doubles.cafe))
              (lit "Error processing document: Failed to extract text from PDF: EOF marker not found"))
           eq_refl eq_refl).
Defined.

Lemma short_text_is_not_classified_witness :
  @App.classify_clicked Doubles.pil (Doubles.pypdf2 (Ok []))
     (Doubles.docx (Ok [])) Doubles.json_module Doubles.pydantic
     (Doubles.answering Doubles.invoice_answer) Cases.formatting
     true (Cases.fresh_page text_type Cases.hi_bytes)
  = (Ok Returned,
     {| file := Some {| type := text_type; data := Cases.hi_bytes; pos := 5 |};
        errors :=
          [ cross_mark ++ lit " Could not extract sufficient text from the document. Please ensure the document contains readable text." ];
        shown := [Spinner (lit "Processing document...")];
        logged := [] |}).
Proof.
  apply (@short_text_is_not_classified
           Doubles.pil (Doubles.pypdf2 (Ok [])) (Doubles.docx (Ok []))
           Doubles.json_module Doubles.pydantic
           (Doubles.answering Doubles.invoice_answer) Cases.formatting
           true (Cases.fresh_page text_type Cases.hi_bytes)
           {| type := text_type; data := Cases.hi_bytes; pos := 0 |}
           (after_read (Doubles.upload text_type Cases.hi_bytes))
           (lit "hi"));
    [reflexivity|reflexivity|simpl; lia].
Defined.

Lemma classification_error_is_shown_witness :
  @App.classify_clicked Doubles.pil (Doubles.pypdf2 (Ok []))
     (Doubles.docx (Ok [])) Doubles.json_module Doubles.pydantic
     Cases.denied Cases.formatting
     false (Cases.fresh_page text_type Cases.invoice_bytes)
  = (Ok Continued,
     {| file :=
          Some {| type := text_type; data := Cases.invoice_bytes; pos := 32 |};
        errors :=
          [ cross_mark ++ lit " Error processing document: Classification failed: Permission denied. Please check if your GEMINI_API_KEY is correct and has the necessary permissions." ];
        shown := [ Spinner (lit "Processing document...");
                   Spinner (lit "Analyzing document with AI...") ];
        logged := [lit "Permission Denied error: API key not valid"] |}).
Proof.
  apply (@classification_error_is_shown
           Doubles.pil (Doubles.pypdf2 (Ok [])) (Doubles.docx (Ok []))
           Doubles.json_module Doubles.pydantic Cases.denied Cases.formatting
           false (Cases.fresh_page text_type Cases.invoice_bytes)
           {| type := text_type; data := Cases.invoice_bytes; pos := 0 |}
           Cases.invoice_read (Text Cases.invoice_text)
           (ValueError
              (lit "Classification failed: Permission denied. Please check if your GEMINI_API_KEY is correct and has the necessary permissions."))
           [lit "Permission Denied error: API key not valid"]);
    vm_compute; reflexivity.
Defined.

Lemma classified_document_is_shown_witness :
  exists cat conf expl,
    In cat GeminiClassifier.categories
    /\ SFleb float_0_0 conf = true /\ SFleb conf float_1_0 = true
    /\ @App.classify_clicked Doubles.pil (Doubles.pypdf2 (Ok []))
         (Doubles.docx (Ok [])) Doubles.json_module Doubles.pydantic
         (Doubles.answering Doubles.invoice_answer) Cases.formatting
         true (Cases.fresh_page text_type Cases.invoice_bytes)
       = (Ok Continued,
          {| file :=
               Some {| type := text_type; data := Cases.invoice_bytes;
                       pos := 32 |};
             errors := [];
             shown :=
               [ Spinner (lit "Processing document...");
                 Spinner (lit "Analyzing document with AI...");
                 Success (check_mark ++ lit " Classification Complete!");
                 Metric (bar_chart ++ lit " Document Type") (VStr cat);
                 Progress conf (lit "Confidence Level: n/a");
                 Subheader (light_bulb ++ lit " Analysis Details");
                 Write (VStr expl);
                 Checkbox (eye ++ lit " Show extracted text preview");
                 Subheader (memo ++ lit " Extracted Text Preview");
                 TextArea (lit "Document Content") Cases.invoice_text ];
             logged := [] |}).
Proof.
  apply (@classified_document_is_shown
           Doubles.pil (Doubles.pypdf2 (Ok [])) (Doubles.docx (Ok []))
           Doubles.json_module Doubles.pydantic
           (Doubles.answering Doubles.invoice_answer) Cases.formatting
           true (Cases.fresh_page text_type Cases.invoice_bytes)
           {| type := text_type; data := Cases.invoice_bytes; pos := 0 |}
           Cases.invoice_read (Text Cases.invoice_text)
           [ (lit "category", VStr (lit "Invoice"));
             (lit "confidence",
              VFloat (S754_finite false 8376695306909123 (-53)));
             (lit "explanation", VStr (lit "payment terms")) ]
           []);
    vm_compute; reflexivity.
Defined.

Lemma click_never_raises_nor_gives_up_witness :
  exists fl p' new,
    @App.classify_clicked Doubles.pil (Doubles.pypdf2 (Ok []))
       (Doubles.docx (Ok [])) Doubles.json_module Doubles.pydantic
       Cases.garbled Cases.formatting
       true (Cases.fresh_page text_type Cases.invoice_bytes)
    = (Ok fl, p')
    /\ errors p' = [] ++ new
    /\ ~ In giving_up new.
Proof.
  exact (@click_never_raises_nor_gives_up
           Doubles.pil (Doubles.pypdf2 (Ok [])) (Doubles.docx (Ok []))
           Doubles.json_module Doubles.pydantic Cases.garbled Cases.formatting
           true (Cases.fresh_page text_type Cases.invoice_bytes)
           {| type := text_type; data := Cases.invoice_bytes; pos := 0 |}
           eq_refl).
Defined.

End MoreAppRuns.
